(** * Verification of the pyBNF adaptation layer of [optimizations]

    Shallow embedding of [src/optimizations/custom_classes.py] and
    [src/optimizations/interface.py].  Python strings are lists of ASCII
    characters, dictionaries are insertion-ordered association lists,
    raised exceptions are the [Raise] branch of [result]. *)

From Stdlib Require Import Ascii String.
From Stdlib Require Import List Arith Lia NArith ZArith Bool QArith.
Import ListNotations.

Close Scope Q_scope.
Open Scope list_scope.
Set Warnings "-register-all".

(** ** Python values, exceptions and the error monad *)

Definition pystr := list ascii.

(** A string literal as a Python [str]. *)
Definition lit (s : string) : pystr := list_ascii_of_string s.

Inductive exc :=
| ValueError (msg : pystr)
| IndexError
| KeyError (k : pystr)
| TypeError
| AssertionError
| InvalidStateError
| RecursionError
| NameError (name : pystr)
| ValidationError (cause : exc)
| RuntimeError (msg : pystr)
| AttributeError (name : pystr)
| StopIteration
| UserException (tag : nat).

Inductive result (A : Type) :=
| Ok (a : A)
| Raise (e : exc).
Arguments Ok {A} a.
Arguments Raise {A} e.

Definition bind {A B} (m : result A) (k : A -> result B) : result B :=
  match m with
  | Ok a => k a
  | Raise e => Raise e
  end.

Notation "'let*' x ':=' m 'in' k" := (bind m (fun x => k))
  (at level 200, x name, m at level 100, k at level 200).

Definition pystr_eqb (a b : pystr) : bool :=
  if list_eq_dec ascii_dec a b then true else false.

Fixpoint startswith (s prefix : pystr) {struct prefix} : bool :=
  match prefix, s with
  | [], _ => true
  | p :: prefix', c :: s' => if ascii_dec p c then startswith s' prefix' else false
  | _ :: _, [] => false
  end.

(** Python's [str.__lt__]: code-point lexicographic order, a proper prefix
    is smaller. *)
Fixpoint py_str_lt (a b : pystr) : bool :=
  match a, b with
  | [], [] => false
  | [], _ :: _ => true
  | _ :: _, [] => false
  | c :: a', d :: b' =>
      if ascii_dec c d then py_str_lt a' b'
      else Nat.ltb (nat_of_ascii c) (nat_of_ascii d)
  end.

(** ** Integer formatting: [f"{i:0{10}d}"] for [i >= 0] *)

Definition digit_char (d : N) : ascii := ascii_of_N (48 + d).

(** [str(n)]: most significant digit first, ["0"] for zero. *)
Fixpoint str_of_N_aux (fuel : nat) (n : N) : pystr :=
  match fuel with
  | O => []
  | S f =>
      if (n <? 10)%N then [digit_char n]
      else str_of_N_aux f (n / 10)%N ++ [digit_char (n mod 10)%N]
  end.

Definition str_of_N (n : N) : pystr :=
  str_of_N_aux (S (N.to_nat (N.size n))) n.

(** Format spec ["0" width "d"]: left-pad with ['0'] up to [width],
    never truncate. *)
Definition zero_pad (width : nat) (s : pystr) : pystr :=
  repeat "0"%char (width - length s) ++ s.

Definition fmt_010d (i : N) : pystr := zero_pad 10 (str_of_N i).

(** [f"x{i:0{10}d}"] and [f"y{i:0{10}d}"] *)
Definition colname (prefix : ascii) (i : N) : pystr := prefix :: fmt_010d i.

(** ** numpy arrays *)

Section Arrays.

Variable A : Type.
(** Numeric value of a Python [int], for [np.arange]. *)
Variable of_nat : nat -> A.

(** A numpy array by dimensionality.  A 2-D array keeps its column count,
    which a [(n, 0)] or [(0, k)] array does not show in its rows; of an
    array with three or more axes only the shape is kept, since the adapter
    looks at nothing else of it. *)
Inductive ndarray :=
| Scalar (v : A)
| Vec (v : list A)
| Mat (ncols : nat) (rows : list (list A))
| Tensor (shape : list nat).

Definition ndim (x : ndarray) : nat :=
  match x with
  | Scalar _ => 0
  | Vec _ => 1
  | Mat _ _ => 2
  | Tensor sh => length sh
  end.

(** [x.shape[0]]: [IndexError] on a 0-d array. *)
Definition shape0 (x : ndarray) : result nat :=
  match x with
  | Scalar _ => Raise IndexError
  | Vec v => Ok (length v)
  | Mat _ rows => Ok (length rows)
  | Tensor [] => Raise IndexError
  | Tensor (n :: _) => Ok n
  end.

(** The shape invariant numpy maintains. *)
Definition wf_array (x : ndarray) : Prop :=
  match x with
  | Mat c rows => Forall (fun r => length r = c) rows
  | Tensor sh => 3 <= length sh
  | _ => True
  end.

(** [np.atleast_2d(v).T] for a 1-D [v]: a single column. *)
Definition atleast_2d_T (v : list A) : ndarray := Mat 1 (map (fun a => [a]) v).

(** [np.hstack] of 2-D arrays with equal row counts. *)
Definition hcat (r1 r2 : list (list A)) : list (list A) :=
  map (fun '(a, b) => a ++ b) (combine r1 r2).

Fixpoint hstack (xs : list ndarray) : result ndarray :=
  match xs with
  | [] => Raise (ValueError (lit "need at least one array to concatenate"))
  | [Mat c rows] => Ok (Mat c rows)
  | Mat c rows :: rest =>
      let* r := hstack rest in
      match r with
      | Mat c' rows' =>
          if Nat.eqb (length rows) (length rows')
          then Ok (Mat (c + c') (hcat rows rows'))
          else Raise (ValueError (lit "all the input array dimensions except for the concatenation axis must match exactly"))
      | _ => Raise (ValueError (lit "all the input arrays must have same number of dimensions"))
      end
  | _ :: _ => Raise (ValueError (lit "all the input arrays must have same number of dimensions"))
  end.

(** [np.atleast_2d(np.arange(n)).T] *)
Definition arange_col (n : nat) : ndarray :=
  Mat 1 (map (fun i => [of_nat i]) (seq 0 n)).

(** [arr[:, idxs]]: column selection, [IndexError] out of range. *)
Fixpoint select_cols (idxs : list nat) (row : list A) : result (list A) :=
  match idxs with
  | [] => Ok []
  | i :: idxs' =>
      match nth_error row i with
      | None => Raise IndexError
      | Some a => let* r := select_cols idxs' row in Ok (a :: r)
      end
  end.

Fixpoint select_rows (idxs : list nat) (rows : list (list A)) : result (list (list A)) :=
  match rows with
  | [] => Ok []
  | r :: rows' =>
      let* r' := select_cols idxs r in
      let* rs := select_rows idxs rows' in
      Ok (r' :: rs)
  end.

(** ** [CustomData] *)

(** The attributes of a [pybnf.data.Data] object that the adapter sets:
    [_data] (set from [arr=] by the constructor), [cols], [headers] and
    [indvar].  Dictionaries are association lists in insertion order. *)
Record CustomData := {
  cd_data : ndarray;
  cd_cols : list (pystr * nat);
  cd_headers : list (nat * pystr);
  cd_indvar : pystr
}.

Definition enumerate {B} (l : list B) : list (nat * B) := combine (seq 0 (length l)) l.

Definition make_colnames (ncols_x ncols_y : nat) : list pystr :=
  [lit "time"]
  ++ map (fun i => colname "x" (N.of_nat i)) (seq 0 ncols_x)
  ++ map (fun i => colname "y" (N.of_nat i)) (seq 0 ncols_y).

(** [CustomData.from_x_and_y] *)
Definition from_x_and_y (x y : ndarray) : result CustomData :=
  let x := if Nat.eqb (ndim x) 1 then match x with Vec v => atleast_2d_T v | _ => x end else x in
  let y := if Nat.eqb (ndim y) 1 then match y with Vec v => atleast_2d_T v | _ => y end else y in
  let* nx := shape0 x in
  let* ny := shape0 y in
  if negb (Nat.eqb nx ny) then
    Raise (ValueError (lit "different number of observations between dependent and independent variables"))
  else if orb (2 <? ndim x) (2 <? ndim y) then
    Raise (ValueError (lit "wrong dimensionality (>2)"))
  else
    match x, y with
    | Mat ncols_x _, Mat ncols_y _ =>
        let t := arange_col nx in
        let* xy := hstack [t; x; y] in
        let colnames := make_colnames ncols_x ncols_y in
        Ok {| cd_data := xy;
              cd_cols := map (fun '(i, c) => (c, i)) (enumerate colnames);
              cd_headers := enumerate colnames;
              cd_indvar := lit "time" |}
    | _, _ => Raise IndexError (* x.shape[1] of a non-2-D array; not reached *)
    end.

(** [CustomData.get_data_arr] *)
Definition get_data_arr (d : CustomData) : result ndarray :=
  let data_indxs := map fst (filter (fun '(_, col) => startswith col (lit "x")) (cd_headers d)) in
  match cd_data d with
  | Mat _ rows =>
      let* rows' := select_rows data_indxs rows in
      Ok (Mat (length data_indxs) rows')
  | _ => Raise IndexError
  end.

End Arrays.

Arguments Scalar {A} v.
Arguments Vec {A} v.
Arguments Mat {A} ncols rows.
Arguments Tensor {A} shape.

Arguments hstack {A} xs.
Arguments arange_col {A} of_nat n.
Arguments select_cols {A} idxs row.
Arguments select_rows {A} idxs rows.
Arguments from_x_and_y {A} of_nat x y.
Arguments get_data_arr {A} d.
Arguments wf_array {A} x.
Arguments ndim {A} x.
Arguments shape0 {A} x.
Arguments hcat {A} r1 r2.
Arguments atleast_2d_T {A} v.

(** ** numpy dtypes and [np.hstack]'s type promotion *)















(** Integer-valued arrays for concrete runs. *)
Definition Zarr := ndarray Z.
Definition Z_of_nat' (n : nat) : Z := Z.of_nat n.

Example ex_names :
  make_colnames 2 1 = [lit "time"; lit "x0000000000"; lit "x0000000001"; lit "y0000000000"].
Proof. reflexivity. Qed.

Example ex_roundtrip :
  (let* d := from_x_and_y Z_of_nat' (Mat 2 [[5; 6]; [7; 8]]%Z) (Vec [1; 2]%Z) in get_data_arr d)
  = Ok (Mat 2 [[5; 6]; [7; 8]]%Z).
Proof. reflexivity. Qed.

(** ** Python values and dictionaries *)

(** Values as the configuration dictionaries and objects hold them.  Lists
    and tuples inside a configuration dictionary are kept as values; an
    object on the heap (function, numpy array, list, class instance) is
    reached through [PRef]. *)
Inductive pyval :=
| PNone
| PBool (b : bool)
| PInt (z : Z)
| PStr (s : pystr)
| PList (l : list pyval)
| PTuple (l : list pyval)
| PRef (a : nat).

(** An insertion-ordered [dict] with string keys. *)
Definition dict := list (pystr * pyval).

Fixpoint dict_get (d : dict) (k : pystr) : option pyval :=
  match d with
  | [] => None
  | (k', v) :: d' => if pystr_eqb k' k then Some v else dict_get d' k
  end.

Definition dict_in (d : dict) (k : pystr) : bool :=
  match dict_get d k with Some _ => true | None => false end.

(** [d[k]] *)
Definition dict_getitem (d : dict) (k : pystr) : result pyval :=
  match dict_get d k with Some v => Ok v | None => Raise (KeyError k) end.

(** [d[k] = v]: an existing key keeps its place, a new key goes last. *)
Fixpoint dict_set (d : dict) (k : pystr) (v : pyval) : dict :=
  match d with
  | [] => [(k, v)]
  | (k', v') :: d' => if pystr_eqb k' k then (k', v) :: d' else (k', v') :: dict_set d' k v
  end.

(** [v == "s"] for a string literal [s]. *)
Definition py_eq_str (v : pyval) (s : pystr) : bool :=
  match v with PStr s' => pystr_eqb s' s | _ => false end.

(** [len(v)] *)
Definition py_len (v : pyval) : result nat :=
  match v with
  | PStr s => Ok (length s)
  | PList l | PTuple l => Ok (length l)
  | _ => Raise TypeError
  end.

(** [a <= b] on numbers ([bool] is an [int] subclass). *)
Definition py_num (v : pyval) : option Z :=
  match v with
  | PInt z => Some z
  | PBool b => Some (if b then 1%Z else 0%Z)
  | _ => None
  end.

Definition py_le (a b : pyval) : result bool :=
  match py_num a, py_num b with
  | Some x, Some y => Ok (Z.leb x y)
  | _, _ => Raise TypeError
  end.

Fixpoint py_join (sep : pystr) (l : list pystr) : pystr :=
  match l with
  | [] => []
  | [x] => x
  | x :: l' => x ++ sep ++ py_join sep l'
  end.

(** ** [CustomConfiguration.__init__]: key validation *)

Definition newline : ascii := ascii_of_nat 10.
Definition tab : ascii := ascii_of_nat 9.

(** [custom_classes.py] neither defines nor imports
    [UnspecifiedConfigurationKeyError]: evaluating the name in
    [raise UnspecifiedConfigurationKeyError(...)] raises [NameError] before
    the message argument is built. *)
Definition undefined_config_error : exc :=
  NameError (lit "UnspecifiedConfigurationKeyError").

(** The checks at the top of [CustomConfiguration.__init__], up to the
    required-key check.  [req] is [self._req_user_params()] (a set of pyBNF,
    listed in its iteration order).  The result is the dictionary as the
    checks leave it: [fit_type] defaulted to ["de"], ["bmc"] renamed to
    ["mh"].  The two warnings are printing only. *)
Definition CustomConfiguration_check_keys (req : list pystr) (d : dict) : result dict :=
  let* models_missing :=
    match dict_get d (lit "models") with
    | None => Ok true
    | Some v => let* n := py_len v in Ok (Nat.eqb n 0)
    end in
  if models_missing then Raise undefined_config_error else
  let d := if dict_in d (lit "fit_type") then d else dict_set d (lit "fit_type") (PStr (lit "de")) in
  let* ft := dict_getitem d (lit "fit_type") in
  let d := if py_eq_str ft (lit "bmc") then dict_set d (lit "fit_type") (PStr (lit "mh")) else d in
  let* ft := dict_getitem d (lit "fit_type") in
  if andb (negb (forallb (dict_in d) req)) (negb (py_eq_str ft (lit "check"))) then
    Raise undefined_config_error
  else Ok d.

(** ** Futures, [MockClient.submit] and [new_custom_as_completed] *)

(** A [concurrent.futures.Future] by its state. *)
Inductive future :=
| Pending
| Finished (v : pyval)
| FinishedExc (e : exc).

(** [Future.set_result]: [InvalidStateError] on a future already done. *)
Definition set_result (f : future) (v : pyval) : result future :=
  match f with
  | Pending => Ok (Finished v)
  | _ => Raise InvalidStateError
  end.

(** [Future.result()]; [None] when it would wait forever. *)
Definition future_result (f : future) : option (result pyval) :=
  match f with
  | Pending => None
  | Finished v => Some (Ok v)
  | FinishedExc e => Some (Raise e)
  end.

Section Mock.

(** The state the submitted callables act on. *)
Variable St : Type.

(** A Python callable: positional and keyword arguments, acting on the
    state. *)
Definition callable := list pyval -> dict -> St -> St * result pyval.

(** [MockClient.submit]: calls [func] on the positional arguments [args]
    only; the keyword arguments are not passed on. *)
Definition submit (func : callable) (args : list pyval) (kwargs : dict) (s : St)
  : St * result future :=
  let future := Pending in
  let '(s', r) := func args [] s in
  (s', let* v := r in set_result future v).

End Mock.

Arguments submit {St} func args kwargs s.

Inductive item :=
| Item (f : future)
| ItemWithResult (f : future) (v : pyval).

Record as_completed := {
  ac_futures : list future;
  ac_with_results : bool
}.

(** [new_custom_as_completed(futures, with_results=...)] *)
Definition as_completed_init (futures : list future) (with_results : bool) : as_completed :=
  {| ac_futures := futures; ac_with_results := with_results |}.

(** [update]: appends. *)
Definition as_completed_update (st : as_completed) (fs : list future) : as_completed :=
  {| ac_futures := ac_futures st ++ fs; ac_with_results := ac_with_results st |}.

(** [__next__]; [None] when [future.result()] would block. *)
Definition as_completed_next (st : as_completed) : option (result item * as_completed) :=
  match ac_futures st with
  | [] => Some (Raise StopIteration, st)
  | future :: rest =>
      let st' := {| ac_futures := rest; ac_with_results := ac_with_results st |} in
      if ac_with_results st then
        match future_result future with
        | None => None
        | Some (Ok v) => Some (Ok (ItemWithResult future v), st')
        | Some (Raise e) => Some (Raise e, st')
        end
      else Some (Ok (Item future), st')
  end.

(** A client's calls on the iterator. *)
Inductive ac_op :=
| OpNext
| OpUpdate (fs : list future).

(** The outcomes of the [__next__] calls of a call sequence, and the final
    iterator. *)
Fixpoint as_completed_run (st : as_completed) (ops : list ac_op)
  : list (result item) * as_completed :=
  match ops with
  | [] => ([], st)
  | OpUpdate fs :: ops' => as_completed_run (as_completed_update st fs) ops'
  | OpNext :: ops' =>
      match as_completed_next st with
      | None => ([], st)
      | Some (r, st') => let '(rs, st'') := as_completed_run st' ops' in (r :: rs, st'')
      end
  end.

(** ** Objects on the heap and [copy.deepcopy] *)

Inductive obj :=
| OFunc (code : nat)
| OArray (rows : list (list Z))
| OList (items : list pyval)
| OInst (cls : pystr) (attrs : dict).

Definition heap := list obj.

(** [memo]: addresses already copied, original to copy. *)
Definition memo := list (nat * nat).

Fixpoint memo_get (m : memo) (a : nat) : option nat :=
  match m with
  | [] => None
  | (a', b) :: m' => if Nat.eqb a' a then Some b else memo_get m' a
  end.

Fixpoint heap_set (h : heap) (a : nat) (o : obj) : heap :=
  match h, a with
  | [], _ => []
  | _ :: h', O => o :: h'
  | o' :: h', S a' => o' :: heap_set h' a' o
  end.

(** Python's default recursion limit bounds how deeply nested a structure
    [copy.deepcopy] can copy. *)
Definition recursion_limit : nat := 1000.

(** [copy._deepcopy_list] and [copy._deepcopy_tuple], element by element,
    with [dc] the [deepcopy] of the elements. *)
Fixpoint deepcopy_list (dc : heap -> memo -> pyval -> result (heap * memo * pyval))
    (h : heap) (m : memo) (l : list pyval) : result (heap * memo * list pyval) :=
  match l with
  | [] => Ok (h, m, [])
  | v :: l' =>
      let* r := dc h m v in
      let '(h1, m1, v') := r in
      let* r' := deepcopy_list dc h1 m1 l' in
      let '(h2, m2, l'') := r' in
      Ok (h2, m2, v' :: l'')
  end.

(** The copy of an instance's [__dict__] in [copy._reconstruct]: value by
    value, keys kept in order. *)
Fixpoint deepcopy_state (dc : heap -> memo -> pyval -> result (heap * memo * pyval))
    (h : heap) (m : memo) (l : dict) : result (heap * memo * dict) :=
  match l with
  | [] => Ok (h, m, [])
  | (k, v) :: l' =>
      let* r := dc h m v in
      let '(h1, m1, v') := r in
      let* r' := deepcopy_state dc h1 m1 l' in
      let '(h2, m2, l'') := r' in
      Ok (h2, m2, (k, v') :: l'')
  end.

(** [copy.deepcopy(v, memo)]: [None], [bool], [int], [str] and functions are
    atomic; tuples (and the value lists of a configuration) are copied
    element by element; a list, a numpy array or an instance is copied into
    a fresh object, entered into [memo] before its contents are copied. *)
Fixpoint deepcopy (fuel : nat) (h : heap) (m : memo) (v : pyval) {struct fuel}
  : result (heap * memo * pyval) :=
  match fuel with
  | O => Raise RecursionError
  | S f =>
      match v with
      | PNone | PBool _ | PInt _ | PStr _ => Ok (h, m, v)
      | PTuple l =>
          let* r := deepcopy_list (deepcopy f) h m l in
          let '(h1, m1, l') := r in Ok (h1, m1, PTuple l')
      | PList l =>
          let* r := deepcopy_list (deepcopy f) h m l in
          let '(h1, m1, l') := r in Ok (h1, m1, PList l')
      | PRef a =>
          match memo_get m a with
          | Some b => Ok (h, m, PRef b)
          | None =>
              match nth_error h a with
              | None => Raise IndexError
              | Some (OFunc _) => Ok (h, m, PRef a)
              | Some (OArray rows) =>
                  let b := length h in Ok (h ++ [OArray rows], (a, b) :: m, PRef b)
              | Some (OList items) =>
                  let b := length h in
                  let* r := deepcopy_list (deepcopy f) (h ++ [OList []]) ((a, b) :: m) items in
                  let '(h1, m1, items') := r in
                  Ok (heap_set h1 b (OList items'), m1, PRef b)
              | Some (OInst cls attrs) =>
                  let b := length h in
                  let* r := deepcopy_state (deepcopy f) (h ++ [OInst cls []]) ((a, b) :: m) attrs in
                  let '(h1, m1, attrs') := r in
                  Ok (heap_set h1 b (OInst cls attrs'), m1, PRef b)
              end
          end
      end
  end.

(** [setattr(obj, k, v)] on an instance. *)
Definition setattr (h : heap) (a : nat) (k : pystr) (v : pyval) : result heap :=
  match nth_error h a with
  | Some (OInst cls attrs) => Ok (heap_set h a (OInst cls (dict_set attrs k v)))
  | _ => Raise (AttributeError k)
  end.

(** [NpModel.copy_with_param_set(self, pset)] *)
Definition copy_with_param_set (h : heap) (self : nat) (pset : pyval) : result (heap * pyval) :=
  let* r := deepcopy recursion_limit h [] (PRef self) in
  let '(h1, _, new) := r in
  match new with
  | PRef n => let* h2 := setattr h1 n (lit "pset") pset in Ok (h2, new)
  | _ => Raise TypeError
  end.

(** ** [parse_outputs] *)

(** [os.path.join(a, b)] *)
Definition path_join (a b : pystr) : pystr :=
  if startswith b (lit "/") then b
  else match rev a with
       | [] => b
       | c :: _ => if ascii_dec c "/" then a ++ b else a ++ lit "/" ++ b
       end.

(** A table as [pd.read_table] returns it: its rows below the header. *)
Definition table := list (list pyval).

(** [df.iloc[0, j]] and [df.iloc[0, j:].to_numpy()] *)
Definition iloc_cell (t : table) (i j : nat) : result pyval :=
  match nth_error t i with
  | None => Raise IndexError
  | Some row => match nth_error row j with None => Raise IndexError | Some v => Ok v end
  end.

Definition iloc_row_from (t : table) (i j : nat) : result pyval :=
  match nth_error t i with
  | None => Raise IndexError
  | Some row => Ok (PList (skipn j row))
  end.

Definition table_val (t : table) : pyval := PList (map PList t).

(** [f"credible{interval}_final.txt"] *)
Definition credible_file (interval : pystr) : pystr := lit "credible" ++ interval ++ lit "_final.txt".
Definition credible_key (interval : pystr) : pystr := lit "credible" ++ interval.

Section ParseOutputs.

(** [pd.read_table(path)] and [str(v)], library functions. *)
Variable read_table : pystr -> result table.
Variable py_format : pyval -> pystr.

Definition output_dir_of (config : dict) : result pystr :=
  let* v := dict_getitem config (lit "output_dir") in
  match v with PStr s => Ok s | _ => Raise TypeError end.

Fixpoint read_credible (dir : pystr) (intervals : list pyval) (output : dict) : result dict :=
  match intervals with
  | [] => Ok output
  | interval :: rest =>
      let* t := read_table (path_join (path_join dir (lit "Results"))
                              (credible_file (py_format interval))) in
      read_credible dir rest (dict_set output (credible_key (py_format interval)) (table_val t))
  end.

(** [parse_outputs(config_dir)].  Its value
    [scipy.optimize.OptimizeResult] built from [output] is a [dict] subclass holding
    the items of [output], in their order. *)
Definition parse_outputs (config_dir : dict) : result dict :=
  let output : dict := [] in
  let* dir := output_dir_of config_dir in
  let* results := read_table (path_join (path_join dir (lit "Results")) (lit "sorted_params_final.txt")) in
  let output := dict_set output (lit "success") (PBool true) in
  let* x := iloc_row_from results 0 3 in
  let output := dict_set output (lit "x") x in
  let* fun_ := iloc_cell results 0 2 in
  let output := dict_set output (lit "fun") fun_ in
  let* ft := dict_getitem config_dir (lit "fit_type") in
  let* output :=
    if orb (py_eq_str ft (lit "mh")) (py_eq_str ft (lit "pt")) then
      let* ci := dict_getitem config_dir (lit "credible_intervals") in
      match ci with
      | PList l | PTuple l => read_credible dir l output
      | _ => Raise TypeError
      end
    else Ok output in
  Ok output.

End ParseOutputs.

(** ** [run_simple_optimization] *)

(** Effects of a run, in the order they happen. *)
Inductive event :=
| EvAlgInit (cls : pystr)
| EvMakedirs (path : pystr)
| EvClusterInit
| EvRun
| EvRmtree (path : pystr).

(** The run's monad: a trace of effects and a result or a raised
    exception. *)
Definition M (A : Type) := list event -> list event * result A.

Definition mret {A} (a : A) : M A := fun tr => (tr, Ok a).

Definition mbind {A B} (m : M A) (k : A -> M B) : M B :=
  fun tr => let '(tr1, r) := m tr in
            match r with Ok a => k a tr1 | Raise e => (tr1, Raise e) end.

Definition lift {A} (r : result A) : M A := fun tr => (tr, r).

Definition emit (e : event) : M unit := fun tr => (tr ++ [e], Ok tt).

Notation "x <- m ;; k" := (mbind m (fun x => k))
  (at level 61, m at next level, right associativity).

(** [assert d[a] <= d[b]] *)
Definition assert_le (d : dict) (a b : pystr) : result unit :=
  let* va := dict_getitem d a in
  let* vb := dict_getitem d b in
  let* ok := py_le va vb in
  if ok then Ok tt else Raise AssertionError.

(** The [match param_dict["fit_type"]] of [run_simple_optimization]: the
    class of the algorithm it constructs, after the assertions of its
    branch. *)
Definition select_algorithm (py_format : pyval -> pystr) (param_dict : dict) : result pystr :=
  let* ft := dict_getitem param_dict (lit "fit_type") in
  if py_eq_str ft (lit "de") then Ok (lit "DifferentialEvolution")
  else if py_eq_str ft (lit "ade") then Ok (lit "AsynchronousDifferentialEvolution")
  else if py_eq_str ft (lit "ss") then Ok (lit "ScatterSearch")
  else if py_eq_str ft (lit "pso") then Ok (lit "ParticleSwarm")
  else if py_eq_str ft (lit "mh") then
    let* _ := assert_le param_dict (lit "burn_in") (lit "max_iterations") in
    let* _ := assert_le param_dict (lit "sample_every") (lit "max_iterations") in
    Ok (lit "BasicBayesMCMCAlgorithm")
  else if py_eq_str ft (lit "pt") then
    let* _ := assert_le param_dict (lit "burn_in") (lit "max_iterations") in
    let* _ := assert_le param_dict (lit "sample_every") (lit "max_iterations") in
    Ok (lit "BasicBayesMCMCAlgorithm")
  else if py_eq_str ft (lit "sa") then Ok (lit "BasicBayesMCMCAlgorithm")
  else if py_eq_str ft (lit "am") then
    let* _ := assert_le param_dict (lit "burn_in") (lit "max_iterations") in
    let* _ := assert_le param_dict (lit "sample_every") (lit "max_iterations") in
    let* _ := assert_le param_dict (lit "adaptive") (lit "max_iterations") in
    Ok (lit "Adaptive_MCMC")
  else Raise (RuntimeError (lit "Unknown fit type: " ++ py_format ft)).

Section Run.

(** The user function, the pydantic [GeneralConfig], and pyBNF's
    configuration object. *)
Variables (F GC Cfg : Type).
(** [Configuration._req_user_params()] of pyBNF. *)
Variable req : list pystr.
(** [GeneralConfig.generate_pybnf_config_dict(func, data)] *)
Variable generate_pybnf_config_dict : GC -> F -> CustomData Z -> dict.
(** The part of [CustomConfiguration.__init__] after the key checks, run by
    pyBNF's loaders ([postprocess_mcmc_keys] and the like may write to the
    dictionary, which is the caller's [param_dict]). *)
Variable pybnf_load : dict -> dict * result Cfg.
(** [pybnf_config.config] *)
Variable cfg_config : Cfg -> dict.
(** [alg.run(cluster.client, ...)] for the constructed algorithm class. *)
Variable alg_run : Cfg -> pystr -> result unit.
Variable read_table : pystr -> result table.
Variable py_format : pyval -> pystr.

(** [CustomConfiguration(d)]; the dictionary is returned as the
    constructor leaves it. *)
Definition CustomConfiguration (d : dict) : dict * result Cfg :=
  match CustomConfiguration_check_keys req d with
  | Raise e => (d, Raise e)
  | Ok d1 => pybnf_load d1
  end.

(** [run_simple_optimization(func, inputs, outputs, general_config)] *)
Definition run_simple_optimization (func : F) (inputs outputs : ndarray Z) (general_config : GC)
  : M dict :=
  data <- lift (from_x_and_y Z_of_nat' inputs outputs) ;;
  let param_dict := generate_pybnf_config_dict general_config func data in
  let '(param_dict, cfg) := CustomConfiguration param_dict in
  pybnf_config <- lift cfg ;;
  alg <- lift (select_algorithm py_format param_dict) ;;
  _ <- emit (EvAlgInit alg) ;;
  dir <- lift (output_dir_of (cfg_config pybnf_config)) ;;
  _ <- emit (EvMakedirs (path_join dir (lit "Simulations"))) ;;
  _ <- emit (EvMakedirs (path_join dir (lit "Results"))) ;;
  _ <- emit EvClusterInit ;;
  _ <- emit EvRun ;;
  _ <- lift (alg_run pybnf_config alg) ;;
  output <- lift (parse_outputs read_table py_format (cfg_config pybnf_config)) ;;
  _ <- emit (EvRmtree dir) ;;
  mret output.

End Run.

(** A configuration of an [mh] run with one credible interval. *)
Definition parse_config_example : dict :=
  [(lit "output_dir", PStr (lit "out")); (lit "fit_type", PStr (lit "mh"));
   (lit "credible_intervals", PList [PInt 68])].

(** The dictionary of an [mh] run with [burn_in > max_iterations]. *)
Definition mh_config_example : dict :=
  [(lit "models", PStr (lit "np")); (lit "fit_type", PStr (lit "mh"));
   (lit "burn_in", PInt 10000); (lit "sample_every", PInt 100);
   (lit "max_iterations", PInt 500); (lit "output_dir", PStr (lit "out"))].

(** An [NpModel] as [__init__] leaves it, at address 4: [fun] (0), the
    data matrix (1), [suffixes] (2), [mutants] (3) and [param_names] (5). *)
Definition np_model_attrs : dict :=
  [(lit "fun", PRef 0); (lit "data", PRef 1); (lit "pset", PNone);
   (lit "suffixes", PRef 2); (lit "mutants", PRef 3);
   (lit "file_path", PStr (lit "_optimization")); (lit "name", PStr (lit "_optimization"));
   (lit "param_names", PRef 5)].

Definition np_model_heap : heap :=
  [OFunc 0; OArray [[1; 2]; [3; 4]]%Z;
   OList [PTuple [PStr (lit "simulate"); PStr (lit "_data")]]; OList [];
   OInst (lit "NpModel") np_model_attrs;
   OList [PStr (lit "v0000000000__FREE"); PStr (lit "v0000000001__FREE")]].

(** The same model with a parameter set as its [pset] (6): an instance
    holding two parameter instances (7, 8); a second parameter set (9)
    holds the parameters 10 and 11. *)
Definition np_model_pset_attrs : dict :=
  [(lit "fun", PRef 0); (lit "data", PRef 1); (lit "pset", PRef 6);
   (lit "suffixes", PRef 2); (lit "mutants", PRef 3);
   (lit "file_path", PStr (lit "_optimization")); (lit "name", PStr (lit "_optimization"));
   (lit "param_names", PRef 5)].

Definition free_parameter (name : pystr) (value : Z) : obj :=
  OInst (lit "FreeParameter") [(lit "name", PStr name); (lit "value", PInt value)].

Definition np_model_pset_heap : heap :=
  [OFunc 0; OArray [[1; 2]; [3; 4]]%Z;
   OList [PTuple [PStr (lit "simulate"); PStr (lit "_data")]]; OList [];
   OInst (lit "NpModel") np_model_pset_attrs;
   OList [PStr (lit "v0000000000__FREE"); PStr (lit "v0000000001__FREE")];
   OInst (lit "PSet") [(lit "v0000000000__FREE", PRef 7); (lit "v0000000001__FREE", PRef 8)];
   free_parameter (lit "v0000000000__FREE") 3; free_parameter (lit "v0000000001__FREE") 5;
   OInst (lit "PSet") [(lit "v0000000000__FREE", PRef 10); (lit "v0000000001__FREE", PRef 11)];
   free_parameter (lit "v0000000000__FREE") 4; free_parameter (lit "v0000000001__FREE") 6].

(** ** The configuration dictionary of [interface.py] *)

(** Keys of the dictionary handed to pyBNF: strings, and the
    [(var_type, name)] pairs of the free parameters. *)
Inductive ckey :=
| KStr (s : pystr)
| KTup (a b : pystr).

(** Its values: finite floats by their exact rational value, [np.inf],
    a function (by its identity), a [CustomData] object, and the nested
    dictionaries of [model_dump()]. *)
Inductive cval :=
| CNone
| CBool (b : bool)
| CInt (z : Z)
| CFloat (q : Q)
| CInf
| CStr (s : pystr)
| CList (l : list cval)
| CTuple (l : list cval)
| CFunc (f : nat)
| CData (d : CustomData Z)
| CDict (d : list (ckey * cval)).

Definition cdict := list (ckey * cval).

Definition ckey_eqb (a b : ckey) : bool :=
  match a, b with
  | KStr s, KStr t => pystr_eqb s t
  | KTup s1 s2, KTup t1 t2 => pystr_eqb s1 t1 && pystr_eqb s2 t2
  | _, _ => false
  end.

Fixpoint cdict_get (d : cdict) (k : ckey) : option cval :=
  match d with
  | [] => None
  | (k', v) :: d' => if ckey_eqb k' k then Some v else cdict_get d' k
  end.

(** [d[k]] for a string key *)
Definition cdict_getitem (d : cdict) (k : pystr) : result cval :=
  match cdict_get d (KStr k) with Some v => Ok v | None => Raise (KeyError k) end.

(** [d[k] = v]: an existing key keeps its place, a new key goes last. *)
Fixpoint cdict_set (d : cdict) (k : ckey) (v : cval) : cdict :=
  match d with
  | [] => [(k, v)]
  | (k', v') :: d' => if ckey_eqb k' k then (k', v) :: d' else (k', v') :: cdict_set d' k v
  end.

(** [del d[k]] *)
Definition cdict_del (d : cdict) (k : pystr) : result cdict :=
  match cdict_get d (KStr k) with
  | Some _ => Ok (filter (fun kv => negb (ckey_eqb (fst kv) (KStr k))) d)
  | None => Raise (KeyError k)
  end.

(** [d.update(e)] *)
Definition cdict_update (d e : cdict) : cdict :=
  fold_left (fun d kv => cdict_set d (fst kv) (snd kv)) e d.

(** [a * b] on numbers ([bool] is an [int] subclass); repetition of
    sequences is not modelled, it is never reached. *)
Definition cval_num (v : cval) : option (Z + Q) :=
  match v with
  | CInt z => Some (inl z)
  | CBool b => Some (inl (if b then 1%Z else 0%Z))
  | CFloat q => Some (inr q)
  | _ => None
  end.

Definition cval_mul (a b : cval) : result cval :=
  match cval_num a, cval_num b with
  | Some (inl x), Some (inl y) => Ok (CInt (x * y))
  | Some (inl x), Some (inr q) => Ok (CFloat (inject_Z x * q)%Q)
  | Some (inr p), Some (inl y) => Ok (CFloat (p * inject_Z y)%Q)
  | Some (inr p), Some (inr q) => Ok (CFloat (p * q)%Q)
  | _, _ => Raise TypeError
  end.

(** ** [CustomData.from_data_and_result] and [NpModel] *)

(** [nrows_data, ncols_data = data.shape]: unpacking a shape of another
    length than two raises [ValueError]. *)
Definition shape2 {A} (x : ndarray A) : result (nat * nat) :=
  match x with
  | Mat c rows => Ok (length rows, c)
  | Scalar _ => Raise (ValueError (lit "not enough values to unpack (expected 2, got 0)"))
  | Vec _ => Raise (ValueError (lit "not enough values to unpack (expected 2, got 1)"))
  | Tensor _ => Raise (ValueError (lit "too many values to unpack (expected 2)"))
  end.

(** [x.shape[1]] *)
Definition shape1 {A} (x : ndarray A) : result nat :=
  match x with
  | Mat c _ => Ok c
  | Tensor (_ :: n :: _) => Ok n
  | _ => Raise IndexError
  end.

(** [CustomData.from_data_and_result(data, result)]; [np.arange(n).reshape((n, 1))]
    is [arange_col n]. *)
Definition from_data_and_result {A} (of_nat : nat -> A) (data result_ : ndarray A)
  : result (CustomData A) :=
  let* s := shape2 data in
  let '(nrows_data, ncols_data) := s in
  let* ncols_result := shape1 result_ in
  let* arr := hstack [arange_col of_nat nrows_data; data; result_] in
  let colnames := make_colnames ncols_data ncols_result in
  Ok {| cd_data := arr;
        cd_cols := map (fun '(i, c) => (c, i)) (enumerate colnames);
        cd_headers := enumerate colnames;
        cd_indvar := lit "time" |}.

(** [np.atleast_2d(a)]: a 0-d array becomes [(1, 1)], a 1-D array of length
    [k] a single row [(1, k)]. *)
Definition atleast_2d {A} (x : ndarray A) : ndarray A :=
  match x with
  | Scalar v => Mat 1 [[v]]
  | Vec v => Mat (length v) [v]
  | _ => x
  end.

(** [f"v{i:0{10}d}__FREE"], the name of the [i]-th free parameter. *)
Definition param_name (i : nat) : pystr := lit "v" ++ fmt_010d (N.of_nat i) ++ lit "__FREE".

(** The attributes of an [NpModel] ([mutants] by their [suffix]). *)
Record NpModel := {
  np_fun : cval;
  np_data : ndarray Z;
  np_pset : cval;
  np_suffixes : list (pystr * pystr);
  np_mutants : list pystr;
  np_file_path : pystr;
  np_name : pystr;
  np_param_names : list pystr
}.

(** [NpModel(fun, data, n_params, pset)]: [data.get_data_arr()] on the
    [CustomData] it is given. *)
Definition NpModel_init (fun_ : cval) (data : CustomData Z) (n_params : nat) (pset : cval)
  : result NpModel :=
  let* arr := get_data_arr data in
  Ok {| np_fun := fun_;
        np_data := arr;
        np_pset := pset;
        np_suffixes := [(lit "simulate", lit "_data")];
        np_mutants := [];
        np_file_path := lit "_optimization";
        np_name := lit "_optimization";
        np_param_names := map param_name (seq 0 n_params) |}.

(** [NpModel.get_suffixes] *)
Definition get_suffixes (m : NpModel) : list pystr :=
  flat_map (fun s => snd s :: map (fun mut => snd s ++ mut) (np_mutants m)) (np_suffixes m).

(** [[suffix] = seq]: unpacking into one target. *)
Definition unpack1 (l : list pystr) : result pystr :=
  match l with
  | [s] => Ok s
  | [] => Raise (ValueError (lit "not enough values to unpack (expected 1, got 0)"))
  | _ => Raise (ValueError (lit "too many values to unpack (expected 1)"))
  end.

Section Execute.

(** [np.fromstring(pset.values_to_string(), sep="\t")], the parameter
    vector of a pyBNF [PSet], and the call [fun(data, params)] of the user
    function. *)
Variable Params : Type.
Variable pset_values : cval -> result Params.
Variable call_fun : cval -> ndarray Z -> Params -> result (ndarray Z).

(** [NpModel.execute(folder, filename, timeout)] *)
Definition execute (m : NpModel) : result (list (pystr * CustomData Z)) :=
  let* params := pset_values (np_pset m) in
  let* r := call_fun (np_fun m) (np_data m) params in
  let res := atleast_2d r in
  let* data := from_data_and_result Z_of_nat' (np_data m) res in
  let* suffix := unpack1 (get_suffixes m) in
  Ok [(suffix, data)].

End Execute.

(** ** [UniformParam], [ParamConfig], [all_equal_bounds] *)

(** A validated [UniformParam]. *)
Record UniformParam := {
  var_type : pystr;
  lower_bound : Q;
  upper_bound : Q
}.

(** [UniformParam.validate_var_types] *)
Definition validate_var_types (vt : pystr) : result pystr :=
  if existsb (pystr_eqb vt) [lit "uniform_var"; lit "loguniform_var"] then Ok vt
  else Raise (ValueError (lit "var_type can only contain ['uniform_var', 'loguniform_var'], found " ++ vt)).

(** [UniformParam.validate_bounds], run after the field validators. *)
Definition validate_bounds (p : UniformParam) : result UniformParam :=
  if Qlt_le_dec (lower_bound p) (upper_bound p) then Ok p else Raise AssertionError.

(** pydantic (v2) turns a [ValueError] or an [AssertionError] raised in a
    validator into a [ValidationError] (a subclass of [ValueError]) that
    carries it. *)
Definition pydantic_wrap {A : Type} (r : result A) : result A :=
  match r with
  | Ok a => Ok a
  | Raise (ValueError msg) => Raise (ValidationError (ValueError msg))
  | Raise AssertionError => Raise (ValidationError AssertionError)
  | Raise e => Raise e
  end.

(** [UniformParam(var_type=..., lower_bound=..., upper_bound=...)]: the
    field validator first; the model validator ([mode="after"]) runs only
    on fields that validated.  The two [FiniteFloat] fields accept every
    (finite) rational. *)
Definition UniformParam_new (vt : pystr) (lb ub : Q) : result UniformParam :=
  let* vt := pydantic_wrap (validate_var_types vt) in
  pydantic_wrap (validate_bounds {| var_type := vt; lower_bound := lb; upper_bound := ub |}).

(** [UniformParam.to_config_key_value_pair(i)] *)
Definition to_config_key_value_pair (p : UniformParam) (i : nat) : ckey * cval :=
  (KTup (var_type p) (param_name i),
   CTuple [CFloat (lower_bound p); CFloat (upper_bound p); CBool true]).

(** [ParamConfig.update_param_dict(d)], [params] in order. *)
Definition ParamConfig_update_param_dict (params : list UniformParam) (d : cdict) : cdict :=
  let d := fold_left (fun d ip => let '(key, value) := to_config_key_value_pair (snd ip) (fst ip) in
                                  cdict_set d key value)
             (enumerate params) d in
  cdict_set d (KStr (lit "n_params")) (CInt (Z.of_nat (length params))).

(** [all_equal_bounds(n_params, var_type, lower_bound, upper_bound)]: the
    comprehension builds the parameters one after the other. *)
Fixpoint all_equal_bounds (n_params : nat) (vt : pystr) (lb ub : Q) : result (list UniformParam) :=
  match n_params with
  | O => Ok []
  | S n => let* p := UniformParam_new vt lb ub in
           let* ps := all_equal_bounds n vt lb ub in
           Ok (p :: ps)
  end.

(** [UniformParam.model_dump()] *)
Definition UniformParam_dump (p : UniformParam) : cval :=
  CDict [(KStr (lit "var_type"), CStr (var_type p));
         (KStr (lit "lower_bound"), CFloat (lower_bound p));
         (KStr (lit "upper_bound"), CFloat (upper_bound p))].

(** ** The algorithm configurations *)

Inductive alg_class :=
| DifferentialEvolution
| AsynchronousDifferentialEvolution
| ScatterSearch
| ParticleSwarm
| AdaptiveParticleSwarm
| MetropolisHastingsMCMC
| ParallelTempering
| SimulatedAnnealing
| AdaptiveMCMC.

(** An [AlgConfig_*] instance: its class and its validated fields, which
    [model_dump()] returns in declaration order. *)
Record AlgConfig := {
  alg_cls : alg_class;
  alg_fields : cdict
}.

(** The fields each class declares, in order. *)
Definition alg_field_names (c : alg_class) : list pystr :=
  match c with
  | DifferentialEvolution =>
      map lit (["fit_type"; "mutation_rate"; "mutation_factor"; "stop_tolerance"; "de_strategy";
               "islands"; "migrate_every"; "num_to_migrate"])%string
  | AsynchronousDifferentialEvolution =>
      map lit (["fit_type"; "mutation_rate"; "mutation_factor"; "stop_tolerance"; "de_strategy"])%string
  | ScatterSearch => map lit (["fit_type"; "init_size"; "local_min_limit"; "reserve_size"])%string
  | ParticleSwarm | AdaptiveParticleSwarm =>
      map lit (["fit_type"; "cognitive"; "social"; "particle_weight"; "v_stop";
               "particle_weight_final"; "adaptive_n_max"; "adaptive_n_stop";
               "adaptive_abs_tol"; "adaptive_rel_tol"])%string
  | MetropolisHastingsMCMC =>
      map lit (["fit_type"; "step_size"; "beta"; "sample_every"; "burn_in";
               "output_hist_every"; "hist_bins"; "credible_intervals"])%string
  | ParallelTempering =>
      map lit (["fit_type"; "step_size"; "beta"; "sample_every"; "burn_in";
               "output_hist_every"; "hist_bins"; "credible_intervals"; "exchange_every";
               "reps_per_beta"; "beta_range"])%string
  | SimulatedAnnealing => map lit (["fit_type"; "step_size"; "beta"; "beta_max"; "cooling"])%string
  | AdaptiveMCMC =>
      map lit (["fit_type"; "step_size"; "beta"; "sample_every"; "burn_in";
               "output_hist_every"; "hist_bins"; "stabilizingCov"; "adaptive"])%string
  end.

(** [getattr(self, k)] on an algorithm configuration. *)
Definition alg_getattr (a : AlgConfig) (k : pystr) : result cval :=
  match cdict_get (alg_fields a) (KStr k) with Some v => Ok v | None => Raise (AttributeError k) end.

(** [AlgConfig_*.update_param_dict(d)] *)
Definition AlgConfig_update_param_dict (a : AlgConfig) (d : cdict) : result cdict :=
  let d := cdict_update d (alg_fields a) in
  match alg_cls a with
  | ScatterSearch =>
      let* v := cdict_getitem d (lit "init_size") in
      let* d := match v with
                | CNone => let* n := cdict_getitem d (lit "n_params") in
                           let* m := cval_mul (CInt 10) n in
                           Ok (cdict_set d (KStr (lit "init_size")) m)
                | _ => Ok d
                end in
      let* v := cdict_getitem d (lit "reserve_size") in
      match v with
      | CNone => let* mi := cdict_getitem d (lit "max_iterations") in
                 Ok (cdict_set d (KStr (lit "reserve_size")) mi)
      | _ => Ok d
      end
  | ParticleSwarm =>
      let* pw := cdict_getitem d (lit "particle_weight") in
      Ok (cdict_set d (KStr (lit "particle_weight_final")) pw)
  | ParallelTempering =>
      let* br := alg_getattr a (lit "beta_range") in
      match br with
      | CNone => cdict_del d (lit "beta_range")
      | _ => cdict_del d (lit "beta")
      end
  | _ => Ok d
  end.

(** ** [GeneralConfig] *)

Record GeneralConfig := {
  param_config : list UniformParam;
  algorithm_config : AlgConfig;
  objfunc : pystr;
  population_size : Z;
  max_iterations : Z;
  verbosity : Z
}.

(** [GeneralConfig.model_dump()]: the nested models become dictionaries. *)
Definition GeneralConfig_dump (g : GeneralConfig) : cdict :=
  [(KStr (lit "param_config"), CDict [(KStr (lit "params"), CList (map UniformParam_dump (param_config g)))]);
   (KStr (lit "algorithm_config"), CDict (alg_fields (algorithm_config g)));
   (KStr (lit "objfunc"), CStr (objfunc g));
   (KStr (lit "population_size"), CInt (population_size g));
   (KStr (lit "max_iterations"), CInt (max_iterations g));
   (KStr (lit "verbosity"), CInt (verbosity g))].

(** [GeneralConfig.generate_pybnf_config_dict(func, data)] *)
Definition generate_pybnf_config_dict (g : GeneralConfig) (func data : cval) : result cdict :=
  let config_dict : cdict := [] in
  let config_dict := cdict_set config_dict (KStr (lit "models")) (CStr (lit "np")) in
  let config_dict := cdict_set config_dict (KStr (lit "_optimization")) (CList [CStr (lit "_data")]) in
  let config_dict := cdict_set config_dict (KStr (lit "_custom_func")) func in
  let config_dict := cdict_set config_dict (KStr (lit "_custom_data")) data in
  let general_params := GeneralConfig_dump g in
  let config_dict := cdict_update config_dict general_params in
  let config_dict := ParamConfig_update_param_dict (param_config g) config_dict in
  let* config_dict := AlgConfig_update_param_dict (algorithm_config g) config_dict in
  let* config_dict := cdict_del config_dict (lit "param_config") in
  let* config_dict := cdict_del config_dict (lit "algorithm_config") in
  cdict_del config_dict (lit "n_params").

(** ** [CustomConfiguration._load_exp_data] and [_load_models] *)

Section Loaders.

(** pyBNF's own loaders, used when [models] is not ["np"], and
    [len(self._load_variables())]. *)
Variables (ExpData Models : Type).
Variable super_load_exp_data : cdict -> result (ExpData * list pystr).
Variable super_load_models : cdict -> result Models.
Variable n_variables : cdict -> result nat.

(** [config["models"] != "np"] *)
Definition models_not_np (config : cdict) : result bool :=
  let* m := cdict_getitem config (lit "models") in
  match m with CStr s => Ok (negb (pystr_eqb s (lit "np"))) | _ => Ok true end.

(** The [exp_data] of the [np] branch, [{"_optimization": {"_data": d}}],
    the [_data_map] it sets, and pyBNF's value otherwise. *)
Inductive exp_data :=
| NpExpData (data : cval) (data_map : list (pystr * list pystr))
| SuperExpData (e : ExpData).

(** [CustomConfiguration._load_exp_data()], with the set of constraints
    it returns beside the data. *)
Definition load_exp_data (config : cdict) : result (exp_data * list pystr) :=
  let* other := models_not_np config in
  if other then let* r := super_load_exp_data config in Ok (SuperExpData (fst r), snd r)
  else let* d := cdict_getitem config (lit "_custom_data") in
       Ok (NpExpData d [(lit "_optimization", [lit "_data"])], []).

Inductive models :=
| NpModels (m : list (pystr * NpModel))
| SuperModels (m : Models).

(** [exp_data["_optimization"]["_data"]] *)
Definition exp_data_np (e : exp_data) : result cval :=
  match e with
  | NpExpData d _ => Ok d
  | SuperExpData _ => Raise (KeyError (lit "_optimization"))
  end.

(** [CustomConfiguration._load_models()]; the [NpModel] needs a
    [CustomData] object for [get_data_arr]. *)
Definition load_models (config : cdict) (e : exp_data) : result models :=
  let* other := models_not_np config in
  if other then let* m := super_load_models config in Ok (SuperModels m)
  else
    let* f := cdict_getitem config (lit "_custom_func") in
    let* d := exp_data_np e in
    let* n := n_variables config in
    match d with
    | CData cd => let* m := NpModel_init f cd n CNone in
                  Ok (NpModels [(lit "_optimization", m)])
    | _ => Raise (AttributeError (lit "get_data_arr"))
    end.

End Loaders.

(** ** Definitions used by the statements *)



(** One step of the loop of [ParamConfig.update_param_dict], and the
    value it stores for a parameter. *)
Definition param_step (d : cdict) (ip : nat * UniformParam) : cdict :=
  let '(key, value) := to_config_key_value_pair (snd ip) (fst ip) in cdict_set d key value.

Definition param_value (p : UniformParam) : cval :=
  CTuple [CFloat (lower_bound p); CFloat (upper_bound p); CBool true].

(** An algorithm configuration whose [model_dump()] lists its class's
    fields in order, as pydantic builds it. *)
Definition alg_shaped (a : AlgConfig) : Prop :=
  map fst (alg_fields a) = map KStr (alg_field_names (alg_cls a)).

(** The keys [update_param_dict] of a class changes after [d.update]. *)
Definition alg_adjusted (c : alg_class) : list pystr :=
  match c with
  | ScatterSearch => [lit "init_size"; lit "reserve_size"]
  | ParticleSwarm => [lit "particle_weight_final"]
  | ParallelTempering => [lit "beta"; lit "beta_range"]
  | _ => []
  end.

(** The keys [generate_pybnf_config_dict] writes itself. *)
Definition config_keys : list pystr :=
  map lit (["models"; "_optimization"; "_custom_func"; "_custom_data"; "param_config";
            "algorithm_config"; "n_params"; "objfunc"; "population_size";
            "max_iterations"; "verbosity"])%string.

Fixpoint pystr_nodupb (l : list pystr) : bool :=
  match l with
  | [] => true
  | x :: l' => negb (existsb (pystr_eqb x) l') && pystr_nodupb l'
  end.

(** The dictionary [generate_pybnf_config_dict] has built before the
    algorithm configuration updates it. *)
Definition pre_alg_dict (g : GeneralConfig) (func data : cval) : cdict :=
  let d := cdict_set [] (KStr (lit "models")) (CStr (lit "np")) in
  let d := cdict_set d (KStr (lit "_optimization")) (CList [CStr (lit "_data")]) in
  let d := cdict_set d (KStr (lit "_custom_func")) func in
  let d := cdict_set d (KStr (lit "_custom_data")) data in
  let d := cdict_update d (GeneralConfig_dump g) in
  ParamConfig_update_param_dict (param_config g) d.


(** [enumerate(l, start=k)] *)
Definition enum_from {B} (k : nat) (l : list B) : list (nat * B) :=
  combine (seq k (length l)) l.


Definition table_of {A : Type} (of_nat : nat -> A) (cx cy : nat) (rx ry : list (list A)) : CustomData A :=
  let colnames := make_colnames cx cy in
  {| cd_data := Mat (1 + (cx + cy)) (hcat (map (fun i => [of_nat i]) (seq 0 (length rx))) (hcat rx ry));
     cd_cols := map (fun '(i, c) => (c, i)) (enumerate colnames);
     cd_headers := enumerate colnames;
     cd_indvar := lit "time" |}.

Definition rows10 (k : nat) : list (list Z) := map (fun i => repeat (Z.of_nat i) k) (seq 0 10).

Definition dval (c : ascii) : N := (N_of_ascii c - 48)%N.
Definition is_digit (c : ascii) : Prop := (48 <= N_of_ascii c <= 57)%N.

(** Numeric value of a digit string. *)
Fixpoint val (l : pystr) : N :=
  match l with
  | [] => 0%N
  | c :: l' => (dval c * 10 ^ N.of_nat (length l') + val l')%N
  end.

Definition example_req : list pystr := [lit "models"; lit "population_size"; lit "max_iterations"].

(** A callable with a required keyword argument [x]: [lambda *, x: x]. *)
Definition needs_kw_x : callable unit :=
  fun args kwargs s =>
    match args, dict_get kwargs (lit "x") with
    | [], Some v => (s, Ok v)
    | _, _ => (s, Raise TypeError)
    end.

Definition is_finished (f : future) : Prop := exists v, f = Finished v.

(** Futures handed to the iterator by the [update] calls, in order. *)
Fixpoint inserted (ops : list ac_op) : list future :=
  match ops with
  | [] => []
  | OpNext :: ops' => inserted ops'
  | OpUpdate fs :: ops' => fs ++ inserted ops'
  end.

Fixpoint count_next (ops : list ac_op) : nat :=
  match ops with
  | [] => 0
  | OpNext :: ops' => S (count_next ops')
  | OpUpdate _ :: ops' => count_next ops'
  end.

(** The futures the [__next__] calls produced. *)
Fixpoint yielded (rs : list (result item)) : list future :=
  match rs with
  | [] => []
  | Ok (Item f) :: rs' | Ok (ItemWithResult f _) :: rs' => f :: yielded rs'
  | Raise _ :: rs' => yielded rs'
  end.

(** An outcome of [__next__] as the claim describes it: [StopIteration], a
    bare future, or, with [with_results], a future paired with its result. *)
Definition item_ok (with_results : bool) (r : result item) : Prop :=
  r = Raise StopIteration
  \/ (with_results = false /\ exists f, r = Ok (Item f))
  \/ (with_results = true /\ exists v, r = Ok (ItemWithResult (Finished v) v)).

Definition ac_ops_example : list ac_op :=
  [OpNext; OpUpdate [Finished (PInt 2); Finished (PInt 3)]; OpNext; OpNext; OpNext].

(** A value holding no reference, nested at most [n] deep. *)
Fixpoint refless (n : nat) (v : pyval) : bool :=
  match n with
  | O => false
  | S n' =>
      match v with
      | PNone | PBool _ | PInt _ | PStr _ => true
      | PList l | PTuple l => forallb (refless n') l
      | PRef _ => false
      end
  end.

Definition is_func (o : obj) : Prop := match o with OFunc _ => True | _ => False end.

(** A numpy array, or a list of plain values. *)
Definition flat_obj (o : obj) : Prop :=
  match o with
  | OArray _ => True
  | OList items => forallb (refless 900) items = true
  | _ => False
  end.

(** The fields of an [NpModel] as [__init__] makes them: plain values
    (names, [None]), or references to a function, an array or a list of
    plain values ([suffixes], [mutants], [param_names]). *)
Definition np_field (h : heap) (v : pyval) : Prop :=
  refless 900 v = true
  \/ exists a o, v = PRef a /\ nth_error h a = Some o /\ (is_func o \/ flat_obj o).

(** A value [copy.deepcopy] copies without error while it copies the model
    at [self]: plain values, the model itself, functions and arrays, and
    tuples, lists and instances whose contents are again such values,
    nested at most [n] deep; for instance a parameter set that is an
    instance holding parameter instances with plain attributes. *)
Fixpoint copyable (h : heap) (self n : nat) (v : pyval) {struct n} : bool :=
  match n with
  | O => false
  | S n' =>
      match v with
      | PNone | PBool _ | PInt _ | PStr _ => true
      | PList l | PTuple l => forallb (copyable h self n') l
      | PRef a =>
          Nat.eqb a self ||
          match nth_error h a with
          | Some (OFunc _) | Some (OArray _) => true
          | Some (OList items) => forallb (copyable h self n') items
          | Some (OInst _ attrs) => forallb (fun kv => copyable h self n' (snd kv)) attrs
          | None => false
          end
      end
  end.

(** The field [v'] of the copy, on heap [h'], equals the field [v] of the
    original, on heap [h]: either the very value, which is then plain or a
    function, or a reference to a fresh object (not one of [h]) with the
    same contents. *)
Definition same_field (h h' : heap) (v v' : pyval) : Prop :=
  (v' = v /\ forall a, v = PRef a -> exists c, nth_error h a = Some (OFunc c))
  \/ (exists a b o, v = PRef a /\ v' = PRef b /\ length h < b
                    /\ nth_error h a = Some o /\ nth_error h' b = Some o).

Definition opt_rel {A B} (R : A -> B -> Prop) (x : option A) (y : option B) : Prop :=
  match x, y with
  | Some a, Some b => R a b
  | None, None => True
  | _, _ => False
  end.

(** What [memo] holds while the model at [self] of [h] is copied into the
    heap [hc]: the model itself, mapped to its copy, and other objects of
    [h] (never functions), mapped to fresh addresses of [hc]; the copy of a
    flat object is equal to it. *)
Definition memo_inv (h : heap) (self : nat) (hc : heap) (mc : memo) : Prop :=
  forall a b, memo_get mc a = Some b ->
    (a = self /\ b = length h)
    \/ (length h < b /\ b < length hc
        /\ exists o, nth_error h a = Some o /\ ~ is_func o
                     /\ (flat_obj o -> nth_error hc b = Some o)).

(** One step of the copy, from heap [hc] and memo [mc] to [hc'] and [mc']:
    the heap only grows, the memo only grows, and what it adds points past
    [hc]. *)
Definition copy_step (h : heap) (self : nat) (hc : heap) (mc : memo) (hc' : heap) (mc' : memo)
  : Prop :=
  (exists e, hc' = hc ++ e) /\ memo_inv h self hc' mc'
  /\ (forall a b, memo_get mc a = Some b -> memo_get mc' a = Some b)
  /\ (forall a b, memo_get mc' a = Some b -> memo_get mc a = Some b \/ length hc <= b).

(** Example inputs: a table from [from_x_and_y], user functions returning
    the row sums as a column or as a 1-D array, and configurations of three
    algorithm classes as pydantic validates them. *)
Definition table_example : CustomData Z :=
  table_of Z_of_nat' 2 1 [[1; 2]; [3; 4]]%Z [[5]; [6]]%Z.

Definition row_sums_call (f : cval) (x : ndarray Z) (params : unit) : result (ndarray Z) :=
  match x with
  | Mat _ rows => Ok (Mat 1 (map (fun r => [fold_left Z.add r 0%Z]) rows))
  | _ => Raise TypeError
  end.

Definition row_sums_vec_call (f : cval) (x : ndarray Z) (params : unit) : result (ndarray Z) :=
  match x with
  | Mat _ rows => Ok (Vec (map (fun r => fold_left Z.add r 0%Z) rows))
  | _ => Raise TypeError
  end.

Definition np_model_example : NpModel :=
  {| np_fun := CFunc 0; np_data := Mat 2 [[1; 2]; [3; 4]]%Z; np_pset := CNone;
     np_suffixes := [(lit "simulate", lit "_data")]; np_mutants := [];
     np_file_path := lit "_optimization"; np_name := lit "_optimization";
     np_param_names := map param_name (seq 0 2) |}.

Definition np_config_example : cdict :=
  [(KStr (lit "models"), CStr (lit "np")); (KStr (lit "_custom_func"), CFunc 0);
   (KStr (lit "_custom_data"), CData table_example)].

Definition params_example : list UniformParam :=
  [{| var_type := lit "uniform_var"; lower_bound := 0; upper_bound := 1 |};
   {| var_type := lit "loguniform_var"; lower_bound := 1 # 10; upper_bound := 10 |}].

Definition general_example (a : AlgConfig) : GeneralConfig :=
  {| param_config := params_example; algorithm_config := a; objfunc := lit "sos";
     population_size := 20; max_iterations := 50; verbosity := 1 |}.

Definition ss_alg_example : AlgConfig :=
  {| alg_cls := ScatterSearch;
     alg_fields := [(KStr (lit "fit_type"), CStr (lit "ss")); (KStr (lit "init_size"), CNone);
                    (KStr (lit "local_min_limit"), CInt 5); (KStr (lit "reserve_size"), CNone)] |}.

Definition pso_alg_example : AlgConfig :=
  {| alg_cls := ParticleSwarm;
     alg_fields := [(KStr (lit "fit_type"), CStr (lit "pso")); (KStr (lit "cognitive"), CFloat (3 # 2));
                    (KStr (lit "social"), CFloat (3 # 2)); (KStr (lit "particle_weight"), CFloat (7 # 10));
                    (KStr (lit "v_stop"), CFloat 0); (KStr (lit "particle_weight_final"), CNone);
                    (KStr (lit "adaptive_n_max"), CInt 30); (KStr (lit "adaptive_n_stop"), CInf);
                    (KStr (lit "adaptive_abs_tol"), CFloat 0); (KStr (lit "adaptive_rel_tol"), CFloat 0)] |}.

Definition pt_alg_example : AlgConfig :=
  {| alg_cls := ParallelTempering;
     alg_fields := [(KStr (lit "fit_type"), CStr (lit "pt")); (KStr (lit "step_size"), CFloat (1 # 5));
                    (KStr (lit "beta"), CNone); (KStr (lit "sample_every"), CInt 100);
                    (KStr (lit "burn_in"), CInt 10000); (KStr (lit "output_hist_every"), CInt 100);
                    (KStr (lit "hist_bins"), CInt 10);
                    (KStr (lit "credible_intervals"), CList [CInt 68; CInt 95]);
                    (KStr (lit "exchange_every"), CInt 20); (KStr (lit "reps_per_beta"), CInt 1);
                    (KStr (lit "beta_range"), CTuple [CFloat (1 # 10); CFloat 1])] |}.

Definition generated_example (a : AlgConfig) : cdict :=
  match generate_pybnf_config_dict (general_example a) (CFunc 0) (CData table_example) with
  | Ok c => c
  | Raise _ => []
  end.

(* ================================================================== *)
(** * Proofs *)

(** ** Dataset adapter *)

Section AdapterProofs.

Context {A : Type} (of_nat : nat -> A).

Lemma hcat_length (r1 r2 : list (list A)) :
  length (hcat r1 r2) = Nat.min (length r1) (length r2).
Proof. unfold hcat. rewrite length_map, length_combine. reflexivity. Qed.

Lemma hstack_three (c1 c2 c3 : nat) (r1 r2 r3 : list (list A)) :
  length r1 = length r2 -> length r2 = length r3 ->
  hstack [Mat c1 r1; Mat c2 r2; Mat c3 r3]
  = Ok (Mat (c1 + (c2 + c3)) (hcat r1 (hcat r2 r3))).
Proof.
  intros H12 H23. simpl.
  rewrite H23, Nat.eqb_refl. simpl.
  rewrite hcat_length, H12, H23, Nat.min_id, Nat.eqb_refl. reflexivity.
Qed.








Lemma from_x_and_y_mats (cx cy : nat) (rx ry : list (list A)) :
  length rx = length ry ->
  from_x_and_y of_nat (Mat cx rx) (Mat cy ry) = Ok (table_of of_nat cx cy rx ry).
Proof.
  intro Hl. unfold from_x_and_y. cbn -[hstack make_colnames].
  rewrite Hl, Nat.eqb_refl. cbn -[hstack make_colnames].
  unfold arange_col. rewrite hstack_three.
  - rewrite <- Hl. reflexivity.
  - rewrite length_map, length_seq; lia.
  - lia.
Qed.

Lemma from_x_and_y_vec_r (x : ndarray A) (v : list A) :
  from_x_and_y of_nat x (Vec v) = from_x_and_y of_nat x (atleast_2d_T v).
Proof. reflexivity. Qed.

Lemma from_x_and_y_vec_l (v : list A) (y : ndarray A) :
  from_x_and_y of_nat (Vec v) y = from_x_and_y of_nat (atleast_2d_T v) y.
Proof. reflexivity. Qed.


Lemma from_x_and_y_tensor_l (sh : list nat) (y : ndarray A) :
  3 <= length sh -> exists e, from_x_and_y of_nat (Tensor sh) y = Raise e.
Proof.
  intro H. destruct sh as [|n1 [|n2 [|n3 sh]]]; simpl in H; try lia.
  unfold from_x_and_y. simpl.
  destruct (if Nat.eqb (ndim y) 1 then match y with Vec v => atleast_2d_T v | _ => y end else y)
    as [b|w|cy ry|shy]; simpl; eauto.
  - destruct (Nat.eqb n1 (length w)); simpl; eauto.
  - destruct (Nat.eqb n1 (length ry)); simpl; eauto.
  - destruct shy; simpl; eauto. destruct (Nat.eqb n1 n); simpl; eauto.
Qed.

Lemma from_x_and_y_tensor_r (x : ndarray A) (sh : list nat) :
  3 <= length sh -> exists e, from_x_and_y of_nat x (Tensor sh) = Raise e.
Proof.
  intro H. destruct sh as [|n1 [|n2 [|n3 sh]]]; simpl in H; try lia.
  unfold from_x_and_y. simpl.
  destruct (if Nat.eqb (ndim x) 1 then match x with Vec v => atleast_2d_T v | _ => x end else x)
    as [b|w|cx rx|shx]; simpl; eauto.
  - destruct (Nat.eqb (length w) n1); simpl; eauto.
  - destruct (Nat.eqb (length rx) n1); simpl; eauto.
  - destruct shx; simpl; eauto. destruct (Nat.eqb n n1); simpl; eauto.
    rewrite Bool.orb_true_r. eauto.
Qed.

Lemma from_x_and_y_mats_mismatch (cx cy : nat) (rx ry : list (list A)) :
  length rx <> length ry -> exists e, from_x_and_y of_nat (Mat cx rx) (Mat cy ry) = Raise e.
Proof.
  intro H. unfold from_x_and_y. simpl.
  apply Nat.eqb_neq in H. rewrite H. simpl. eauto.
Qed.

(** C5 (amended).  On well-formed arrays, [CustomData.from_x_and_y(x, y)]
    succeeds exactly when both inputs are 1-D or 2-D and have the same
    number of rows; otherwise it raises: on a 0-d input ([x.shape[0]]
    fails), on differing row counts, or on an input with more than two
    axes. *)
Theorem from_x_and_y_ok_iff (x y : ndarray A) :
  wf_array x -> wf_array y ->
  ((exists d, from_x_and_y of_nat x y = Ok d) <->
   (1 <= ndim x <= 2 /\ 1 <= ndim y <= 2 /\ shape0 x = shape0 y)).
Proof.
  intros Hx Hy.
  destruct x as [a|v|cx rx|shx].
  - split; [intros [d Hd]; discriminate Hd | simpl; lia].
  - destruct y as [b|w|cy ry|shy].
    + split; [intros [d Hd]; discriminate Hd | simpl; lia].
    + rewrite from_x_and_y_vec_r, from_x_and_y_vec_l. unfold atleast_2d_T. simpl.
      destruct (Nat.eq_dec (length v) (length w)) as [E|E].
      * rewrite from_x_and_y_mats by (rewrite !length_map; lia).
        split; [intros _; split; [lia|split; [lia|congruence]] | eauto].
      * destruct (from_x_and_y_mats_mismatch 1 1 (map (fun a => [a]) v) (map (fun a => [a]) w))
          as [e He]; [rewrite !length_map; exact E|].
        rewrite He. split; [intros [d Hd]; discriminate Hd | intros (_ & _ & H); congruence].
    + rewrite from_x_and_y_vec_l. unfold atleast_2d_T. simpl.
      destruct (Nat.eq_dec (length v) (length ry)) as [E|E].
      * rewrite from_x_and_y_mats by (rewrite !length_map; lia).
        split; [intros _; split; [lia|split; [lia|congruence]] | eauto].
      * destruct (from_x_and_y_mats_mismatch 1 cy (map (fun a => [a]) v) ry)
          as [e He]; [rewrite !length_map; exact E|].
        rewrite He. split; [intros [d Hd]; discriminate Hd | intros (_ & _ & H); congruence].
    + simpl in Hy. destruct (from_x_and_y_tensor_r (Vec v) shy Hy) as [e He].
      rewrite He. split; [intros [d Hd]; discriminate Hd | simpl; lia].
  - destruct y as [b|w|cy ry|shy].
    + split; [intros [d Hd]; unfold from_x_and_y in Hd; simpl in Hd; discriminate Hd | simpl; lia].
    + rewrite from_x_and_y_vec_r. unfold atleast_2d_T. simpl.
      destruct (Nat.eq_dec (length rx) (length w)) as [E|E].
      * rewrite from_x_and_y_mats by (rewrite !length_map; lia).
        split; [intros _; split; [lia|split; [lia|congruence]] | eauto].
      * destruct (from_x_and_y_mats_mismatch cx 1 rx (map (fun a => [a]) w))
          as [e He]; [rewrite !length_map; exact E|].
        rewrite He. split; [intros [d Hd]; discriminate Hd | intros (_ & _ & H); congruence].
    + simpl. destruct (Nat.eq_dec (length rx) (length ry)) as [E|E].
      * rewrite from_x_and_y_mats by lia.
        split; [intros _; split; [lia|split; [lia|congruence]] | eauto].
      * destruct (from_x_and_y_mats_mismatch cx cy rx ry E) as [e He].
        rewrite He. split; [intros [d Hd]; discriminate Hd | intros (_ & _ & H); congruence].
    + simpl in Hy. destruct (from_x_and_y_tensor_r (Mat cx rx) shy Hy) as [e He].
      rewrite He. split; [intros [d Hd]; discriminate Hd | simpl; lia].
  - simpl in Hx. destruct (from_x_and_y_tensor_l shx y Hx) as [e He].
    rewrite He. split; [intros [d Hd]; discriminate Hd | simpl; lia].
Qed.

(** C6.  For [x] of shape (10, 3) and [y] of shape (10, 1) the adapter
    builds a table of 10 rows and 5 columns: the synthetic time column,
    the three input columns and the output column, in that order. *)
Theorem from_x_and_y_shape_10x3_10x1 (rx ry : list (list A)) :
  wf_array (Mat 3 rx) -> wf_array (Mat 1 ry) -> length rx = 10 -> length ry = 10 ->
  exists rows,
    from_x_and_y of_nat (Mat 3 rx) (Mat 1 ry)
    = Ok {| cd_data := Mat 5 rows;
            cd_cols := [(lit "time", 0); (lit "x0000000000", 1); (lit "x0000000001", 2);
                        (lit "x0000000002", 3); (lit "y0000000000", 4)];
            cd_headers := [(0, lit "time"); (1, lit "x0000000000"); (2, lit "x0000000001");
                           (3, lit "x0000000002"); (4, lit "y0000000000")];
            cd_indvar := lit "time" |}
    /\ length rows = 10 /\ Forall (fun r => length r = 5) rows.
Proof.
  intros Hx Hy Hlx Hly. simpl in Hx, Hy.
  rewrite from_x_and_y_mats by lia.
  eexists; split; [reflexivity|]. split.
  - rewrite !hcat_length, length_map, length_seq. lia.
  - unfold hcat. rewrite Forall_forall. intros r Hr.
    apply in_map_iff in Hr. destruct Hr as ([t xy] & <- & Hin).
    pose proof (in_combine_l _ _ _ _ Hin) as Ht. pose proof (in_combine_r _ _ _ _ Hin) as Hxy.
    apply in_map_iff in Ht. destruct Ht as (i & <- & _).
    apply in_map_iff in Hxy. destruct Hxy as ([xr yr] & <- & Hin').
    rewrite Forall_forall in Hx, Hy.
    rewrite length_app, length_app, (Hx xr (in_combine_l _ _ _ _ Hin')),
      (Hy yr (in_combine_r _ _ _ _ Hin')). reflexivity.
Qed.

End AdapterProofs.

(** ** Dtypes of the adapter's table *)








(** C5, as stated, fails: two 0-d arrays of the same shape [()] have no
    differing row counts and no more than two axes, yet the adapter
    raises ([x.shape[0]] is out of range). *)
Lemma from_x_and_y_scalar_raises :
  ndim (Scalar 1%Z) <= 2 /\ ndim (Scalar 2%Z) <= 2 /\
  from_x_and_y Z_of_nat' (Scalar 1%Z) (Scalar 2%Z) = Raise IndexError.
Proof. split; [simpl; lia | split; [simpl; lia | reflexivity]]. Qed.

Lemma from_x_and_y_ok_iff_witness :
  ((exists d, from_x_and_y Z_of_nat' (Vec [1; 2]%Z) (Mat 1 [[3]; [4]]%Z) = Ok d) <->
   (1 <= ndim (Vec [1; 2]%Z) <= 2 /\ 1 <= ndim (Mat 1 [[3]; [4]]%Z) <= 2 /\
    shape0 (Vec [1; 2]%Z) = shape0 (Mat 1 [[3]; [4]]%Z))).
Proof.
  apply (from_x_and_y_ok_iff Z_of_nat' (Vec [1; 2]%Z) (Mat 1 [[3]; [4]]%Z)).
  - exact I.
  - repeat constructor.
Defined.

Lemma from_x_and_y_shape_10x3_10x1_witness :
  exists rows,
    from_x_and_y Z_of_nat' (Mat 3 (rows10 3)) (Mat 1 (rows10 1))
    = Ok {| cd_data := Mat 5 rows;
            cd_cols := [(lit "time", 0); (lit "x0000000000", 1); (lit "x0000000001", 2);
                        (lit "x0000000002", 3); (lit "y0000000000", 4)];
            cd_headers := [(0, lit "time"); (1, lit "x0000000000"); (2, lit "x0000000001");
                           (3, lit "x0000000002"); (4, lit "y0000000000")];
            cd_indvar := lit "time" |}
    /\ length rows = 10 /\ Forall (fun r => length r = 5) rows.
Proof.
  apply (from_x_and_y_shape_10x3_10x1 Z_of_nat' (rows10 3) (rows10 1)).
  - simpl. repeat constructor.
  - simpl. repeat constructor.
  - reflexivity.
  - reflexivity.
Defined.

(** ** Zero-padded column names *)

Section NameProofs.

Open Scope N_scope.

Lemma digit_char_spec (d : N) : d < 10 -> is_digit (digit_char d) /\ dval (digit_char d) = d.
Proof.
  intro H. unfold digit_char, is_digit, dval.
  rewrite Ascii.N_ascii_embedding by lia. lia.
Qed.

Lemma val_snoc (l : pystr) (c : ascii) : val (l ++ [c]) = 10 * val l + dval c.
Proof.
  induction l as [|a l IH]; cbn [app val length].
  - change (10 ^ N.of_nat 0) with 1. lia.
  - rewrite IH, length_app, Nat2N.inj_add, N.pow_add_r.
    change (10 ^ N.of_nat (length [c])) with 10. nia.
Qed.

Lemma str_of_N_aux_val (f : nat) (n : N) :
  n < 10 ^ N.of_nat f ->
  val (str_of_N_aux f n) = n /\ Forall is_digit (str_of_N_aux f n).
Proof.
  revert n. induction f as [|f IH]; intros n Hn; simpl.
  - simpl in Hn. split; [lia | constructor].
  - destruct (N.ltb_spec n 10) as [Hlt|Hge].
    + destruct (digit_char_spec n Hlt) as [Hd Hv].
      split; [cbn [val length]; change (10 ^ N.of_nat 0) with 1; lia | constructor; [exact Hd | constructor]].
    + assert (Hq : n / 10 < 10 ^ N.of_nat f).
      { apply N.Div0.div_lt_upper_bound.
        rewrite Nat2N.inj_succ, N.pow_succ_r' in Hn. exact Hn. }
      destruct (IH (n / 10) Hq) as [IHv IHd].
      assert (Hm : n mod 10 < 10) by (apply N.mod_lt; lia).
      destruct (digit_char_spec (n mod 10) Hm) as [Hd Hv].
      split.
      * rewrite val_snoc, IHv, Hv. symmetry. apply N.div_mod. lia.
      * apply Forall_app. split; [exact IHd | constructor; [exact Hd | constructor]].
Qed.

Lemma str_of_N_aux_length (f : nat) (n : N) (k : nat) :
  (1 <= k)%nat -> n < 10 ^ N.of_nat k -> (length (str_of_N_aux f n) <= k)%nat.
Proof.
  revert n k. induction f as [|f IH]; intros n k Hk Hn; simpl; [lia|].
  destruct (N.ltb_spec n 10) as [Hlt|Hge]; simpl; [lia|].
  destruct k as [|[|k]]; [lia| simpl in Hn; lia|].
  rewrite length_app. simpl.
  assert (IHk : (length (str_of_N_aux f (n / 10)) <= S k)%nat).
  { apply IH; [lia|]. apply N.Div0.div_lt_upper_bound.
    rewrite (Nat2N.inj_succ (S k)), N.pow_succ_r' in Hn. exact Hn. }
  lia.
Qed.

Lemma str_of_N_fuel (n : N) : n < 10 ^ N.of_nat (S (N.to_nat (N.size n))).
Proof.
  rewrite Nat2N.inj_succ, N2Nat.id.
  apply N.lt_le_trans with (2 ^ N.size n); [apply N.size_gt|].
  apply N.le_trans with (10 ^ N.size n).
  - apply N.pow_le_mono_l. lia.
  - apply N.pow_le_mono_r; lia.
Qed.

Lemma str_of_N_val (n : N) : val (str_of_N n) = n /\ Forall is_digit (str_of_N n).
Proof. apply str_of_N_aux_val, str_of_N_fuel. Qed.

Lemma val_zeros (k : nat) (s : pystr) : val (repeat "0"%char k ++ s) = val s.
Proof.
  induction k as [|k IH]; [reflexivity|].
  simpl. rewrite IH. unfold dval. simpl. lia.
Qed.

Lemma fmt_010d_spec (i : N) :
  i < 10 ^ 10 ->
  val (fmt_010d i) = i /\ Forall is_digit (fmt_010d i) /\ length (fmt_010d i) = 10%nat.
Proof.
  intro Hi. unfold fmt_010d, zero_pad.
  destruct (str_of_N_val i) as [Hv Hd].
  assert (Hl : (length (str_of_N i) <= 10)%nat) by (apply str_of_N_aux_length; [lia | exact Hi]).
  split; [|split].
  - rewrite val_zeros. exact Hv.
  - apply Forall_app. split; [|exact Hd].
    apply Forall_forall. intros c Hc. apply repeat_spec in Hc. subst c.
    unfold is_digit. simpl. lia.
  - rewrite length_app, repeat_length. lia.
Qed.

Lemma val_bound (l : pystr) : Forall is_digit l -> val l < 10 ^ N.of_nat (length l).
Proof.
  induction l as [|c l IH]; intro H; cbn [val length]; [change (10 ^ N.of_nat 0) with 1; lia|].
  inversion H as [|? ? Hc Hl]; subst. specialize (IH Hl).
  unfold is_digit in Hc. unfold dval.
  rewrite Nat2N.inj_succ, N.pow_succ_r'.
  remember (10 ^ N.of_nat (length l)) as B. nia.
Qed.

Lemma py_str_lt_digits (l1 l2 : pystr) :
  Forall is_digit l1 -> Forall is_digit l2 -> length l1 = length l2 ->
  py_str_lt l1 l2 = (val l1 <? val l2).
Proof.
  revert l2. induction l1 as [|c l1 IH]; intros [|d l2] H1 H2 Hl; simpl in Hl; try discriminate.
  - reflexivity.
  - inversion H1 as [|? ? Hc H1']; subst. inversion H2 as [|? ? Hd H2']; subst.
    injection Hl as Hl. simpl.
    pose proof (val_bound l1 H1') as B1. pose proof (val_bound l2 H2') as B2.
    rewrite <- Hl in B2 |- *.
    remember (10 ^ N.of_nat (length l1)) as B.
    destruct (ascii_dec c d) as [<-|Hne].
    + rewrite (IH l2 H1' H2' Hl).
      destruct (N.ltb_spec (val l1) (val l2)), (N.ltb_spec (dval c * B + val l1) (dval c * B + val l2));
        reflexivity || lia.
    + assert (Hne' : N_of_ascii c <> N_of_ascii d).
      { intro E. apply Hne. rewrite <- (Ascii.ascii_N_embedding c), <- (Ascii.ascii_N_embedding d), E.
        reflexivity. }
      unfold nat_of_ascii, is_digit, dval in *.
      destruct (Nat.ltb_spec (N.to_nat (N_of_ascii c)) (N.to_nat (N_of_ascii d))) as [Hlt|Hge];
      destruct (N.ltb_spec ((N_of_ascii c - 48) * B + val l1) ((N_of_ascii d - 48) * B + val l2)) as [Hlt'|Hge'];
        try reflexivity; exfalso.
      * assert (N_of_ascii c < N_of_ascii d) by lia.
        assert ((N_of_ascii c - 48 + 1) * B <= (N_of_ascii d - 48) * B) by (apply N.mul_le_mono_r; lia).
        nia.
      * assert (N_of_ascii d < N_of_ascii c).
        { lia. }
        assert ((N_of_ascii d - 48 + 1) * B <= (N_of_ascii c - 48) * B) by (apply N.mul_le_mono_r; lia).
        nia.
Qed.

End NameProofs.

(** C8 (amended).  The ten-digit zero padding makes Python's string order
    agree with index order for indices below [10^10]: within one prefix
    the name of [i] sorts before the name of [j] when [i < j < 10^10];
    ["time"] sorts before every input name and every input name before
    every output name. *)
Theorem colname_lex_order (i j : N) :
  (i < j < 10 ^ 10)%N ->
  (forall p : ascii, py_str_lt (colname p i) (colname p j) = true)
  /\ py_str_lt (lit "time") (colname "x" i) = true
  /\ py_str_lt (colname "x" i) (colname "y" j) = true
  /\ py_str_lt (colname "x" j) (colname "y" i) = true.
Proof.
  intro H.
  split; [|split; [reflexivity | split; reflexivity]].
  intro p. unfold colname. cbn [py_str_lt].
  destruct (ascii_dec p p) as [_|C]; [|congruence].
  destruct (fmt_010d_spec i) as (Vi & Di & Li); [lia|].
  destruct (fmt_010d_spec j) as (Vj & Dj & Lj); [lia|].
  rewrite py_str_lt_digits by congruence.
  rewrite Vi, Vj. apply N.ltb_lt. lia.
Qed.

Lemma colname_lex_order_witness :
  (forall p : ascii, py_str_lt (colname p 7) (colname p 12) = true)
  /\ py_str_lt (lit "time") (colname "x" 7) = true
  /\ py_str_lt (colname "x" 7) (colname "y" 12) = true
  /\ py_str_lt (colname "x" 12) (colname "y" 7) = true.
Proof. apply (colname_lex_order 7 12). lia. Defined.

(** C8, as stated for every pair of indices, fails once an index needs
    more than ten digits: [x9999999999] sorts after [x10000000000]. *)
Lemma colname_order_breaks_at_11_digits :
  (9999999999 < 10000000000)%N
  /\ colname "x" 9999999999 = lit "x9999999999"
  /\ colname "x" 10000000000 = lit "x10000000000"
  /\ py_str_lt (colname "x" 9999999999) (colname "x" 10000000000) = false.
Proof. split; [lia | vm_compute; repeat split]. Qed.

(** ** Configuration key checks *)

Lemma pystr_eqb_spec (a b : pystr) : pystr_eqb a b = true <-> a = b.
Proof. unfold pystr_eqb. destruct (list_eq_dec ascii_dec a b); split; congruence. Qed.

Lemma pystr_eqb_refl (a : pystr) : pystr_eqb a a = true.
Proof. apply pystr_eqb_spec. reflexivity. Qed.

Lemma pystr_eqb_sym (a b : pystr) : pystr_eqb a b = pystr_eqb b a.
Proof.
  destruct (pystr_eqb a b) eqn:E1, (pystr_eqb b a) eqn:E2; try reflexivity.
  - apply pystr_eqb_spec in E1. subst. rewrite pystr_eqb_refl in E2. discriminate.
  - apply pystr_eqb_spec in E2. subst. rewrite pystr_eqb_refl in E1. discriminate.
Qed.

Lemma dict_get_set_same (d : dict) (k : pystr) (v : pyval) : dict_get (dict_set d k v) k = Some v.
Proof.
  induction d as [|[k' v'] d IH]; simpl.
  - rewrite pystr_eqb_refl. reflexivity.
  - destruct (pystr_eqb k' k) eqn:E; simpl; rewrite E; [reflexivity | exact IH].
Qed.

Lemma dict_get_set_other (d : dict) (k k' : pystr) (v : pyval) :
  pystr_eqb k k' = false -> dict_get (dict_set d k v) k' = dict_get d k'.
Proof.
  intro H. induction d as [|[k0 v0] d IH]; simpl.
  - rewrite H. reflexivity.
  - destruct (pystr_eqb k0 k) eqn:E; simpl.
    + apply pystr_eqb_spec in E. subst. rewrite H. reflexivity.
    + rewrite IH. reflexivity.
Qed.

Lemma dict_in_set (d : dict) (k k' : pystr) (v : pyval) :
  dict_in (dict_set d k v) k' = dict_in d k' || pystr_eqb k k'.
Proof.
  unfold dict_in. destruct (pystr_eqb k k') eqn:E.
  - apply pystr_eqb_spec in E. subst. rewrite dict_get_set_same, orb_true_r. reflexivity.
  - rewrite dict_get_set_other by exact E. rewrite orb_false_r. reflexivity.
Qed.

Lemma forallb_filter_nil {B} (f : B -> bool) (l : list B) :
  forallb f l = true <-> filter (fun x => negb (f x)) l = [].
Proof.
  induction l as [|a l IH]; simpl; [tauto|].
  destruct (f a); simpl; [exact IH | split; discriminate].
Qed.

Lemma filter_ext_fun {B} (f g : B -> bool) (l : list B) :
  (forall x, f x = g x) -> filter f l = filter g l.
Proof. intro H. induction l as [|a l IH]; simpl; [reflexivity|]. rewrite H, IH. reflexivity. Qed.

(** The effective [fit_type] seen by the required-key check. *)
Lemma check_keys_fit_type (d : dict) :
  let d1 := if dict_in d (lit "fit_type") then d else dict_set d (lit "fit_type") (PStr (lit "de")) in
  exists ft, dict_get d1 (lit "fit_type") = Some ft
  /\ (forall k, dict_in d1 k = dict_in d k || pystr_eqb (lit "fit_type") k)
  /\ (py_eq_str ft (lit "check")
      = match dict_get d (lit "fit_type") with Some v => py_eq_str v (lit "check") | None => false end)
  /\ (py_eq_str ft (lit "bmc") = true -> py_eq_str ft (lit "check") = false).
Proof.
  unfold dict_in at 1. destruct (dict_get d (lit "fit_type")) as [v|] eqn:E.
  - exists v. split; [exact E|]. split; [|split; [reflexivity|]].
    + intro k. destruct (pystr_eqb (lit "fit_type") k) eqn:Ek; [|rewrite orb_false_r; reflexivity].
      apply pystr_eqb_spec in Ek. subst. unfold dict_in. rewrite E. reflexivity.
    + destruct v; try discriminate. simpl. intro H. apply pystr_eqb_spec in H. subst. reflexivity.
  - exists (PStr (lit "de")). split; [apply dict_get_set_same|].
    split; [intro k; apply dict_in_set | split; reflexivity].
Qed.

Lemma check_keys_models_ok (req : list pystr) (d : dict) (v : pyval) (n : nat) :
  dict_get d (lit "models") = Some v -> py_len v = Ok (S n) ->
  let missing := filter (fun k => negb (dict_in d k) && negb (pystr_eqb k (lit "fit_type"))) req in
  let check_mode := match dict_get d (lit "fit_type") with
                    | Some ft => py_eq_str ft (lit "check") | None => false end in
  (check_mode = false -> missing <> [] ->
   CustomConfiguration_check_keys req d = Raise undefined_config_error)
  /\ (check_mode = true \/ missing = [] -> exists d', CustomConfiguration_check_keys req d = Ok d').
Proof.
  intros Hm Hl missing check_mode.
  unfold CustomConfiguration_check_keys. rewrite Hm. cbn [bind]. rewrite Hl. cbn [bind Nat.eqb].
  destruct (check_keys_fit_type d) as (ft & Hft & Hin & Hchk & Hbmc).
  set (d1 := if dict_in d (lit "fit_type") then d else dict_set d (lit "fit_type") (PStr (lit "de"))) in *.
  assert (Hgi : dict_getitem d1 (lit "fit_type") = Ok ft)
    by (unfold dict_getitem; rewrite Hft; reflexivity).
  rewrite !Hgi. cbn [bind].
  assert (Hd2 : forall d2 ft2,
            dict_get d2 (lit "fit_type") = Some ft2 ->
            (forall k, dict_in d2 k = dict_in d k || pystr_eqb (lit "fit_type") k) ->
            py_eq_str ft2 (lit "check") = check_mode ->
            (check_mode = false -> missing <> [] ->
             (let* ft0 := dict_getitem d2 (lit "fit_type") in
              if negb (forallb (dict_in d2) req) && negb (py_eq_str ft0 (lit "check"))
              then Raise undefined_config_error
              else Ok d2) = Raise undefined_config_error)
            /\ (check_mode = true \/ missing = [] ->
                exists d', (let* ft0 := dict_getitem d2 (lit "fit_type") in
                            if negb (forallb (dict_in d2) req) && negb (py_eq_str ft0 (lit "check"))
                            then Raise undefined_config_error
                            else Ok d2) = Ok d')).
  { intros d2 ft2 Hg Hin2 Hc2. unfold dict_getitem. rewrite Hg. cbn [bind]. rewrite Hc2.
    assert (Hf : filter (fun k => negb (dict_in d2 k)) req = missing).
    { unfold missing. apply filter_ext_fun. intro k. rewrite Hin2, negb_orb, pystr_eqb_sym. reflexivity. }
    assert (Hfa : forallb (dict_in d2) req = true <-> missing = []).
    { rewrite <- Hf. apply forallb_filter_nil. }
    split.
    - intros Hc Hne. rewrite Hc. destruct (forallb (dict_in d2) req) eqn:E.
      + exfalso. apply Hne, Hfa. reflexivity.
      + reflexivity.
    - intros [Hc|He].
      + rewrite Hc. rewrite andb_false_r. eauto.
      + rewrite (proj2 Hfa He). simpl. eauto. }
  destruct (py_eq_str ft (lit "bmc")) eqn:Eb; cbv beta iota zeta.
  - apply (Hd2 (dict_set d1 (lit "fit_type") (PStr (lit "mh"))) (PStr (lit "mh"))).
    + apply dict_get_set_same.
    + intro k. rewrite dict_in_set, Hin. destruct (pystr_eqb (lit "fit_type") k), (dict_in d k); reflexivity.
    + unfold check_mode. rewrite <- Hchk, (Hbmc eq_refl). reflexivity.
  - apply (Hd2 d1 ft Hft Hin Hchk).
Qed.

(** C2 (code bug).  Both key checks of [CustomConfiguration.__init__]
    end in [raise UnspecifiedConfigurationKeyError(...)], a name that
    [custom_classes.py] neither defines nor imports, so each of them raises
    [NameError] for that name; the error names no configuration key.  When
    the key ["models"] is absent or its value is empty, this happens in
    every mode, also under [fit_type = "check"].  Otherwise, unless
    [fit_type] is ["check"], a configuration that lacks a required user
    parameter ([fit_type] itself defaults to ["de"] and never counts as
    missing) raises the same [NameError]; with all of them present, or in
    ["check"] mode, the key checks pass. *)
Theorem CustomConfiguration_required_keys (req : list pystr) (d : dict) :
  let missing := filter (fun k => negb (dict_in d k) && negb (pystr_eqb k (lit "fit_type"))) req in
  let check_mode := match dict_get d (lit "fit_type") with
                    | Some ft => py_eq_str ft (lit "check") | None => false end in
  ((dict_get d (lit "models") = None
    \/ exists v, dict_get d (lit "models") = Some v /\ py_len v = Ok 0) ->
   CustomConfiguration_check_keys req d = Raise (NameError (lit "UnspecifiedConfigurationKeyError")))
  /\ (forall v n, dict_get d (lit "models") = Some v -> py_len v = Ok (S n) ->
      (check_mode = false -> missing <> [] ->
       CustomConfiguration_check_keys req d
       = Raise (NameError (lit "UnspecifiedConfigurationKeyError")))
      /\ (check_mode = true \/ missing = [] ->
          exists d', CustomConfiguration_check_keys req d = Ok d')).
Proof.
  intros missing check_mode. split.
  - intros [Hn | (v & Hv & Hl)]; unfold CustomConfiguration_check_keys.
    + rewrite Hn. reflexivity.
    + rewrite Hv. cbn [bind]. rewrite Hl. reflexivity.
  - intros v n Hv Hl. exact (check_keys_models_ok req d v n Hv Hl).
Qed.

Lemma CustomConfiguration_required_keys_witness :
  CustomConfiguration_check_keys example_req
    [(lit "models", PStr (lit "np")); (lit "population_size", PInt 20)]
  = Raise (NameError (lit "UnspecifiedConfigurationKeyError")).
Proof.
  destruct (CustomConfiguration_required_keys example_req
              [(lit "models", PStr (lit "np")); (lit "population_size", PInt 20)]) as [_ H].
  exact (proj1 (H (PStr (lit "np")) 1 eq_refl eq_refl) eq_refl ltac:(discriminate)).
Defined.

(** C2 fails on a configuration with a model but without the required
    key ["max_iterations"]: the check raises [NameError] for
    [UnspecifiedConfigurationKeyError], not a configuration error whose
    message names ["max_iterations"]. *)
Lemma missing_key_raises_name_error :
  CustomConfiguration_check_keys example_req
    [(lit "models", PStr (lit "np")); (lit "population_size", PInt 20)]
  = Raise (NameError (lit "UnspecifiedConfigurationKeyError")).
Proof. vm_compute. reflexivity. Qed.

(** ** [MockClient.submit] *)

(** C3 (amended).  [MockClient.submit] runs [func] at once on the
    positional arguments alone (keyword arguments are dropped): its effect
    on the state is that of calling [func] with [args] only;
    when that call returns [v], [submit] returns an already finished future
    whose [result()] is [v]; when it raises, the same exception leaves
    [submit]. *)
Theorem submit_runs_positional_call {St : Type} (func : callable St) (args : list pyval)
    (kwargs : dict) (s : St) :
  fst (submit func args kwargs s) = fst (func args [] s)
  /\ (forall v, snd (func args [] s) = Ok v ->
      snd (submit func args kwargs s) = Ok (Finished v)
      /\ future_result (Finished v) = Some (Ok v))
  /\ (forall e, snd (func args [] s) = Raise e -> snd (submit func args kwargs s) = Raise e).
Proof.
  unfold submit. destruct (func args [] s) as [s' r]. simpl.
  split; [reflexivity|]. split.
  - intros v ->. split; reflexivity.
  - intros e ->. reflexivity.
Qed.

Lemma submit_runs_positional_call_witness :
  snd (submit needs_kw_x [] [] tt) = Raise TypeError.
Proof.
  destruct (submit_runs_positional_call needs_kw_x [] [] tt) as (_ & _ & H).
  apply H. reflexivity.
Defined.

(** C3, as stated, fails: with a keyword argument, calling the function
    directly returns, while [submit] raises, since the keyword argument is
    not passed on. *)
Lemma submit_drops_keyword_arguments :
  needs_kw_x [] [(lit "x", PInt 1)] tt = (tt, Ok (PInt 1))
  /\ submit needs_kw_x [] [(lit "x", PInt 1)] tt = (tt, Raise TypeError).
Proof. split; reflexivity. Qed.

(** ** [new_custom_as_completed] *)

Lemma as_completed_next_stop (st : as_completed) :
  Forall is_finished (ac_futures st) ->
  (exists st', as_completed_next st = Some (Raise StopIteration, st')) <-> ac_futures st = [].
Proof.
  intro H. unfold as_completed_next. destruct (ac_futures st) as [|f rest] eqn:E.
  - split; [reflexivity | intros _; eauto].
  - split; [|discriminate]. intros [st' Hn].
    inversion H as [|? ? [v ->] _]; subst.
    destruct (ac_with_results st); discriminate.
Qed.

Lemma as_completed_run_inv (ops : list ac_op) (st : as_completed) :
  Forall is_finished (ac_futures st ++ inserted ops) ->
  let '(rs, st') := as_completed_run st ops in
  yielded rs ++ ac_futures st' = ac_futures st ++ inserted ops
  /\ length rs = count_next ops
  /\ Forall (item_ok (ac_with_results st)) rs
  /\ ac_with_results st' = ac_with_results st.
Proof.
  revert st. induction ops as [|op ops IH]; intros st H; simpl.
  - rewrite app_nil_r. repeat split; constructor.
  - destruct op as [|fs].
    + unfold as_completed_next. destruct (ac_futures st) as [|f rest] eqn:E.
      * specialize (IH st). rewrite E in IH. specialize (IH H).
        destruct (as_completed_run st ops) as [rs st'] eqn:Er.
        destruct IH as (H1 & H2 & H3 & H4). simpl.
        repeat split; auto. constructor; [left; reflexivity | exact H3].
      * inversion H as [|? ? [v Hv] Hrest]; subst f.
        set (st1 := {| ac_futures := rest; ac_with_results := ac_with_results st |}).
        specialize (IH st1 Hrest).
        assert (Hstep : forall r, (r = Ok (Item (Finished v)) /\ ac_with_results st = false)
                               \/ (r = Ok (ItemWithResult (Finished v) v) /\ ac_with_results st = true) ->
                   let '(rs, st'') := let '(rs, st'') := as_completed_run st1 ops in (r :: rs, st'') in
                   yielded rs ++ ac_futures st'' = Finished v :: rest ++ inserted ops
                   /\ length rs = S (count_next ops)
                   /\ Forall (item_ok (ac_with_results st)) rs
                   /\ ac_with_results st'' = ac_with_results st).
        { intros r Hr. destruct (as_completed_run st1 ops) as [rs st'] eqn:Er.
          destruct IH as (J1 & J2 & J3 & J4). simpl in J1, J3, J4.
          destruct Hr as [[-> Hw] | [-> Hw]]; simpl;
            (repeat split; [rewrite J1; reflexivity | rewrite J2; reflexivity | | exact J4]);
            constructor; auto; unfold item_ok; eauto 6. }
        destruct (ac_with_results st) eqn:Ew; simpl; apply Hstep; auto.
    + specialize (IH (as_completed_update st fs)). simpl in IH.
      rewrite <- app_assoc in IH. specialize (IH H).
      destruct (as_completed_run (as_completed_update st fs) ops) as [rs st'].
      destruct IH as (H1 & H2 & H3 & H4). auto.
Qed.

(** C7: iterating [new_custom_as_completed] over already-resolved futures
    (those [MockClient.submit] builds, which hold a result), with futures
    added on the way by [update], yields exactly the futures handed to it,
    in insertion order: what the [__next__] calls yielded followed by what
    is still queued is the initial list followed by the updates.  Every
    [__next__] call returns, each outcome is [StopIteration] or a future
    (paired with its result when [with_results] is set), and [__next__]
    raises [StopIteration] exactly when the queue is exhausted. *)
Theorem new_custom_as_completed_in_order (fs0 : list future) (with_results : bool)
    (ops : list ac_op) :
  Forall is_finished (fs0 ++ inserted ops) ->
  let '(rs, st) := as_completed_run (as_completed_init fs0 with_results) ops in
  yielded rs ++ ac_futures st = fs0 ++ inserted ops
  /\ length rs = count_next ops
  /\ Forall (item_ok with_results) rs
  /\ (forall st', Forall is_finished (ac_futures st') ->
       (exists st'', as_completed_next st' = Some (Raise StopIteration, st''))
       <-> ac_futures st' = []).
Proof.
  intro H.
  pose proof (as_completed_run_inv ops (as_completed_init fs0 with_results) H) as Hinv.
  destruct (as_completed_run (as_completed_init fs0 with_results) ops) as [rs st].
  destruct Hinv as (H1 & H2 & H3 & _).
  split; [exact H1 | split; [exact H2 | split; [exact H3 |]]].
  intros st1 Hf. exact (as_completed_next_stop st1 Hf).
Qed.

Lemma new_custom_as_completed_in_order_witness :
  Forall is_finished ([Finished (PInt 1)] ++ inserted ac_ops_example)
  /\ as_completed_run (as_completed_init [Finished (PInt 1)] true) ac_ops_example
     = ([Ok (ItemWithResult (Finished (PInt 1)) (PInt 1));
         Ok (ItemWithResult (Finished (PInt 2)) (PInt 2));
         Ok (ItemWithResult (Finished (PInt 3)) (PInt 3));
         Raise StopIteration],
        as_completed_init [] true)
  /\ (let '(rs, st) := as_completed_run (as_completed_init [Finished (PInt 1)] true)
                          ac_ops_example in
      yielded rs ++ ac_futures st = [Finished (PInt 1)] ++ inserted ac_ops_example
      /\ length rs = count_next ac_ops_example
      /\ Forall (item_ok true) rs
      /\ (forall st', Forall is_finished (ac_futures st') ->
           (exists st'', as_completed_next st' = Some (Raise StopIteration, st''))
           <-> ac_futures st' = [])).
Proof.
  assert (Hf : Forall is_finished ([Finished (PInt 1)] ++ inserted ac_ops_example)).
  { simpl. repeat constructor; eexists; reflexivity. }
  split; [exact Hf | split; [vm_compute; reflexivity |]].
  apply (new_custom_as_completed_in_order [Finished (PInt 1)] true ac_ops_example Hf).
Defined.

(** ** [parse_outputs] *)

Lemma credible_key_not_success (s : pystr) :
  pystr_eqb (credible_key s) (lit "success") = false.
Proof.
  unfold pystr_eqb. destruct (list_eq_dec ascii_dec _ _) as [E|]; [|reflexivity].
  unfold credible_key in E. simpl in E. discriminate.
Qed.

Lemma read_credible_success (read_table : pystr -> result table) (py_format : pyval -> pystr)
    (dir : pystr) (l : list pyval) (out out' : dict) :
  read_credible read_table py_format dir l out = Ok out' ->
  dict_get out' (lit "success") = dict_get out (lit "success").
Proof.
  revert out. induction l as [|iv l IH]; intros out H; simpl in H.
  - injection H as <-. reflexivity.
  - destruct (read_table _) as [t|e]; [|discriminate].
    simpl in H. rewrite (IH _ H). apply dict_get_set_other, credible_key_not_success.
Qed.

(** C10: whatever the result files hold and whatever the configuration,
    when [parse_outputs] returns, its result has [success] set to [True];
    no path of the function writes another value there. *)
Theorem parse_outputs_success_true (read_table : pystr -> result table)
    (py_format : pyval -> pystr) (config : dict) (r : dict) :
  parse_outputs read_table py_format config = Ok r ->
  dict_get r (lit "success") = Some (PBool true).
Proof.
  unfold parse_outputs. intro H.
  destruct (output_dir_of config) as [dir|e]; cbn [bind] in H; [|discriminate].
  destruct (read_table _) as [results|e]; cbn [bind] in H; [|discriminate].
  destruct (iloc_row_from results 0 3) as [x|e]; cbn [bind] in H; [|discriminate].
  destruct (iloc_cell results 0 2) as [fun_|e]; cbn [bind] in H; [|discriminate].
  destruct (dict_getitem config (lit "fit_type")) as [ft|e]; cbn [bind] in H; [|discriminate].
  set (out := dict_set (dict_set (dict_set [] (lit "success") (PBool true)) (lit "x") x)
                 (lit "fun") fun_) in H.
  assert (Hout : dict_get out (lit "success") = Some (PBool true)) by reflexivity.
  destruct (py_eq_str ft (lit "mh") || py_eq_str ft (lit "pt")).
  - destruct (dict_getitem config (lit "credible_intervals")) as [ci|e]; cbn [bind] in H;
      [|discriminate].
    destruct ci; try discriminate;
      (destruct (read_credible read_table py_format dir l out) as [o|e] eqn:Ec;
       cbn [bind] in H; [|discriminate]);
      injection H as <-; rewrite (read_credible_success _ _ _ _ _ _ Ec); exact Hout.
  - cbn [bind] in H. injection H as <-. exact Hout.
Qed.

Lemma parse_outputs_success_true_witness :
  parse_outputs (fun _ => Ok [[PInt 0; PInt 1; PInt 5; PInt 7; PInt 8]]) (fun _ => lit "68")
    parse_config_example
  = Ok [(lit "success", PBool true); (lit "x", PList [PInt 7; PInt 8]); (lit "fun", PInt 5);
        (lit "credible68", PList [PList [PInt 0; PInt 1; PInt 5; PInt 7; PInt 8]])]
  /\ dict_get [(lit "success", PBool true); (lit "x", PList [PInt 7; PInt 8]); (lit "fun", PInt 5);
        (lit "credible68", PList [PList [PInt 0; PInt 1; PInt 5; PInt 7; PInt 8]])]
        (lit "success") = Some (PBool true).
Proof.
  assert (H : parse_outputs (fun _ => Ok [[PInt 0; PInt 1; PInt 5; PInt 7; PInt 8]]) (fun _ => lit "68")
    parse_config_example
  = Ok [(lit "success", PBool true); (lit "x", PList [PInt 7; PInt 8]); (lit "fun", PInt 5);
        (lit "credible68", PList [PList [PInt 0; PInt 1; PInt 5; PInt 7; PInt 8]])])
    by (vm_compute; reflexivity).
  split; [exact H | exact (parse_outputs_success_true _ _ _ _ H)].
Defined.

(** ** [run_simple_optimization] *)

Lemma check_keys_keeps_dict (req : list pystr) (d d1 : dict) (ft : pystr) :
  CustomConfiguration_check_keys req d = Ok d1 ->
  dict_get d (lit "fit_type") = Some (PStr ft) ->
  pystr_eqb ft (lit "bmc") = false ->
  d1 = d.
Proof.
  intros H Hft Hb. unfold CustomConfiguration_check_keys in H.
  destruct (match dict_get d (lit "models") with
            | Some v => let* n := py_len v in Ok (n =? 0)
            | None => Ok true end) as [mm|e]; cbn [bind] in H; [|discriminate].
  destruct mm; [discriminate|].
  assert (Hin : dict_in d (lit "fit_type") = true) by (unfold dict_in; rewrite Hft; reflexivity).
  assert (Hgi : dict_getitem d (lit "fit_type") = Ok (PStr ft))
    by (unfold dict_getitem; rewrite Hft; reflexivity).
  rewrite Hin, Hgi in H. cbn [bind py_eq_str] in H. rewrite Hb in H.
  rewrite Hgi in H. cbn [bind] in H.
  destruct (_ && _); [discriminate | injection H as <-; reflexivity].
Qed.

Lemma select_algorithm_mcmc_assert (py_format : pyval -> pystr) (d : dict) (ft : pystr)
    (b se mx : Z) :
  dict_get d (lit "fit_type") = Some (PStr ft) ->
  In ft [lit "mh"; lit "pt"; lit "am"] ->
  dict_get d (lit "burn_in") = Some (PInt b) ->
  dict_get d (lit "sample_every") = Some (PInt se) ->
  dict_get d (lit "max_iterations") = Some (PInt mx) ->
  (mx < b \/ mx < se)%Z ->
  select_algorithm py_format d = Raise AssertionError.
Proof.
  intros Hft Hin Hb Hse Hmx Hlt.
  assert (Hbl : assert_le d (lit "burn_in") (lit "max_iterations")
                = if Z.leb b mx then Ok tt else Raise AssertionError).
  { unfold assert_le, dict_getitem. rewrite Hb, Hmx. reflexivity. }
  assert (Hsl : assert_le d (lit "sample_every") (lit "max_iterations")
                = if Z.leb se mx then Ok tt else Raise AssertionError).
  { unfold assert_le, dict_getitem. rewrite Hse, Hmx. reflexivity. }
  assert (Hfail : forall (T : Type) (k : result T),
             (let* _ := assert_le d (lit "burn_in") (lit "max_iterations") in
              let* _ := assert_le d (lit "sample_every") (lit "max_iterations") in k)
             = Raise AssertionError).
  { intros T k. rewrite Hbl, Hsl.
    destruct (Z.leb b mx) eqn:E1; [destruct (Z.leb se mx) eqn:E2|]; try reflexivity.
    apply Z.leb_le in E1. apply Z.leb_le in E2. lia. }
  unfold select_algorithm, dict_getitem. rewrite Hft. cbn [bind].
  destruct Hin as [<- | [<- | [<- | []]]]; cbn [py_eq_str];
    repeat match goal with
    | |- context [pystr_eqb ?a ?b] =>
        let v := eval vm_compute in (pystr_eqb a b) in
        change (pystr_eqb a b) with v; cbv iota
    end.
  1, 2: apply Hfail.
  rewrite Hbl, Hsl. destruct (Z.leb b mx) eqn:E1; [destruct (Z.leb se mx) eqn:E2|]; try reflexivity.
  apply Z.leb_le in E1. apply Z.leb_le in E2. lia.
Qed.

Section RunProofs.

Variables (F GC Cfg : Type) (req : list pystr).
Variable generate_pybnf_config_dict : GC -> F -> CustomData Z -> dict.
Variable pybnf_load : dict -> dict * result Cfg.
Variable cfg_config : Cfg -> dict.
Variable alg_run : Cfg -> pystr -> result unit.
Variable read_table : pystr -> result table.
Variable py_format : pyval -> pystr.

(** pyBNF's loading ([postprocess_mcmc_keys] and the rest) leaves the fit
    type and the iteration settings of the dictionary as they are. *)
Hypothesis pybnf_load_keeps : forall d k,
  In k [lit "fit_type"; lit "burn_in"; lit "sample_every"; lit "max_iterations"] ->
  dict_get (fst (pybnf_load d)) k = dict_get d k.

(** C4: when the configuration dictionary generated for [func] and the
    data selects [mh], [pt] or [am] and has integer [burn_in],
    [sample_every] and [max_iterations] with [burn_in > max_iterations] or
    [sample_every > max_iterations], [run_simple_optimization] raises
    [AssertionError] once the configuration is loaded (an error of the
    configuration itself is raised first), and nothing has happened by
    then: no algorithm was built, no directory made, nothing run. *)
Theorem run_simple_optimization_mcmc_bounds (func : F) (inputs outputs : ndarray Z)
    (general_config : GC) (data : CustomData Z) (ft : pystr) (b se mx : Z) :
  from_x_and_y Z_of_nat' inputs outputs = Ok data ->
  let d := generate_pybnf_config_dict general_config func data in
  dict_get d (lit "fit_type") = Some (PStr ft) ->
  In ft [lit "mh"; lit "pt"; lit "am"] ->
  dict_get d (lit "burn_in") = Some (PInt b) ->
  dict_get d (lit "sample_every") = Some (PInt se) ->
  dict_get d (lit "max_iterations") = Some (PInt mx) ->
  (mx < b \/ mx < se)%Z ->
  run_simple_optimization F GC Cfg req generate_pybnf_config_dict pybnf_load cfg_config
    alg_run read_table py_format func inputs outputs general_config []
  = ([], match snd (CustomConfiguration Cfg req pybnf_load d) with
         | Ok _ => Raise AssertionError
         | Raise e => Raise e
         end).
Proof.
  intros Hxy d Hft Hin Hb Hse Hmx Hlt.
  unfold run_simple_optimization, mbind at 1, lift at 1. rewrite Hxy. fold d.
  unfold CustomConfiguration.
  destruct (CustomConfiguration_check_keys req d) as [d1|e] eqn:Ek.
  2:{ reflexivity. }
  assert (Hbmc : pystr_eqb ft (lit "bmc") = false).
  { destruct Hin as [<- | [<- | [<- | []]]]; reflexivity. }
  pose proof (check_keys_keeps_dict req d d1 ft Ek Hft Hbmc) as ->.
  pose proof (pybnf_load_keeps d) as Hk.
  destruct (pybnf_load d) as [d2 cfg] eqn:El. simpl in Hk |- *.
  destruct cfg as [c|e]; [|reflexivity].
  unfold mbind at 1, lift at 1.
  rewrite (select_algorithm_mcmc_assert py_format d2 ft b se mx); try assumption;
    [reflexivity | rewrite Hk; [assumption | simpl; tauto] ..].
Qed.

End RunProofs.

Lemma run_simple_optimization_mcmc_bounds_witness :
  run_simple_optimization unit unit unit [] (fun _ _ _ => mh_config_example)
    (fun d => (d, Ok tt)) (fun _ => []) (fun _ _ => Ok tt) (fun _ => Raise IndexError)
    (fun _ => []) tt (Vec [1; 2; 3]%Z) (Vec [2; 4; 6]%Z) tt []
  = ([], Raise AssertionError).
Proof.
  destruct (from_x_and_y Z_of_nat' (Vec [1; 2; 3]%Z) (Vec [2; 4; 6]%Z)) as [data|e] eqn:Hxy;
    [|vm_compute in Hxy; discriminate].
  rewrite (run_simple_optimization_mcmc_bounds unit unit unit [] (fun _ _ _ => mh_config_example)
             (fun d => (d, Ok tt)) (fun _ => []) (fun _ _ => Ok tt) (fun _ => Raise IndexError)
             (fun _ => []) (fun d k _ => eq_refl) tt (Vec [1; 2; 3]%Z) (Vec [2; 4; 6]%Z) tt
             data (lit "mh") 10000 100 500 Hxy);
    [vm_compute; reflexivity | reflexivity | simpl; tauto | reflexivity | reflexivity
    | reflexivity | lia].
Defined.

(** ** [NpModel.copy_with_param_set] *)

Lemma deepcopy_list_id (dc : heap -> memo -> pyval -> result (heap * memo * pyval))
    (h : heap) (m : memo) (l : list pyval) :
  (forall v, In v l -> dc h m v = Ok (h, m, v)) -> deepcopy_list dc h m l = Ok (h, m, l).
Proof.
  induction l as [|v l IH]; intro H; simpl; [reflexivity|].
  rewrite (H v (or_introl eq_refl)). simpl.
  rewrite IH by (intros w Hw; apply H; right; exact Hw). reflexivity.
Qed.

Lemma deepcopy_refless (n f : nat) (h : heap) (m : memo) (v : pyval) :
  refless n v = true -> n <= f -> deepcopy f h m v = Ok (h, m, v).
Proof.
  revert f v. induction n as [|n IH]; intros f v H Hf; [discriminate|].
  destruct f as [|f]; [lia|].
  destruct v; simpl in H |- *; try reflexivity; try discriminate.
  - rewrite deepcopy_list_id; [reflexivity|].
    intros w Hw. apply IH; [|lia]. rewrite forallb_forall in H. auto.
  - rewrite deepcopy_list_id; [reflexivity|].
    intros w Hw. apply IH; [|lia]. rewrite forallb_forall in H. auto.
Qed.

Lemma nth_error_app_some {T} (l e : list T) (b : nat) (x : T) :
  nth_error l b = Some x -> nth_error (l ++ e) b = Some x.
Proof.
  intro H. rewrite nth_error_app1; [exact H|]. apply nth_error_Some. congruence.
Qed.

Lemma heap_set_mid (l r : heap) (o o' : obj) :
  heap_set (l ++ o :: r) (length l) o' = l ++ o' :: r.
Proof. induction l as [|x l IH]; simpl; [reflexivity | rewrite IH; reflexivity]. Qed.

Lemma nth_error_heap_set_other (hp : heap) (a b : nat) (o : obj) :
  a <> b -> nth_error (heap_set hp a o) b = nth_error hp b.
Proof.
  revert a b. induction hp as [|x hp IH]; intros a b Hab; simpl; [reflexivity|].
  destruct a, b; simpl; try reflexivity; [lia|]. apply IH. lia.
Qed.

Lemma length_heap_set (hp : heap) (a : nat) (o : obj) : length (heap_set hp a o) = length hp.
Proof.
  revert a. induction hp as [|x hp IH]; intro a; simpl; [reflexivity|].
  destruct a; simpl; [reflexivity | rewrite IH; reflexivity].
Qed.

Lemma same_field_app (h hc : heap) (e : heap) (v v' : pyval) :
  same_field h hc v v' -> same_field h (hc ++ e) v v'.
Proof.
  intros [H | (a & b & o & H1 & H2 & H3 & H4 & H5)]; [left; exact H|].
  right. exists a, b, o. repeat split; auto. apply nth_error_app_some. exact H5.
Qed.

Lemma refless_copyable (h : heap) (self n k : nat) (v : pyval) :
  copyable h self n v = true -> refless k v = true -> refless n v = true.
Proof.
  revert k v. induction n as [|n IH]; intros k v Hc Hr; [discriminate|].
  destruct k as [|k]; [discriminate|].
  destruct v; cbn [copyable refless] in Hc, Hr |- *; try reflexivity; try discriminate;
    rewrite forallb_forall in Hc, Hr |- *; intros w Hw; exact (IH k w (Hc w Hw) (Hr w Hw)).
Qed.

Lemma memo_inv_app (h : heap) (self : nat) (hc e : heap) (mc : memo) :
  memo_inv h self hc mc -> memo_inv h self (hc ++ e) mc.
Proof.
  intros H a b Hm. destruct (H a b Hm) as [Hs | (Hl & Hb & o & H1 & H2 & H3)]; [left; exact Hs|].
  right. rewrite length_app. split; [exact Hl|]. split; [lia|].
  exists o. split; [exact H1|]. split; [exact H2|].
  intro Hf. apply nth_error_app_some. exact (H3 Hf).
Qed.

Lemma memo_inv_set (h : heap) (self : nat) (h1 : heap) (m1 : memo) (a b : nat) (o o' : obj) :
  memo_inv h self h1 m1 -> (forall a', memo_get m1 a' = Some b -> a' = a) ->
  nth_error h a = Some o -> ~ flat_obj o -> memo_inv h self (heap_set h1 b o') m1.
Proof.
  intros Hinv Hb Ha Hnf a' b' Hm.
  destruct (Hinv a' b' Hm) as [Hs | (Hl & Hlt & o1 & H1 & H2 & H3)]; [left; exact Hs|].
  right. rewrite length_heap_set. split; [exact Hl|]. split; [exact Hlt|].
  exists o1. split; [exact H1|]. split; [exact H2|].
  intro Hf. destruct (Nat.eq_dec b b') as [<- | Hne].
  - rewrite (Hb a' Hm), Ha in H1. injection H1 as <-. contradiction.
  - rewrite nth_error_heap_set_other by exact Hne. exact (H3 Hf).
Qed.

Lemma copy_step_refl (h : heap) (self : nat) (hc : heap) (mc : memo) :
  memo_inv h self hc mc -> copy_step h self hc mc hc mc.
Proof.
  intro H. split; [exists []; rewrite app_nil_r; reflexivity|].
  split; [exact H|]. split; auto.
Qed.

Lemma copy_step_trans (h : heap) (self : nat) (hc hc1 hc2 : heap) (mc mc1 mc2 : memo) :
  copy_step h self hc mc hc1 mc1 -> copy_step h self hc1 mc1 hc2 mc2 ->
  copy_step h self hc mc hc2 mc2.
Proof.
  intros ([e1 ->] & _ & G1 & F1) ([e2 ->] & I2 & G2 & F2).
  split; [exists (e1 ++ e2); rewrite app_assoc; reflexivity|].
  split; [exact I2|]. split; [auto|].
  intros a b Hm. destruct (F2 a b Hm) as [H | H].
  - destruct (F1 a b H) as [H' | H']; [left; exact H' | right; exact H'].
  - right. rewrite length_app in H. lia.
Qed.

(** Copying an object of [h] not yet in [memo]: the memo gains it, mapped
    to the next address, where the copy (or its placeholder) goes. *)
Lemma copy_step_add (h : heap) (self : nat) (hc : heap) (mc : memo) (a : nat) (o ph : obj) :
  memo_inv h self hc mc -> length h < length hc -> memo_get mc a = None ->
  nth_error h a = Some o -> ~ is_func o -> (flat_obj o -> ph = o) ->
  copy_step h self hc mc (hc ++ [ph]) ((a, length hc) :: mc).
Proof.
  intros Hinv Hl Hm Ha Hnf Hph. split; [eauto|]. split; [| split].
  - intros a' b Hm'. cbn [memo_get] in Hm'. destruct (Nat.eqb a a') eqn:E.
    + apply Nat.eqb_eq in E. subst a'. injection Hm' as <-. right.
      rewrite length_app. cbn [length]. split; [exact Hl|]. split; [lia|].
      exists o. split; [exact Ha|]. split; [exact Hnf|].
      intro Hf. rewrite (Hph Hf), nth_error_app2, Nat.sub_diag by lia. reflexivity.
    + exact (memo_inv_app h self hc [ph] mc Hinv a' b Hm').
  - intros a' b Hm'. cbn [memo_get]. destruct (Nat.eqb a a') eqn:E; [|exact Hm'].
    apply Nat.eqb_eq in E. subst a'. congruence.
  - intros a' b Hm'. cbn [memo_get] in Hm'. destruct (Nat.eqb a a').
    + injection Hm' as <-. right. lia.
    + left. exact Hm'.
Qed.

(** Closing the copy of a list or an instance: the placeholder at its
    address is replaced by the copy. *)
Lemma copy_step_close (h : heap) (self : nat) (hc : heap) (mc : memo) (a : nat) (o ph o' : obj)
    (e1 : heap) (m1 : memo) :
  memo_inv h self hc mc -> length h < length hc -> memo_get mc a = None ->
  nth_error h a = Some o -> ~ flat_obj o ->
  copy_step h self (hc ++ [ph]) ((a, length hc) :: mc) ((hc ++ [ph]) ++ e1) m1 ->
  copy_step h self hc mc (hc ++ o' :: e1) m1.
Proof.
  intros Hinv Hl Hm Ha Hnf (_ & Hinv1 & G1 & F1).
  split; [eauto|]. split; [| split].
  - replace (hc ++ o' :: e1) with (heap_set ((hc ++ [ph]) ++ e1) (length hc) o')
      by (rewrite <- app_assoc; apply heap_set_mid).
    apply (memo_inv_set h self _ m1 a (length hc) o o' Hinv1); [| exact Ha | exact Hnf].
    intros a' Hm'. destruct (F1 a' _ Hm') as [H | H].
    + cbn [memo_get] in H. destruct (Nat.eqb a a') eqn:E; [apply Nat.eqb_eq in E; auto|].
      destruct (Hinv a' _ H) as [[_ E'] | (_ & Hlt & _)]; lia.
    + rewrite length_app in H. cbn [length] in H. lia.
  - intros a' b Hm'. apply G1. cbn [memo_get]. destruct (Nat.eqb a a') eqn:E; [|exact Hm'].
    apply Nat.eqb_eq in E. subst a'. congruence.
  - intros a' b Hm'. destruct (F1 a' b Hm') as [H | H].
    + cbn [memo_get] in H. destruct (Nat.eqb a a').
      * injection H as <-. right. lia.
      * left. exact H.
    + right. rewrite length_app in H. lia.
Qed.

Section CopyProofs.

Variables (h : heap) (self : nat) (cls0 : pystr) (attrs0 : dict) (cls : pystr).
Hypothesis Hself : nth_error h self = Some (OInst cls0 attrs0).

(** The state in which the fields of the model are copied: the heap [h],
    then the new model (still empty), then what the copy made so far. *)
Local Abbreviation pre hc mc :=
  ((exists ext, hc = h ++ OInst cls [] :: ext) /\ memo_inv h self hc mc
   /\ memo_get mc self = Some (length h)).

Lemma pre_step (hc hc' : heap) (mc mc' : memo) :
  (exists ext, hc = h ++ OInst cls [] :: ext) -> memo_get mc self = Some (length h) ->
  copy_step h self hc mc hc' mc' -> pre hc' mc'.
Proof.
  intros [ext ->] Hs ([e ->] & Hinv & G & _).
  split; [exists (ext ++ e); rewrite <- app_assoc; reflexivity|]. split; [exact Hinv|]. auto.
Qed.

Lemma copy_list (dc : heap -> memo -> pyval -> result (heap * memo * pyval)) (l : list pyval) :
  (forall v hc mc, In v l -> pre hc mc ->
     exists hc' mc' v', dc hc mc v = Ok (hc', mc', v') /\ copy_step h self hc mc hc' mc') ->
  forall hc mc, pre hc mc ->
  exists hc' mc' l', deepcopy_list dc hc mc l = Ok (hc', mc', l') /\ copy_step h self hc mc hc' mc'.
Proof.
  induction l as [|v l IH]; intros Hdc hc mc Hpre.
  - exists hc, mc, []. split; [reflexivity|]. apply copy_step_refl. apply Hpre.
  - destruct (Hdc v hc mc (or_introl eq_refl) Hpre) as (hc1 & mc1 & v' & Hv & Hs1).
    assert (Hpre1 : pre hc1 mc1) by (apply (pre_step hc hc1 mc mc1); [apply Hpre | apply Hpre | exact Hs1]).
    destruct (IH (fun w hc0 mc0 Hw => Hdc w hc0 mc0 (or_intror Hw)) hc1 mc1 Hpre1)
      as (hc2 & mc2 & l' & Hl & Hs2).
    exists hc2, mc2, (v' :: l'). cbn [deepcopy_list]. rewrite Hv. cbn [bind]. rewrite Hl.
    split; [reflexivity|]. exact (copy_step_trans h self _ _ _ _ _ _ Hs1 Hs2).
Qed.

Lemma copy_state (dc : heap -> memo -> pyval -> result (heap * memo * pyval)) (l : dict) :
  (forall kv hc mc, In kv l -> pre hc mc ->
     exists hc' mc' v', dc hc mc (snd kv) = Ok (hc', mc', v') /\ copy_step h self hc mc hc' mc') ->
  forall hc mc, pre hc mc ->
  exists hc' mc' l', deepcopy_state dc hc mc l = Ok (hc', mc', l') /\ copy_step h self hc mc hc' mc'.
Proof.
  induction l as [|[k v] l IH]; intros Hdc hc mc Hpre.
  - exists hc, mc, []. split; [reflexivity|]. apply copy_step_refl. apply Hpre.
  - destruct (Hdc (k, v) hc mc (or_introl eq_refl) Hpre) as (hc1 & mc1 & v' & Hv & Hs1).
    assert (Hpre1 : pre hc1 mc1) by (apply (pre_step hc hc1 mc mc1); [apply Hpre | apply Hpre | exact Hs1]).
    destruct (IH (fun w hc0 mc0 Hw => Hdc w hc0 mc0 (or_intror Hw)) hc1 mc1 Hpre1)
      as (hc2 & mc2 & l' & Hl & Hs2).
    exists hc2, mc2, ((k, v') :: l'). cbn [deepcopy_state]. cbn [snd] in Hv. rewrite Hv. cbn [bind].
    rewrite Hl. split; [reflexivity|]. exact (copy_step_trans h self _ _ _ _ _ _ Hs1 Hs2).
Qed.

(** [copy.deepcopy] copies a [copyable] value, only adding to the heap. *)
Lemma deepcopy_copyable (n : nat) :
  forall f hc mc v, n <= f -> copyable h self n v = true -> pre hc mc ->
  exists hc' mc' v', deepcopy f hc mc v = Ok (hc', mc', v') /\ copy_step h self hc mc hc' mc'.
Proof.
  induction n as [|n IH]; intros f hc mc v Hf Hc Hpre; [discriminate|].
  destruct f as [|f]; [lia|].
  pose proof Hpre as ([ext Hext] & Hinv & Hms).
  assert (Hrefl : copy_step h self hc mc hc mc) by (apply copy_step_refl; exact Hinv).
  assert (Hsub : forall w hc0 mc0, copyable h self n w = true -> pre hc0 mc0 ->
            exists hc' mc' w', deepcopy f hc0 mc0 w = Ok (hc', mc', w')
                               /\ copy_step h self hc0 mc0 hc' mc')
    by (intros w hc0 mc0 Hw Hp0; apply IH; [lia | exact Hw | exact Hp0]).
  destruct v as [| b | z | s | l | l | a]; cbn [copyable] in Hc;
    try (exists hc, mc; eexists; split; [reflexivity | exact Hrefl]).
  - rewrite forallb_forall in Hc.
    destruct (copy_list (deepcopy f) l (fun w hc0 mc0 Hw => Hsub w hc0 mc0 (Hc w Hw)) hc mc Hpre)
      as (hc' & mc' & l' & Hl & Hs).
    exists hc', mc', (PList l'). cbn [deepcopy]. rewrite Hl. cbn [bind]. split; [reflexivity | exact Hs].
  - rewrite forallb_forall in Hc.
    destruct (copy_list (deepcopy f) l (fun w hc0 mc0 Hw => Hsub w hc0 mc0 (Hc w Hw)) hc mc Hpre)
      as (hc' & mc' & l' & Hl & Hs).
    exists hc', mc', (PTuple l'). cbn [deepcopy]. rewrite Hl. cbn [bind]. split; [reflexivity | exact Hs].
  - destruct (Nat.eqb a self) eqn:Eas.
    + apply Nat.eqb_eq in Eas. subst a. exists hc, mc, (PRef (length h)).
      cbn [deepcopy]. rewrite Hms. split; [reflexivity | exact Hrefl].
    + cbn [orb] in Hc. destruct (nth_error h a) as [o|] eqn:Ha; [|discriminate].
      assert (Hhc : nth_error hc a = Some o) by (rewrite Hext; apply nth_error_app_some; exact Ha).
      assert (Hlen : length h < length hc) by (rewrite Hext, length_app; cbn [length]; lia).
      cbn [deepcopy]. destruct (memo_get mc a) as [b|] eqn:Hm.
      { exists hc, mc, (PRef b). split; [reflexivity | exact Hrefl]. }
      rewrite Hhc. destruct o as [c | rows | items | c attrs].
      * exists hc, mc, (PRef a). split; [reflexivity | exact Hrefl].
      * exists (hc ++ [OArray rows]), ((a, length hc) :: mc), (PRef (length hc)).
        split; [reflexivity|].
        apply (copy_step_add h self hc mc a (OArray rows)); auto; intros [].
      * destruct (forallb (refless 900) items) eqn:Efl.
        -- rewrite deepcopy_list_id.
           2:{ intros w Hw. apply (deepcopy_refless n); [| lia].
               rewrite forallb_forall in Hc, Efl. exact (refless_copyable h self n 900 w (Hc w Hw) (Efl w Hw)). }
           cbn [bind]. rewrite heap_set_mid.
           exists (hc ++ [OList items]), ((a, length hc) :: mc), (PRef (length hc)).
           split; [reflexivity|].
           apply (copy_step_add h self hc mc a (OList items)); auto; intros [].
        -- assert (Hnf : ~ flat_obj (OList items)) by (cbn [flat_obj]; rewrite Efl; discriminate).
           assert (Hs0 : copy_step h self hc mc (hc ++ [OList []]) ((a, length hc) :: mc))
             by (apply (copy_step_add h self hc mc a (OList items));
                 [exact Hinv | exact Hlen | exact Hm | exact Ha | intros [] | intro H; contradiction]).
           assert (Hpre0 : pre (hc ++ [OList []]) ((a, length hc) :: mc))
             by (apply (pre_step hc _ mc _); [eauto | exact Hms | exact Hs0]).
           rewrite forallb_forall in Hc.
           destruct (copy_list (deepcopy f) items (fun w hc0 mc0 Hw => Hsub w hc0 mc0 (Hc w Hw))
                       _ _ Hpre0) as (h1 & m1 & items' & Hl & Hs1).
           rewrite Hl. cbn [bind].
           pose proof Hs1 as ([e1 ->] & _).
           rewrite <- app_assoc. cbn [app]. rewrite heap_set_mid.
           exists (hc ++ OList items' :: e1), m1, (PRef (length hc)). split; [reflexivity|].
           exact (copy_step_close h self hc mc a (OList items) (OList []) (OList items') e1 m1
                    Hinv Hlen Hm Ha Hnf Hs1).
      * assert (Hnf : ~ flat_obj (OInst c attrs)) by (intros []).
        assert (Hs0 : copy_step h self hc mc (hc ++ [OInst c []]) ((a, length hc) :: mc))
          by (apply (copy_step_add h self hc mc a (OInst c attrs));
                 [exact Hinv | exact Hlen | exact Hm | exact Ha | intros [] | intro H; contradiction]).
        assert (Hpre0 : pre (hc ++ [OInst c []]) ((a, length hc) :: mc))
          by (apply (pre_step hc _ mc _); [eauto | exact Hms | exact Hs0]).
        rewrite forallb_forall in Hc.
        destruct (copy_state (deepcopy f) attrs
                    (fun kv hc0 mc0 Hkv => Hsub (snd kv) hc0 mc0 (Hc kv Hkv)) _ _ Hpre0)
          as (h1 & m1 & attrs' & Hl & Hs1).
        rewrite Hl. cbn [bind].
        pose proof Hs1 as ([e1 ->] & _).
        rewrite <- app_assoc. cbn [app]. rewrite heap_set_mid.
        exists (hc ++ OInst c attrs' :: e1), m1, (PRef (length hc)). split; [reflexivity|].
        exact (copy_step_close h self hc mc a (OInst c attrs) (OInst c []) (OInst c attrs') e1 m1
                 Hinv Hlen Hm Ha Hnf Hs1).
Qed.

(** [copy.deepcopy] copies a field [__init__] gives the model into an
    equal field. *)
Lemma deepcopy_field (fd : nat) (hc : heap) (mc : memo) (v : pyval) :
  900 <= fd -> pre hc mc -> np_field h v ->
  exists hc' mc' v', deepcopy (S fd) hc mc v = Ok (hc', mc', v')
    /\ copy_step h self hc mc hc' mc' /\ same_field h hc' v v'.
Proof.
  intros Hfd Hpre Hv. pose proof Hpre as ([ext Hext] & Hinv & Hms).
  assert (Hrefl : copy_step h self hc mc hc mc) by (apply copy_step_refl; exact Hinv).
  destruct Hv as [Hr | (a & o & -> & Ha & Ho)].
  - exists hc, mc, v. split; [apply (deepcopy_refless 900); [exact Hr | lia]|].
    split; [exact Hrefl|]. left. split; [reflexivity|]. intros a ->. discriminate.
  - assert (Hlen : length h < length hc) by (rewrite Hext, length_app; cbn [length]; lia).
    assert (Hac : nth_error hc a = Some o) by (rewrite Hext; apply nth_error_app_some; exact Ha).
    assert (Hnot : a <> self).
    { intros ->. rewrite Hself in Ha. injection Ha as <-. destruct Ho as [[] | []]. }
    cbn [deepcopy]. destruct (memo_get mc a) as [b|] eqn:Hm.
    + destruct (Hinv a b Hm) as [[E _] | (Hb & _ & o' & Ha' & Hnf & Hf)]; [contradiction|].
      rewrite Ha in Ha'. injection Ha' as <-.
      exists hc, mc, (PRef b). split; [reflexivity|]. split; [exact Hrefl|].
      right. exists a, b, o. repeat split; auto.
      destruct Ho as [Hfn | Hfl]; [contradiction | exact (Hf Hfl)].
    + rewrite Hac. destruct o as [c | rows | items | c at'].
      * exists hc, mc, (PRef a). split; [reflexivity|]. split; [exact Hrefl|].
        left. split; [reflexivity|]. intros a' E. injection E as <-. eauto.
      * exists (hc ++ [OArray rows]), ((a, length hc) :: mc), (PRef (length hc)).
        split; [reflexivity|].
        split; [apply (copy_step_add h self hc mc a (OArray rows)); auto; intros []|].
        right. exists a, (length hc), (OArray rows). repeat split; auto.
        rewrite nth_error_app2, Nat.sub_diag by lia. reflexivity.
      * destruct Ho as [[] | Hf].
        rewrite deepcopy_list_id.
        2:{ intros w Hw. apply (deepcopy_refless 900); [|lia].
            cbn [flat_obj] in Hf. rewrite forallb_forall in Hf. auto. }
        cbn [bind]. rewrite heap_set_mid.
        exists (hc ++ [OList items]), ((a, length hc) :: mc), (PRef (length hc)).
        split; [reflexivity|].
        split; [apply (copy_step_add h self hc mc a (OList items)); auto; intros []|].
        right. exists a, (length hc), (OList items). repeat split; auto.
        rewrite nth_error_app2, Nat.sub_diag by lia. reflexivity.
      * destruct Ho as [[] | []].
Qed.

(** The fields of the model: those [__init__] gives it are copied into
    equal fields; [pset] may also hold any [copyable] value. *)
Lemma deepcopy_state_fields (fd : nat) (attrs : dict) :
  900 <= fd ->
  forall hc mc, pre hc mc ->
  Forall (fun kv => np_field h (snd kv)
                    \/ (fst kv = lit "pset" /\ copyable h self 900 (snd kv) = true)) attrs ->
  exists hc' mc' attrs', deepcopy_state (deepcopy (S fd)) hc mc attrs = Ok (hc', mc', attrs')
    /\ (exists ext', hc' = hc ++ ext')
    /\ Forall2 (fun kv kv' => fst kv' = fst kv
                              /\ (fst kv <> lit "pset" -> same_field h hc' (snd kv) (snd kv')))
               attrs attrs'.
Proof.
  intro Hfd. induction attrs as [|[k v] attrs IH]; intros hc mc Hpre Hall.
  - exists hc, mc, []. split; [reflexivity|]. split; [exists []; rewrite app_nil_r; reflexivity|].
    constructor.
  - inversion Hall as [|? ? Hv Hrest]; subst. cbn [fst snd] in Hv.
    assert (Hone : exists hc1 mc1 v', deepcopy (S fd) hc mc v = Ok (hc1, mc1, v')
                     /\ copy_step h self hc mc hc1 mc1
                     /\ (k <> lit "pset" -> same_field h hc1 v v')).
    { destruct Hv as [Hnp | [Hk Hc]].
      - destruct (deepcopy_field fd hc mc v Hfd Hpre Hnp) as (hc1 & mc1 & v' & H1 & H2 & H3).
        exists hc1, mc1, v'. split; [exact H1|]. split; [exact H2|]. intros _. exact H3.
      - destruct (deepcopy_copyable 900 (S fd) hc mc v ltac:(lia) Hc Hpre)
          as (hc1 & mc1 & v' & H1 & H2).
        exists hc1, mc1, v'. split; [exact H1|]. split; [exact H2|]. intro Hn. contradiction. }
    destruct Hone as (hc1 & mc1 & v' & Hdc & Hs1 & Hsame).
    assert (Hpre1 : pre hc1 mc1) by (apply (pre_step hc hc1 mc mc1); [apply Hpre | apply Hpre | exact Hs1]).
    destruct (IH hc1 mc1 Hpre1 Hrest) as (hc2 & mc2 & attrs' & Hst & [e2 He2] & Hf2).
    destruct Hs1 as ([e1 He1] & _).
    exists hc2, mc2, ((k, v') :: attrs'). cbn [deepcopy_state]. rewrite Hdc. cbn [bind]. rewrite Hst.
    split; [reflexivity|].
    split; [exists (e1 ++ e2); subst; rewrite app_assoc; reflexivity|].
    constructor; [|exact Hf2]. split; [reflexivity|]. cbn [fst snd]. intro Hk.
    subst hc2. apply same_field_app. exact (Hsame Hk).
Qed.

End CopyProofs.

Lemma dict_get_rel_except (R : pyval -> pyval -> Prop) (d d' : dict) (k0 k : pystr) :
  Forall2 (fun kv kv' => fst kv' = fst kv /\ (fst kv <> k0 -> R (snd kv) (snd kv'))) d d' ->
  k <> k0 -> opt_rel R (dict_get d k) (dict_get d' k).
Proof.
  induction 1 as [|[k1 v1] [k2 v2] d d' [E Hr] _ IH]; intro Hk; simpl in *; [exact I|].
  subst k2. destruct (pystr_eqb k1 k) eqn:Ek; [|exact (IH Hk)].
  apply pystr_eqb_spec in Ek. subst k1. exact (Hr Hk).
Qed.

Lemma map_fst_dict_set (d d' : dict) (k : pystr) (v : pyval) :
  map fst d' = map fst d -> map fst (dict_set d' k v) = map fst (dict_set d k v).
Proof.
  revert d. induction d' as [|[k1 v1] d' IH]; intros [|[k2 v2] d] E; simpl in *;
    try discriminate; [reflexivity|].
  injection E as -> E. destruct (pystr_eqb k2 k); simpl; [rewrite E; reflexivity|].
  rewrite (IH d E). reflexivity.
Qed.

Lemma deepcopy_ref_inst (f : nat) (hc : heap) (m : memo) (a : nat) (cls : pystr) (attrs : dict) :
  memo_get m a = None -> nth_error hc a = Some (OInst cls attrs) ->
  deepcopy (S f) hc m (PRef a)
  = let* r := deepcopy_state (deepcopy f) (hc ++ [OInst cls []]) ((a, length hc) :: m) attrs in
    let '(h1, m1, attrs') := r in
    Ok (heap_set h1 (length hc) (OInst cls attrs'), m1, PRef (length hc)).
Proof. intros Hm Ha. simpl. rewrite Hm, Ha. reflexivity. Qed.

Lemma same_field_replace (h e : heap) (o o' : obj) (v v' : pyval) :
  same_field h (h ++ o :: e) v v' -> same_field h (h ++ o' :: e) v v'.
Proof.
  intros [H | (a & b & o1 & H1 & H2 & H3 & H4 & H5)]; [left; exact H|].
  right. exists a, b, o1. repeat split; auto.
  rewrite nth_error_app2 in H5 |- * by lia.
  destruct (b - length h) as [|k] eqn:E; [lia|]. exact H5.
Qed.

Lemma Forall2_map_fst (Q : pystr * pyval -> pystr * pyval -> Prop) (d d' : dict) :
  Forall2 (fun kv kv' => fst kv' = fst kv /\ Q kv kv') d d' -> map fst d' = map fst d.
Proof. induction 1 as [|? ? ? ? [E _] _ IH]; simpl; [reflexivity | rewrite E, IH; reflexivity]. Qed.

(** C9: for an [NpModel] [m], the instance at [self], with the fields
    [__init__] gives it, where [pset] is [None] or any value
    [copy.deepcopy] can copy (a parameter set instance, say),
    [m.copy_with_param_set(p)] returns a new model, at a fresh address, and
    leaves the heap it started from exactly as it was: the original model,
    its own [pset] included, and every object it refers to are unchanged,
    the heap only grows.  The new model has the original's fields, in order
    (with [pset] added if it was missing), its [pset] is [p], and every
    other field equals the original's: the same plain value or function,
    or a fresh copy of the original's array or list. *)
Theorem copy_with_param_set_spec (h : heap) (self : nat) (cls : pystr) (attrs : dict)
    (p : pyval) :
  nth_error h self = Some (OInst cls attrs) ->
  Forall (fun kv => np_field h (snd kv)
                    \/ (fst kv = lit "pset" /\ copyable h self 900 (snd kv) = true)) attrs ->
  exists attrs'' ext,
    copy_with_param_set h self p = Ok (h ++ OInst cls attrs'' :: ext, PRef (length h))
    /\ map fst attrs'' = map fst (dict_set attrs (lit "pset") p)
    /\ dict_get attrs'' (lit "pset") = Some p
    /\ (forall k, k <> lit "pset" ->
          opt_rel (same_field h (h ++ OInst cls attrs'' :: ext))
                  (dict_get attrs k) (dict_get attrs'' k)).
Proof.
  intros Hs Hall.
  assert (Hfd : 900 <= 998) by (apply Nat.leb_le; reflexivity).
  assert (Hinv0 : memo_inv h self (h ++ [OInst cls []]) [(self, length h)]).
  { intros a b Hm. cbn [memo_get] in Hm. destruct (Nat.eqb self a) eqn:E; [|discriminate].
    apply Nat.eqb_eq in E. injection Hm as <-. left. split; [symmetry; exact E | reflexivity]. }
  assert (Hms : memo_get [(self, length h)] self = Some (length h))
    by (cbn [memo_get]; rewrite Nat.eqb_refl; reflexivity).
  destruct (deepcopy_state_fields h self cls attrs cls Hs 998 attrs Hfd (h ++ [OInst cls []])
              [(self, length h)] (conj (ex_intro _ [] eq_refl) (conj Hinv0 Hms)) Hall)
    as (hc & mc & attrs' & Hst & [e He] & Hf2).
  rewrite <- app_assoc in He. simpl in He. subst hc.
  unfold copy_with_param_set. change recursion_limit with (S (S 998)).
  rewrite (deepcopy_ref_inst (S 998) h [] self cls attrs eq_refl Hs), Hst. cbn [bind].
  rewrite heap_set_mid. unfold setattr.
  rewrite nth_error_app2, Nat.sub_diag by lia. cbn [nth_error bind].
  rewrite heap_set_mid.
  exists (dict_set attrs' (lit "pset") p), e.
  split; [reflexivity|]. split; [apply map_fst_dict_set, (Forall2_map_fst _ _ _ Hf2)|].
  split; [apply dict_get_set_same|].
  intros k Hk. rewrite dict_get_set_other.
  2:{ destruct (pystr_eqb (lit "pset") k) eqn:E; [|reflexivity].
      apply pystr_eqb_spec in E. congruence. }
  apply (dict_get_rel_except _ _ _ (lit "pset")); [| exact Hk].
  eapply Forall2_impl; [|exact Hf2].
  intros [k1 v1] [k2 v2] [E Hsf]. split; [exact E|]. intro Hk1.
  eapply same_field_replace. exact (Hsf Hk1).
Qed.

Lemma copy_with_param_set_spec_witness :
  nth_error np_model_pset_heap 4 = Some (OInst (lit "NpModel") np_model_pset_attrs)
  /\ Forall (fun kv => np_field np_model_pset_heap (snd kv)
                       \/ (fst kv = lit "pset" /\ copyable np_model_pset_heap 4 900 (snd kv) = true))
            np_model_pset_attrs
  /\ exists attrs'' ext,
    copy_with_param_set np_model_pset_heap 4 (PRef 9)
    = Ok (np_model_pset_heap ++ OInst (lit "NpModel") attrs'' :: ext, PRef (length np_model_pset_heap))
    /\ map fst attrs'' = map fst (dict_set np_model_pset_attrs (lit "pset") (PRef 9))
    /\ dict_get attrs'' (lit "pset") = Some (PRef 9)
    /\ (forall k, k <> lit "pset" ->
          opt_rel (same_field np_model_pset_heap
                     (np_model_pset_heap ++ OInst (lit "NpModel") attrs'' :: ext))
                  (dict_get np_model_pset_attrs k) (dict_get attrs'' k)).
Proof.
  assert (H1 : nth_error np_model_pset_heap 4 = Some (OInst (lit "NpModel") np_model_pset_attrs))
    by reflexivity.
  assert (H2 : Forall (fun kv => np_field np_model_pset_heap (snd kv)
                       \/ (fst kv = lit "pset" /\ copyable np_model_pset_heap 4 900 (snd kv) = true))
                      np_model_pset_attrs).
  { unfold np_model_pset_attrs.
    repeat (apply Forall_cons;
      [cbn [fst snd];
       first [ left; left; vm_compute; reflexivity
             | left; right; eexists _, _; split; [reflexivity | split; [reflexivity |]];
               first [ left; exact I | right; exact I | right; vm_compute; reflexivity ]
             | right; split; [reflexivity | vm_compute; reflexivity] ]
      |]).
    apply Forall_nil. }
  split; [exact H1 | split; [exact H2 |]].
  apply (copy_with_param_set_spec np_model_pset_heap 4 (lit "NpModel") np_model_pset_attrs _ H1 H2).
Defined.

(** ** The configuration dictionary *)

Lemma ckey_eqb_spec (a b : ckey) : ckey_eqb a b = true <-> a = b.
Proof.
  destruct a as [s | s1 s2], b as [t | t1 t2]; cbn; split; intro H; try discriminate.
  - apply pystr_eqb_spec in H; subst; reflexivity.
  - inversion H; subst; apply pystr_eqb_refl.
  - apply andb_true_iff in H as [H1 H2].
    apply pystr_eqb_spec in H1, H2; subst; reflexivity.
  - inversion H; subst; rewrite !pystr_eqb_refl; reflexivity.
Qed.

Lemma ckey_eqb_refl (a : ckey) : ckey_eqb a a = true.
Proof. apply ckey_eqb_spec; reflexivity. Qed.

Lemma ckey_eqb_false (a b : ckey) : a <> b -> ckey_eqb a b = false.
Proof.
  intro H. destruct (ckey_eqb a b) eqn:E; [apply ckey_eqb_spec in E; contradiction | reflexivity].
Qed.

Lemma cdict_get_set (d : cdict) (k k' : ckey) (v : cval) :
  cdict_get (cdict_set d k v) k' = if ckey_eqb k k' then Some v else cdict_get d k'.
Proof.
  induction d as [| [k0 v0] d IH]; cbn.
  - reflexivity.
  - destruct (ckey_eqb k0 k) eqn:E0; cbn.
    + apply ckey_eqb_spec in E0; subst k0.
      destruct (ckey_eqb k k'); reflexivity.
    + rewrite IH. destruct (ckey_eqb k0 k') eqn:E1; [| reflexivity].
      apply ckey_eqb_spec in E1; subst k'.
      destruct (ckey_eqb k k0) eqn:E2; [| reflexivity].
      apply ckey_eqb_spec in E2; subst. rewrite ckey_eqb_refl in E0. discriminate.
Qed.

Lemma cdict_get_set_same (d : cdict) (k : ckey) (v : cval) :
  cdict_get (cdict_set d k v) k = Some v.
Proof. rewrite cdict_get_set, ckey_eqb_refl. reflexivity. Qed.

Lemma cdict_get_set_other (d : cdict) (k k' : ckey) (v : cval) :
  k <> k' -> cdict_get (cdict_set d k v) k' = cdict_get d k'.
Proof. intro H. rewrite cdict_get_set, ckey_eqb_false by exact H. reflexivity. Qed.

Lemma cdict_get_update_notin (d e : cdict) (k : ckey) :
  ~ In k (map fst e) -> cdict_get (cdict_update d e) k = cdict_get d k.
Proof.
  unfold cdict_update. revert d.
  induction e as [| [k0 v0] e IH]; intros d Hk; cbn in *.
  - reflexivity.
  - rewrite IH by tauto. apply cdict_get_set_other. intro; subst; tauto.
Qed.

Lemma cdict_get_update_in (d e : cdict) (k : ckey) (v : cval) :
  NoDup (map fst e) -> In (k, v) e -> cdict_get (cdict_update d e) k = Some v.
Proof.
  unfold cdict_update. revert d.
  induction e as [| [k0 v0] e IH]; intros d Hnd Hin; cbn in *.
  - contradiction.
  - inversion Hnd as [| ? ? Hn Hnd']; subst.
    destruct Hin as [Heq | Hin].
    + inversion Heq; subst.
      change (cdict_get (cdict_update (cdict_set d k v) e) k = Some v).
      rewrite cdict_get_update_notin by exact Hn. apply cdict_get_set_same.
    + apply IH; assumption.
Qed.

Lemma cdict_del_spec (d d' : cdict) (k : pystr) :
  cdict_del d k = Ok d' ->
  forall k', cdict_get d' k' = if ckey_eqb (KStr k) k' then None else cdict_get d k'.
Proof.
  unfold cdict_del. destruct (cdict_get d (KStr k)); intro H; inversion H; subst; clear H.
  intro k'. induction d as [| [k0 v0] d IH]; cbn -[ckey_eqb].
  - destruct (ckey_eqb (KStr k) k'); reflexivity.
  - destruct (ckey_eqb k0 (KStr k)) eqn:E; cbn -[ckey_eqb].
    + apply ckey_eqb_spec in E; subst k0. rewrite IH.
      destruct (ckey_eqb (KStr k) k'); reflexivity.
    + rewrite IH. destruct (ckey_eqb k0 k') eqn:E1.
      * apply ckey_eqb_spec in E1; subst k'.
        destruct (ckey_eqb (KStr k) k0) eqn:E2; [| reflexivity].
        apply ckey_eqb_spec in E2; subst. rewrite ckey_eqb_refl in E. discriminate.
      * reflexivity.
Qed.

Lemma cdict_del_ok (d : cdict) (k : pystr) (v : cval) :
  cdict_get d (KStr k) = Some v -> exists d', cdict_del d k = Ok d'.
Proof. unfold cdict_del. intro H. rewrite H. eexists; reflexivity. Qed.

(** The parameter names are pairwise distinct. *)
Lemma param_name_inj (i j : nat) : param_name i = param_name j -> i = j.
Proof.
  unfold param_name. intro H.
  apply app_inv_head in H. apply app_inv_tail in H.
  assert (Hv : forall n, val (fmt_010d n) = n).
  { intro n. unfold fmt_010d, zero_pad. rewrite val_zeros. apply str_of_N_val. }
  apply (f_equal val) in H. rewrite !Hv in H. lia.
Qed.

Lemma enumerate_enum_from {B} (l : list B) : enumerate l = enum_from 0 l.
Proof. reflexivity. Qed.

Lemma enum_from_cons {B} (j : nat) (x : B) (l : list B) :
  enum_from j (x :: l) = (j, x) :: enum_from (S j) l.
Proof. reflexivity. Qed.

Lemma param_fold_str (ps : list UniformParam) (j : nat) (d : cdict) (s : pystr) :
  cdict_get (fold_left param_step (enum_from j ps) d) (KStr s) = cdict_get d (KStr s).
Proof.
  revert j d. induction ps as [| p ps IH]; intros j d; [reflexivity |].
  rewrite enum_from_cons. cbn [fold_left]. rewrite IH.
  unfold param_step, to_config_key_value_pair. cbn [fst snd].
  apply cdict_get_set_other. discriminate.
Qed.

Lemma param_fold_fresh (ps : list UniformParam) (j : nat) (d : cdict) (a b : pystr) :
  (forall i, b <> param_name (j + i)) ->
  cdict_get (fold_left param_step (enum_from j ps) d) (KTup a b) = cdict_get d (KTup a b).
Proof.
  revert j d. induction ps as [| p ps IH]; intros j d Hb; [reflexivity |].
  rewrite enum_from_cons. cbn [fold_left]. rewrite IH.
  - unfold param_step, to_config_key_value_pair. cbn [fst snd].
    apply cdict_get_set_other. intro H. inversion H; subst.
    apply (Hb 0). rewrite Nat.add_0_r. reflexivity.
  - intros i. replace (S j + i) with (j + S i) by lia. apply Hb.
Qed.

Lemma param_fold_at (ps : list UniformParam) (j : nat) (d : cdict) (i : nat) (p : UniformParam) :
  nth_error ps i = Some p ->
  cdict_get (fold_left param_step (enum_from j ps) d) (KTup (var_type p) (param_name (j + i)))
  = Some (param_value p).
Proof.
  revert j d i. induction ps as [| p0 ps IH]; intros j d i Hi; [destruct i; discriminate |].
  rewrite enum_from_cons. cbn [fold_left].
  destruct i as [| i]; cbn in Hi.
  - inversion Hi; subst p0.
    rewrite param_fold_fresh.
    + unfold param_step, to_config_key_value_pair. cbn [fst snd].
      rewrite Nat.add_0_r. apply cdict_get_set_same.
    + intros i' H. apply param_name_inj in H. lia.
  - replace (j + S i) with (S j + i) by lia. apply IH. exact Hi.
Qed.

Lemma param_fold_tup (ps : list UniformParam) (j : nat) (d : cdict) (a b : pystr) (v : cval) :
  cdict_get (fold_left param_step (enum_from j ps) d) (KTup a b) = Some v ->
  (exists i p, nth_error ps i = Some p /\ a = var_type p /\ b = param_name (j + i)
               /\ v = param_value p)
  \/ cdict_get d (KTup a b) = Some v.
Proof.
  revert j d. induction ps as [| p0 ps IH]; intros j d H; [right; exact H |].
  rewrite enum_from_cons in H. cbn [fold_left] in H.
  apply IH in H as [(i & p & Hi & Ha & Hb & Hv) | H].
  - left. exists (S i), p. repeat split; try assumption.
    rewrite Hb. f_equal. lia.
  - unfold param_step, to_config_key_value_pair in H. cbn [fst snd] in H.
    rewrite cdict_get_set in H.
    destruct (ckey_eqb (KTup (var_type p0) (param_name j)) (KTup a b)) eqn:E.
    + apply ckey_eqb_spec in E. inversion E; subst. inversion H; subst.
      left. exists 0, p0. repeat split. rewrite Nat.add_0_r. reflexivity.
    + right. exact H.
Qed.

Lemma ParamConfig_update_unfold (ps : list UniformParam) (d : cdict) :
  ParamConfig_update_param_dict ps d
  = cdict_set (fold_left param_step (enum_from 0 ps) d)
      (KStr (lit "n_params")) (CInt (Z.of_nat (length ps))).
Proof. reflexivity. Qed.

(** ** [CustomData.from_data_and_result] *)

Section DataAndResult.

Context {A : Type} (of_nat : nat -> A).

Lemma from_data_and_result_mats (cx cy : nat) (rx ry : list (list A)) :
  length rx = length ry ->
  from_data_and_result of_nat (Mat cx rx) (Mat cy ry) = Ok (table_of of_nat cx cy rx ry).
Proof.
  intro Hl. unfold from_data_and_result. cbn -[hstack make_colnames].
  unfold arange_col. rewrite hstack_three.
  - reflexivity.
  - rewrite length_map, length_seq; reflexivity.
  - exact Hl.
Qed.

(** For a 2-D [data] and a 2-D [result] with as many rows,
    [from_data_and_result] builds the same table as [from_x_and_y]: an
    index column, then [data], then [result], with the same column names. *)
Theorem from_data_and_result_eq_from_x_and_y (cx cy : nat) (rx ry : list (list A)) :
  length rx = length ry ->
  from_data_and_result of_nat (Mat cx rx) (Mat cy ry) = from_x_and_y of_nat (Mat cx rx) (Mat cy ry).
Proof.
  intro Hl. rewrite from_data_and_result_mats, from_x_and_y_mats by exact Hl. reflexivity.
Qed.

(** [from_data_and_result] fails: with [ValueError] when [data] is not
    2-D, whatever [result] is; with [IndexError] when [data] is 2-D and
    [result] is 0-D or 1-D (it has no [shape[1]]); with [ValueError] when
    both are 2-D with different row counts. *)
Theorem from_data_and_result_errors :
  (forall (data r : ndarray A), (forall c rows, data <> Mat c rows) ->
     exists msg, from_data_and_result of_nat data r = Raise (ValueError msg))
  /\ (forall (c : nat) (rows : list (list A)) (v : A) (vs : list A),
        from_data_and_result of_nat (Mat c rows) (Scalar v) = Raise IndexError
        /\ from_data_and_result of_nat (Mat c rows) (Vec vs) = Raise IndexError)
  /\ (forall (cx cy : nat) (rx ry : list (list A)), length rx <> length ry ->
        exists msg, from_data_and_result of_nat (Mat cx rx) (Mat cy ry) = Raise (ValueError msg)).
Proof.
  split; [| split].
  - intros data r Hd. destruct data as [v | v | c rows | sh]; cbn; eauto.
    exfalso. exact (Hd c rows eq_refl).
  - intros c rows v vs. split; reflexivity.
  - intros cx cy rx ry Hl. unfold from_data_and_result. cbn -[make_colnames].
    apply Nat.eqb_neq in Hl. rewrite Hl. cbn. eauto.
Qed.

End DataAndResult.

(** ** [NpModel] *)

Lemma get_suffixes_length (m : NpModel) :
  length (get_suffixes m) = length (np_suffixes m) * S (length (np_mutants m)).
Proof.
  unfold get_suffixes.
  assert (Hg : forall (T U : Type) (f : T -> list U) (k : nat) (l : list T),
             (forall x, length (f x) = k) -> length (flat_map f l) = length l * k).
  { intros T U f k l Hf. induction l as [| x l IH]; [reflexivity |].
    cbn [flat_map]. rewrite length_app, Hf, IH. cbn [length]. lia. }
  apply Hg. intro x. cbn [length]. rewrite length_map. reflexivity.
Qed.

(** [get_suffixes] lists, for each suffix, the suffix and then the suffix
    followed by each mutant, so it has [len(suffixes) * (1 + len(mutants))]
    entries; the unpacking [[suffix] = self.get_suffixes()] of [execute]
    succeeds exactly when there is one suffix and no mutant. *)
Theorem get_suffixes_unpack1 (m : NpModel) :
  length (get_suffixes m) = length (np_suffixes m) * S (length (np_mutants m))
  /\ ((exists s, unpack1 (get_suffixes m) = Ok s)
      <-> length (np_suffixes m) = 1 /\ np_mutants m = []).
Proof.
  split; [apply get_suffixes_length |].
  assert (Hu : forall l, (exists s, unpack1 l = Ok s) <-> length l = 1).
  { intros [| a [| b l]]; cbn -[lit].
    - split; [intros [s H]; discriminate | discriminate].
    - split; [reflexivity | eauto].
    - split; [intros [s H]; discriminate | discriminate]. }
  rewrite Hu, get_suffixes_length. split.
  - intro H. apply Nat.mul_eq_1 in H as [H1 H2].
    split; [exact H1 |]. apply length_zero_iff_nil. lia.
  - intros [H1 H2]. rewrite H1, H2. reflexivity.
Qed.

Section ExecuteProofs.

Variable Params : Type.
Variable pset_values : cval -> result Params.
Variable call_fun : cval -> ndarray Z -> Params -> result (ndarray Z).

Lemma NpModel_init_data (f : cval) (cd : CustomData Z) (arr : ndarray Z) (n : nat) (pset : cval)
    (m : NpModel) :
  get_data_arr cd = Ok arr -> NpModel_init f cd n pset = Ok m ->
  m = {| np_fun := f; np_data := arr; np_pset := pset;
         np_suffixes := [(lit "simulate", lit "_data")]; np_mutants := [];
         np_file_path := lit "_optimization"; np_name := lit "_optimization";
         np_param_names := map param_name (seq 0 n) |}.
Proof.
  intros Hg Hm. unfold NpModel_init in Hm. rewrite Hg in Hm. cbn [bind] in Hm.
  inversion Hm. reflexivity.
Qed.

(** A model built on a [CustomData] [cd] holds [cd.get_data_arr()] as its
    data and calls the user function on it; when the function returns a
    2-D array with as many rows, [execute] returns the single entry
    ["_data"], whose table is the one [from_x_and_y] builds from the data
    and the result (both hstack the same three arrays, so this holds
    whatever dtype numpy gives the table). *)
Theorem execute_np_model_table (f : cval) (cd : CustomData Z) (cx cy : nat) (rx ry : list (list Z))
    (n : nat) (pset : cval) (m : NpModel) (params : Params) :
  get_data_arr cd = Ok (Mat cx rx) ->
  NpModel_init f cd n pset = Ok m ->
  pset_values pset = Ok params ->
  call_fun f (Mat cx rx) params = Ok (Mat cy ry) ->
  length ry = length rx ->
  np_data m = Mat cx rx
  /\ exists out, execute Params pset_values call_fun m = Ok [(lit "_data", out)]
     /\ from_x_and_y Z_of_nat' (Mat cx rx) (Mat cy ry) = Ok out.
Proof.
  intros Hg Hm Hp Hf Hl.
  pose proof (NpModel_init_data f cd (Mat cx rx) n pset m Hg Hm) as ->.
  split; [reflexivity |].
  exists (table_of Z_of_nat' cx cy rx ry). split.
  - unfold execute. cbn [np_pset np_fun np_data]. rewrite Hp. cbn [bind]. rewrite Hf. cbn [bind].
    cbn [atleast_2d]. rewrite from_data_and_result_mats by lia. reflexivity.
  - apply from_x_and_y_mats. lia.
Qed.

(** When the user function returns a scalar or a 1-D array, [execute]
    reads it as one row ([np.atleast_2d]): on data with another number of
    rows than one it raises [ValueError] (the [hstack] fails); on data with
    one row and a single suffix it returns, under that suffix, the table
    [from_x_and_y] builds from that row and the result row. *)
Theorem execute_low_dim_result (m : NpModel) (params : Params) (c : nat) (rows : list (list Z))
    (r : ndarray Z) (vs : list Z) :
  np_data m = Mat c rows ->
  pset_values (np_pset m) = Ok params ->
  call_fun (np_fun m) (np_data m) params = Ok r ->
  r = Vec vs \/ (exists v, r = Scalar v /\ vs = [v]) ->
  (length rows <> 1 -> exists msg, execute Params pset_values call_fun m = Raise (ValueError msg))
  /\ (forall row s, rows = [row] -> get_suffixes m = [s] ->
        exists out, execute Params pset_values call_fun m = Ok [(s, out)]
        /\ from_x_and_y Z_of_nat' (Mat c [row]) (Mat (length vs) [vs]) = Ok out).
Proof.
  intros Hd Hp Hf Hr.
  assert (Hw : atleast_2d r = Mat (length vs) [vs])
    by (destruct Hr as [-> | (v & -> & ->)]; reflexivity).
  unfold execute. rewrite Hp. cbn [bind]. rewrite Hf. cbn [bind]. rewrite Hw, Hd.
  split.
  - intro Hl. unfold from_data_and_result. cbn -[make_colnames].
    replace (length rows =? 1) with false by (symmetry; apply Nat.eqb_neq; exact Hl).
    cbn. eauto.
  - intros row s -> Hs. exists (table_of Z_of_nat' c (length vs) [row] [vs]).
    rewrite from_data_and_result_mats by reflexivity. cbn [bind].
    rewrite Hs. split; [reflexivity|]. apply from_x_and_y_mats. reflexivity.
Qed.

End ExecuteProofs.

(** ** [CustomConfiguration._load_exp_data] and [_load_models] *)

Section LoaderProofs.

Variables (ExpData Models : Type).
Variable super_load_exp_data : cdict -> result (ExpData * list pystr).
Variable super_load_models : cdict -> result Models.
Variable n_variables : cdict -> result nat.

Lemma models_np (config : cdict) :
  cdict_get config (KStr (lit "models")) = Some (CStr (lit "np")) ->
  models_not_np config = Ok false.
Proof. intro H. unfold models_not_np, cdict_getitem. rewrite H. reflexivity. Qed.

(** With [models] set to ["np"] and a [CustomData] [cd] as
    [_custom_data], the experimental data is [cd] under ["_optimization"] /
    ["_data"], with no constraints, and [_load_models] builds a single
    [NpModel] named ["_optimization"] that runs [_custom_func] on
    [cd.get_data_arr()] with no [PSet] and one parameter name per variable;
    its suffixes are exactly the data map's ["_data"]. *)
Theorem load_np_configuration (config : cdict) (f : cval) (cd : CustomData Z)
    (arr : ndarray Z) (n : nat) :
  cdict_get config (KStr (lit "models")) = Some (CStr (lit "np")) ->
  cdict_get config (KStr (lit "_custom_func")) = Some f ->
  cdict_get config (KStr (lit "_custom_data")) = Some (CData cd) ->
  get_data_arr cd = Ok arr ->
  n_variables config = Ok n ->
  let e := NpExpData ExpData (CData cd) [(lit "_optimization", [lit "_data"])] in
  load_exp_data ExpData super_load_exp_data config = Ok (e, [])
  /\ exists m, load_models ExpData Models super_load_models n_variables config e
               = Ok (NpModels Models [(lit "_optimization", m)])
     /\ np_fun m = f /\ np_data m = arr /\ np_pset m = CNone
     /\ np_param_names m = map param_name (seq 0 n)
     /\ get_suffixes m = [lit "_data"].
Proof.
  intros Hm Hf Hd Hg Hn e.
  split.
  - unfold load_exp_data. rewrite models_np by exact Hm. cbn [bind].
    unfold cdict_getitem. rewrite Hd. reflexivity.
  - unfold load_models. rewrite models_np by exact Hm. cbn [bind].
    unfold cdict_getitem. rewrite Hf. cbn [bind exp_data_np e]. rewrite Hn. cbn [bind].
    unfold NpModel_init. rewrite Hg. cbn [bind].
    eexists. split; [reflexivity |]. repeat split.
Qed.

(** [_load_models] in the [np] branch raises when the experimental data
    is not a [CustomData] object ([AttributeError] on [get_data_arr]), and
    when [_custom_func] is missing ([KeyError]). *)
Theorem load_models_np_errors (config : cdict) (e : exp_data ExpData) :
  cdict_get config (KStr (lit "models")) = Some (CStr (lit "np")) ->
  (cdict_get config (KStr (lit "_custom_func")) = None ->
   load_models ExpData Models super_load_models n_variables config e
   = Raise (KeyError (lit "_custom_func")))
  /\ (forall f d n, cdict_get config (KStr (lit "_custom_func")) = Some f ->
        exp_data_np ExpData e = Ok d -> n_variables config = Ok n ->
        (forall cd, d <> CData cd) ->
        load_models ExpData Models super_load_models n_variables config e
        = Raise (AttributeError (lit "get_data_arr"))).
Proof.
  intro Hm. unfold load_models. rewrite models_np by exact Hm. cbn [bind].
  unfold cdict_getitem. split.
  - intro Hf. rewrite Hf. reflexivity.
  - intros f d n Hf He Hn Hd. rewrite Hf. cbn [bind]. rewrite He. cbn [bind].
    rewrite Hn. cbn [bind].
    destruct d; try reflexivity. exfalso. exact (Hd d eq_refl).
Qed.

End LoaderProofs.

(** ** [UniformParam], [all_equal_bounds] and [ParamConfig] *)

Lemma existsb_pystr_in (k : pystr) (l : list pystr) : existsb (pystr_eqb k) l = true <-> In k l.
Proof.
  rewrite existsb_exists. split.
  - intros (x & Hx & He). apply pystr_eqb_spec in He. subst. exact Hx.
  - intro H. exists k. split; [exact H | apply pystr_eqb_refl].
Qed.

(** [UniformParam(...)] succeeds exactly when [var_type] is one of the two
    accepted names and [lower_bound < upper_bound], and then keeps the
    three values; a wrong [var_type] is reported first, as a
    [ValidationError] wrapping the validator's [ValueError], and bounds in
    the wrong order as a [ValidationError] wrapping its [AssertionError]. *)
Theorem UniformParam_new_spec (vt : pystr) (lb ub : Q) :
  (forall p, UniformParam_new vt lb ub = Ok p <->
     In vt [lit "uniform_var"; lit "loguniform_var"] /\ (lb < ub)%Q
     /\ p = {| var_type := vt; lower_bound := lb; upper_bound := ub |})
  /\ (~ In vt [lit "uniform_var"; lit "loguniform_var"] ->
      exists msg, UniformParam_new vt lb ub = Raise (ValidationError (ValueError msg)))
  /\ (In vt [lit "uniform_var"; lit "loguniform_var"] -> (ub <= lb)%Q ->
      UniformParam_new vt lb ub = Raise (ValidationError AssertionError)).
Proof.
  unfold UniformParam_new, validate_var_types, validate_bounds.
  destruct (existsb (pystr_eqb vt) [lit "uniform_var"; lit "loguniform_var"]) eqn:Ev;
    cbn [bind pydantic_wrap lower_bound upper_bound].
  - apply existsb_pystr_in in Ev.
    destruct (Qlt_le_dec lb ub) as [Hlt | Hle]; cbn [pydantic_wrap].
    + split; [| split].
      * intro p. split.
        -- intro H. inversion H. auto.
        -- intros (_ & _ & ->). reflexivity.
      * intro H. contradiction.
      * intros _ Hle. exfalso. apply (Qlt_not_le lb ub Hlt Hle).
    + split; [| split].
      * intro p. split.
        -- intro H. discriminate.
        -- intros (_ & Hlt & _). exfalso. apply (Qlt_not_le lb ub Hlt Hle).
      * intro H. contradiction.
      * reflexivity.
  - assert (Hn : ~ In vt [lit "uniform_var"; lit "loguniform_var"]).
    { intro H. apply existsb_pystr_in in H. rewrite H in Ev. discriminate. }
    split; [| split].
    + intro p. split.
      * intro H. discriminate.
      * intros (H & _). contradiction.
    + intros _. eauto.
    + intro H. contradiction.
Qed.

(** [all_equal_bounds(n, ...)] builds [n] copies of one validated
    parameter, and fails with that validation's exception when [n > 0];
    for [n = 0] nothing is validated and the parameter list is empty. *)
Theorem all_equal_bounds_spec (n : nat) (vt : pystr) (lb ub : Q) :
  all_equal_bounds n vt lb ub
  = match n with
    | O => Ok []
    | S _ => let* p := UniformParam_new vt lb ub in Ok (repeat p n)
    end.
Proof.
  induction n as [| n IH]; [reflexivity |].
  cbn [all_equal_bounds]. destruct (UniformParam_new vt lb ub) as [p | e]; cbn [bind]; [| reflexivity].
  rewrite IH. destruct n; reflexivity.
Qed.

(** [ParamConfig.update_param_dict(d)] stores the [i]-th parameter under
    [(var_type, "v{i:010d}__FREE")] with value [(lower, upper, True)], for
    every [i] (no parameter overwrites another), sets ["n_params"] to the
    number of parameters, leaves every other string key of [d] as it was,
    and adds no other tuple key. *)
Theorem ParamConfig_update_param_dict_spec (ps : list UniformParam) (d : cdict) :
  (forall i p, nth_error ps i = Some p ->
     cdict_get (ParamConfig_update_param_dict ps d) (KTup (var_type p) (param_name i))
     = Some (param_value p))
  /\ cdict_get (ParamConfig_update_param_dict ps d) (KStr (lit "n_params"))
     = Some (CInt (Z.of_nat (length ps)))
  /\ (forall s, s <> lit "n_params" ->
        cdict_get (ParamConfig_update_param_dict ps d) (KStr s) = cdict_get d (KStr s))
  /\ (forall a b v, cdict_get (ParamConfig_update_param_dict ps d) (KTup a b) = Some v ->
        (exists i p, nth_error ps i = Some p /\ a = var_type p /\ b = param_name i
                     /\ v = param_value p)
        \/ cdict_get d (KTup a b) = Some v).
Proof.
  rewrite ParamConfig_update_unfold. split; [| split; [| split]].
  - intros i p Hi. rewrite cdict_get_set_other by discriminate.
    apply (param_fold_at ps 0 d i p Hi).
  - apply cdict_get_set_same.
  - intros s Hs. rewrite cdict_get_set_other by (intro H; inversion H; auto).
    apply param_fold_str.
  - intros a b v H. rewrite cdict_get_set_other in H by discriminate.
    apply param_fold_tup in H. exact H.
Qed.

(** ** The algorithm configurations and [generate_pybnf_config_dict] *)

Lemma pystr_nodupb_spec (l : list pystr) : pystr_nodupb l = true -> NoDup l.
Proof.
  induction l as [| x l IH]; cbn; intro H; constructor.
  - apply andb_true_iff in H as [H _]. intro Hin. apply existsb_pystr_in in Hin.
    rewrite Hin in H. discriminate.
  - apply andb_true_iff in H as [_ H]. exact (IH H).
Qed.

Lemma alg_field_names_nodup (c : alg_class) : NoDup (alg_field_names c).
Proof. apply pystr_nodupb_spec. destruct c; vm_compute; reflexivity. Qed.

Lemma alg_field_names_config_keys (c : alg_class) (s : pystr) :
  In s (alg_field_names c) -> ~ In s config_keys.
Proof.
  assert (H : forallb (fun s => negb (existsb (pystr_eqb s) config_keys)) (alg_field_names c) = true)
    by (destruct c; vm_compute; reflexivity).
  intros Hs Hc. rewrite forallb_forall in H. specialize (H s Hs).
  apply existsb_pystr_in in Hc. rewrite Hc in H. discriminate.
Qed.

Lemma alg_adjusted_names (c : alg_class) (s : pystr) :
  In s (alg_adjusted c) -> In s (alg_field_names c).
Proof.
  assert (H : forallb (fun s => existsb (pystr_eqb s) (alg_field_names c)) (alg_adjusted c) = true)
    by (destruct c; vm_compute; reflexivity).
  intro Hs. rewrite forallb_forall in H. apply existsb_pystr_in. exact (H s Hs).
Qed.

Lemma cdict_get_in (d : cdict) (k : ckey) (v : cval) : cdict_get d k = Some v -> In (k, v) d.
Proof.
  induction d as [| [k0 v0] d IH]; cbn; [discriminate |].
  destruct (ckey_eqb k0 k) eqn:E; intro H.
  - inversion H. apply ckey_eqb_spec in E. subst. left. reflexivity.
  - right. exact (IH H).
Qed.

Lemma cdict_get_notin (d : cdict) (k : ckey) : cdict_get d k = None -> ~ In k (map fst d).
Proof.
  induction d as [| [k0 v0] d IH]; cbn; [auto |].
  destruct (ckey_eqb k0 k) eqn:E; intro H; [discriminate |].
  intros [Heq | Hin].
  - subst. rewrite ckey_eqb_refl in E. discriminate.
  - exact (IH H Hin).
Qed.

Lemma cdict_get_update (d e : cdict) (k : ckey) :
  NoDup (map fst e) ->
  cdict_get (cdict_update d e) k = match cdict_get e k with Some v => Some v | None => cdict_get d k end.
Proof.
  intro Hnd. destruct (cdict_get e k) as [v |] eqn:E.
  - apply cdict_get_update_in; [exact Hnd | apply cdict_get_in; exact E].
  - apply cdict_get_update_notin, cdict_get_notin. exact E.
Qed.

Section Shaped.

Variable a : AlgConfig.
Hypothesis Ha : alg_shaped a.

Lemma shaped_nodup : NoDup (map fst (alg_fields a)).
Proof.
  rewrite Ha. generalize (alg_field_names_nodup (alg_cls a)).
  induction (alg_field_names (alg_cls a)) as [| x l IH]; intro H; cbn; constructor.
  - inversion H as [| ? ? Hx Hl]; subst. intro Hin.
    apply in_map_iff in Hin as (y & Hy & Hin). inversion Hy; subst. contradiction.
  - inversion H; subst. apply IH. assumption.
Qed.

Lemma shaped_get_tup (x y : pystr) : cdict_get (alg_fields a) (KTup x y) = None.
Proof.
  destruct (cdict_get (alg_fields a) (KTup x y)) eqn:E; [| reflexivity].
  apply cdict_get_in, (in_map fst) in E. rewrite Ha in E.
  apply in_map_iff in E as (z & Hz & _). discriminate.
Qed.

Lemma shaped_get_none (s : pystr) :
  ~ In s (alg_field_names (alg_cls a)) -> cdict_get (alg_fields a) (KStr s) = None.
Proof.
  intro Hs. destruct (cdict_get (alg_fields a) (KStr s)) eqn:E; [| reflexivity].
  apply cdict_get_in, (in_map fst) in E. rewrite Ha in E.
  apply in_map_iff in E as (z & Hz & Hin). inversion Hz. subst. contradiction.
Qed.

Lemma shaped_get_some (s : pystr) :
  In s (alg_field_names (alg_cls a)) -> exists v, cdict_get (alg_fields a) (KStr s) = Some v.
Proof.
  intro Hs. destruct (cdict_get (alg_fields a) (KStr s)) eqn:E; [eauto |].
  apply cdict_get_notin in E. exfalso. apply E. rewrite Ha. apply in_map. exact Hs.
Qed.

Lemma shaped_update_get (d : cdict) (k : ckey) :
  cdict_get (cdict_update d (alg_fields a)) k
  = match cdict_get (alg_fields a) k with Some v => Some v | None => cdict_get d k end.
Proof. apply cdict_get_update, shaped_nodup. Qed.

(** What [update_param_dict] of each class does to a dictionary holding
    [n_params] and [max_iterations]: it succeeds; keys the class does not
    adjust are those of [d.update(self.model_dump())]; the adjusted keys
    are described class by class. *)
Lemma alg_update_spec (d : cdict) (z : Z) (mi : cval) :
  cdict_get d (KStr (lit "n_params")) = Some (CInt z) ->
  cdict_get d (KStr (lit "max_iterations")) = Some mi ->
  let du := cdict_update d (alg_fields a) in
  exists d', AlgConfig_update_param_dict a d = Ok d'
  /\ (forall k, (forall s, In s (alg_adjusted (alg_cls a)) -> k <> KStr s) ->
        cdict_get d' k = cdict_get du k)
  /\ match alg_cls a with
     | ScatterSearch =>
         forall iv rv, cdict_get (alg_fields a) (KStr (lit "init_size")) = Some iv ->
           cdict_get (alg_fields a) (KStr (lit "reserve_size")) = Some rv ->
           cdict_get d' (KStr (lit "init_size"))
             = Some (match iv with CNone => CInt (10 * z) | _ => iv end)
           /\ cdict_get d' (KStr (lit "reserve_size"))
             = Some (match rv with CNone => mi | _ => rv end)
     | ParticleSwarm =>
         forall w, cdict_get (alg_fields a) (KStr (lit "particle_weight")) = Some w ->
           cdict_get d' (KStr (lit "particle_weight_final")) = Some w
     | ParallelTempering =>
         forall br, cdict_get (alg_fields a) (KStr (lit "beta_range")) = Some br ->
           match br with
           | CNone => cdict_get d' (KStr (lit "beta_range")) = None
                      /\ cdict_get d' (KStr (lit "beta")) = cdict_get du (KStr (lit "beta"))
           | _ => cdict_get d' (KStr (lit "beta")) = None
                  /\ cdict_get d' (KStr (lit "beta_range")) = cdict_get du (KStr (lit "beta_range"))
           end
     | _ => True
     end.
Proof.
  intros Hn Hm du.
  assert (Hdu : forall s, ~ In s (alg_field_names (alg_cls a)) ->
                  cdict_get du (KStr s) = cdict_get d (KStr s)).
  { intros s Hs. unfold du. rewrite shaped_update_get, shaped_get_none by exact Hs. reflexivity. }
  assert (Hdf : forall s v, cdict_get (alg_fields a) (KStr s) = Some v -> cdict_get du (KStr s) = Some v).
  { intros s v Hv. unfold du. rewrite shaped_update_get, Hv. reflexivity. }
  assert (Hnot : forall s, In s config_keys -> ~ In s (alg_field_names (alg_cls a))).
  { intros s Hc Hs. exact (alg_field_names_config_keys _ s Hs Hc). }
  assert (Hdn : cdict_get du (KStr (lit "n_params")) = Some (CInt z)).
  { rewrite Hdu; [exact Hn | apply Hnot; cbn; tauto]. }
  assert (Hdm : cdict_get du (KStr (lit "max_iterations")) = Some mi).
  { rewrite Hdu; [exact Hm | apply Hnot; cbn; tauto]. }
  unfold AlgConfig_update_param_dict. fold du.
  destruct (alg_cls a) eqn:Ec;
    try (exists du; split; [reflexivity | split; [reflexivity | exact I]]).
  - (* ScatterSearch *)
    destruct (shaped_get_some (lit "init_size")) as [iv Hiv]; [rewrite Ec; cbn; tauto |].
    destruct (shaped_get_some (lit "reserve_size")) as [rv Hrv]; [rewrite Ec; cbn; tauto |].
    set (d1 := match iv with CNone => cdict_set du (KStr (lit "init_size")) (CInt (10 * z)) | _ => du end).
    assert (Hd1 : forall k, k <> KStr (lit "init_size") -> cdict_get d1 k = cdict_get du k).
    { intros k Hk. unfold d1. destruct iv; try reflexivity. apply cdict_get_set_other. auto. }
    assert (Hd1i : cdict_get d1 (KStr (lit "init_size"))
                   = Some (match iv with CNone => CInt (10 * z) | _ => iv end)).
    { unfold d1. destruct iv; try (apply Hdf; exact Hiv). apply cdict_get_set_same. }
    assert (Hd1r : cdict_get d1 (KStr (lit "reserve_size")) = Some rv).
    { rewrite Hd1 by discriminate. apply Hdf. exact Hrv. }
    assert (Hd1m : cdict_get d1 (KStr (lit "max_iterations")) = Some mi).
    { rewrite Hd1 by discriminate. exact Hdm. }
    set (d2 := match rv with CNone => cdict_set d1 (KStr (lit "reserve_size")) mi | _ => d1 end).
    assert (Hd2 : forall k, k <> KStr (lit "reserve_size") -> cdict_get d2 k = cdict_get d1 k).
    { intros k Hk. unfold d2. destruct rv; try reflexivity. apply cdict_get_set_other. auto. }
    exists d2. split; [| split].
    + unfold cdict_getitem at 1. rewrite (Hdf _ _ Hiv). cbn [bind].
      assert (E1 : match iv with
                   | CNone => let* n := cdict_getitem du (lit "n_params") in
                              let* m := cval_mul (CInt 10) n in
                              Ok (cdict_set du (KStr (lit "init_size")) m)
                   | _ => Ok du
                   end = Ok d1).
      { unfold d1. destruct iv; try reflexivity.
        unfold cdict_getitem. rewrite Hdn. reflexivity. }
      rewrite E1. cbn [bind]. unfold cdict_getitem. rewrite Hd1r.
      unfold d2. destruct rv; try reflexivity. rewrite Hd1m. reflexivity.
    + intros k Hk. rewrite Hd2, Hd1; [reflexivity | |].
      * apply Hk. cbn; tauto.
      * apply Hk. cbn; tauto.
    + intros iv' rv' Hiv' Hrv'. rewrite Hiv in Hiv'. rewrite Hrv in Hrv'.
      inversion Hiv'. inversion Hrv'. subst iv' rv'. split.
      * rewrite Hd2 by discriminate. exact Hd1i.
      * unfold d2. destruct rv; try exact Hd1r. apply cdict_get_set_same.
  - (* ParticleSwarm *)
    destruct (shaped_get_some (lit "particle_weight")) as [w Hw]; [rewrite Ec; cbn; tauto |].
    exists (cdict_set du (KStr (lit "particle_weight_final")) w). split; [| split].
    + unfold cdict_getitem. rewrite (Hdf _ _ Hw). reflexivity.
    + intros k Hk. apply cdict_get_set_other. intro H. apply (Hk _ (or_introl eq_refl)). auto.
    + intros w' Hw'. rewrite Hw in Hw'. inversion Hw'. apply cdict_get_set_same.
  - (* ParallelTempering *)
    destruct (shaped_get_some (lit "beta_range")) as [br Hbr]; [rewrite Ec; cbn; tauto |].
    destruct (shaped_get_some (lit "beta")) as [b Hb]; [rewrite Ec; cbn; tauto |].
    unfold alg_getattr. rewrite Hbr. cbn [bind].
    assert (Hdel : forall s v, cdict_get du (KStr s) = Some v ->
                     exists d', cdict_del du s = Ok d'
                     /\ forall k, cdict_get d' k = if ckey_eqb (KStr s) k then None else cdict_get du k).
    { intros s v Hv. destruct (cdict_del_ok du s v Hv) as [d' Hd'].
      exists d'. split; [exact Hd' | apply cdict_del_spec; exact Hd']. }
    destruct br;
      [ destruct (Hdel (lit "beta_range") CNone (Hdf _ _ Hbr)) as (d' & Hd' & Hs)
      | destruct (Hdel (lit "beta") b (Hdf _ _ Hb)) as (d' & Hd' & Hs) .. ];
      exists d'; (split; [exact Hd' | split]).
    1: { intros k Hk. rewrite Hs, ckey_eqb_false; [reflexivity |].
         intro H. apply (Hk (lit "beta_range")); [cbn; tauto | auto]. }
    1: { intros br' Hbr'. injection Hbr' as Hbr'. subst br'. split.
         - rewrite Hs, ckey_eqb_refl. reflexivity.
         - rewrite Hs, ckey_eqb_false by discriminate. reflexivity. }
    all: try (intros k Hk; rewrite Hs, ckey_eqb_false; [reflexivity |];
              intro H; apply (Hk (lit "beta")); [cbn; tauto | auto]).
    all: intros br' Hbr'; injection Hbr' as Hbr'; subst br'; split;
         [ rewrite Hs, ckey_eqb_refl; reflexivity
         | rewrite Hs, ckey_eqb_false by discriminate; reflexivity ].
Qed.

End Shaped.

Lemma generate_unfold (g : GeneralConfig) (func data : cval) :
  generate_pybnf_config_dict g func data
  = (let* d := AlgConfig_update_param_dict (algorithm_config g) (pre_alg_dict g func data) in
     let* d := cdict_del d (lit "param_config") in
     let* d := cdict_del d (lit "algorithm_config") in
     cdict_del d (lit "n_params")).
Proof. reflexivity. Qed.

Section GenerateProofs.

Variable g : GeneralConfig.
Variables func data : cval.

Let ps := param_config g.
Let a := algorithm_config g.
Let pre := pre_alg_dict g func data.

Lemma pre_alg_str :
  cdict_get pre (KStr (lit "models")) = Some (CStr (lit "np"))
  /\ cdict_get pre (KStr (lit "_optimization")) = Some (CList [CStr (lit "_data")])
  /\ cdict_get pre (KStr (lit "_custom_func")) = Some func
  /\ cdict_get pre (KStr (lit "_custom_data")) = Some data
  /\ cdict_get pre (KStr (lit "param_config"))
     = Some (CDict [(KStr (lit "params"), CList (map UniformParam_dump ps))])
  /\ cdict_get pre (KStr (lit "algorithm_config")) = Some (CDict (alg_fields a))
  /\ cdict_get pre (KStr (lit "objfunc")) = Some (CStr (objfunc g))
  /\ cdict_get pre (KStr (lit "population_size")) = Some (CInt (population_size g))
  /\ cdict_get pre (KStr (lit "max_iterations")) = Some (CInt (max_iterations g))
  /\ cdict_get pre (KStr (lit "verbosity")) = Some (CInt (verbosity g))
  /\ cdict_get pre (KStr (lit "n_params")) = Some (CInt (Z.of_nat (length ps))).
Proof.
  unfold pre, pre_alg_dict. rewrite ParamConfig_update_unfold.
  repeat split;
    try (rewrite cdict_get_set_other by discriminate; rewrite param_fold_str; reflexivity).
  apply cdict_get_set_same.
Qed.

Lemma pre_alg_tup (x y : pystr) (v : cval) :
  cdict_get pre (KTup x y) = Some v <->
  exists i p, nth_error ps i = Some p /\ x = var_type p /\ y = param_name i /\ v = param_value p.
Proof.
  unfold pre, pre_alg_dict. rewrite ParamConfig_update_unfold.
  rewrite cdict_get_set_other by discriminate.
  split.
  - intro H. apply param_fold_tup in H as [H | H]; [exact H |].
    rewrite cdict_get_update_notin in H.
    + discriminate H.
    + cbn [GeneralConfig_dump map fst In]. intro Hin.
      repeat destruct Hin as [Hin | Hin]; discriminate || contradiction.
  - intros (i & p & Hi & -> & -> & ->). apply (param_fold_at (param_config g) 0 _ i p Hi).
Qed.

Hypothesis Ha : alg_shaped a.

Lemma generate_core :
  exists d3 cfg, AlgConfig_update_param_dict a pre = Ok d3
  /\ generate_pybnf_config_dict g func data = Ok cfg
  /\ forall k, cdict_get cfg k
               = if ckey_eqb (KStr (lit "param_config")) k
                    || ckey_eqb (KStr (lit "algorithm_config")) k
                    || ckey_eqb (KStr (lit "n_params")) k
                 then None else cdict_get d3 k.
Proof.
  destruct pre_alg_str as (_ & _ & _ & _ & Hpc & Hac & _ & _ & Hmi & _ & Hnp).
  destruct (alg_update_spec a Ha pre _ _ Hnp Hmi) as (d3 & Hd3 & Hframe & _).
  assert (Hkeep : forall s, In s config_keys -> cdict_get d3 (KStr s) = cdict_get pre (KStr s)).
  { intros s Hs. rewrite Hframe.
    - rewrite shaped_update_get, shaped_get_none by (exact Ha || exact (fun H => alg_field_names_config_keys _ s H Hs)).
      reflexivity.
    - intros s' Hs' Heq. inversion Heq; subst s'.
      exact (alg_field_names_config_keys _ s (alg_adjusted_names _ s Hs') Hs). }
  assert (H1 : cdict_get d3 (KStr (lit "param_config")) <> None)
    by (rewrite Hkeep by (cbn; tauto); rewrite Hpc; discriminate).
  destruct (cdict_get d3 (KStr (lit "param_config"))) as [v1 |] eqn:E1; [| contradiction].
  destruct (cdict_del_ok _ _ _ E1) as [d4 Hd4].
  pose proof (cdict_del_spec _ _ _ Hd4) as S4.
  assert (E2 : cdict_get d4 (KStr (lit "algorithm_config")) = Some (CDict (alg_fields a))).
  { rewrite S4, ckey_eqb_false by discriminate. rewrite Hkeep by (cbn; tauto). exact Hac. }
  destruct (cdict_del_ok _ _ _ E2) as [d5 Hd5].
  pose proof (cdict_del_spec _ _ _ Hd5) as S5.
  assert (E3 : cdict_get d5 (KStr (lit "n_params")) = Some (CInt (Z.of_nat (length ps)))).
  { rewrite S5, ckey_eqb_false by discriminate. rewrite S4, ckey_eqb_false by discriminate.
    rewrite Hkeep by (cbn; tauto). exact Hnp. }
  destruct (cdict_del_ok _ _ _ E3) as [cfg Hcfg].
  pose proof (cdict_del_spec _ _ _ Hcfg) as S6.
  exists d3, cfg. split; [exact Hd3 | split].
  - rewrite generate_unfold. fold a pre. rewrite Hd3. cbn [bind].
    rewrite Hd4. cbn [bind]. rewrite Hd5. cbn [bind]. exact Hcfg.
  - intro k. rewrite S6, S5, S4.
    destruct (ckey_eqb (KStr (lit "param_config")) k), (ckey_eqb (KStr (lit "algorithm_config")) k),
      (ckey_eqb (KStr (lit "n_params")) k); reflexivity.
Qed.

End GenerateProofs.

Lemma generate_d3 (g : GeneralConfig) (func data : cval) (cfg : cdict) :
  alg_shaped (algorithm_config g) ->
  generate_pybnf_config_dict g func data = Ok cfg ->
  let a := algorithm_config g in
  let du := cdict_update (pre_alg_dict g func data) (alg_fields a) in
  let z := Z.of_nat (length (param_config g)) in
  let mi := CInt (max_iterations g) in
  exists d3,
  (forall k, cdict_get cfg k
             = if ckey_eqb (KStr (lit "param_config")) k
                  || ckey_eqb (KStr (lit "algorithm_config")) k
                  || ckey_eqb (KStr (lit "n_params")) k
               then None else cdict_get d3 k)
  /\ (forall k, (forall s, In s (alg_adjusted (alg_cls a)) -> k <> KStr s) ->
        cdict_get d3 k = cdict_get du k)
  /\ match alg_cls a with
     | ScatterSearch =>
         forall iv rv, cdict_get (alg_fields a) (KStr (lit "init_size")) = Some iv ->
           cdict_get (alg_fields a) (KStr (lit "reserve_size")) = Some rv ->
           cdict_get d3 (KStr (lit "init_size"))
             = Some (match iv with CNone => CInt (10 * z) | _ => iv end)
           /\ cdict_get d3 (KStr (lit "reserve_size"))
             = Some (match rv with CNone => mi | _ => rv end)
     | ParticleSwarm =>
         forall w, cdict_get (alg_fields a) (KStr (lit "particle_weight")) = Some w ->
           cdict_get d3 (KStr (lit "particle_weight_final")) = Some w
     | ParallelTempering =>
         forall br, cdict_get (alg_fields a) (KStr (lit "beta_range")) = Some br ->
           match br with
           | CNone => cdict_get d3 (KStr (lit "beta_range")) = None
                      /\ cdict_get d3 (KStr (lit "beta")) = cdict_get du (KStr (lit "beta"))
           | _ => cdict_get d3 (KStr (lit "beta")) = None
                  /\ cdict_get d3 (KStr (lit "beta_range")) = cdict_get du (KStr (lit "beta_range"))
           end
     | _ => True
     end.
Proof.
  intros Ha Hg a du z mi.
  destruct (generate_core g func data Ha) as (d3 & cfg' & Hd3 & Hg' & Hget).
  rewrite Hg in Hg'. injection Hg' as <-.
  destruct (pre_alg_str g func data) as (_ & _ & _ & _ & _ & _ & _ & _ & Hmi & _ & Hnp).
  destruct (alg_update_spec _ Ha _ _ _ Hnp Hmi) as (d' & Hd' & Hframe & Hcls).
  rewrite Hd3 in Hd'. injection Hd' as <-.
  exists d3. split; [exact Hget | split; [exact Hframe | exact Hcls]].
Qed.

Lemma removed_false (s : pystr) :
  ~ In s [lit "param_config"; lit "algorithm_config"; lit "n_params"] ->
  ckey_eqb (KStr (lit "param_config")) (KStr s)
  || ckey_eqb (KStr (lit "algorithm_config")) (KStr s)
  || ckey_eqb (KStr (lit "n_params")) (KStr s) = false.
Proof.
  intro H.
  destruct (ckey_eqb (KStr (lit "param_config")) (KStr s)) eqn:E1;
    [apply ckey_eqb_spec in E1; inversion E1; exfalso; apply H; cbn; tauto |].
  destruct (ckey_eqb (KStr (lit "algorithm_config")) (KStr s)) eqn:E2;
    [apply ckey_eqb_spec in E2; inversion E2; exfalso; apply H; cbn; tauto |].
  destruct (ckey_eqb (KStr (lit "n_params")) (KStr s)) eqn:E3;
    [apply ckey_eqb_spec in E3; inversion E3; exfalso; apply H; cbn; tauto |].
  reflexivity.
Qed.

Lemma generate_config_key (g : GeneralConfig) (func data : cval) (cfg : cdict) (s : pystr) :
  alg_shaped (algorithm_config g) ->
  generate_pybnf_config_dict g func data = Ok cfg ->
  In s config_keys -> ~ In s [lit "param_config"; lit "algorithm_config"; lit "n_params"] ->
  cdict_get cfg (KStr s) = cdict_get (pre_alg_dict g func data) (KStr s).
Proof.
  intros Ha Hg Hs Hr.
  destruct (generate_d3 g func data cfg Ha Hg) as (d3 & Hget & Hframe & _).
  rewrite Hget, removed_false by exact Hr. rewrite Hframe.
  - rewrite shaped_update_get by exact Ha.
    rewrite shaped_get_none by (exact Ha || exact (fun H => alg_field_names_config_keys _ s H Hs)).
    reflexivity.
  - intros s' Hs' Heq. inversion Heq; subst s'.
    exact (alg_field_names_config_keys _ s (alg_adjusted_names _ s Hs') Hs).
Qed.

(** The dictionary [generate_pybnf_config_dict(func, data)] hands to
    pyBNF, for an algorithm configuration whose dump lists its class's
    fields: it is built without error; it holds the fixed entries
    [models = "np"] and [_optimization = ["_data"]], the given function
    and data, and the general settings [objfunc], [population_size],
    [max_iterations] and [verbosity]; the helper entries [param_config],
    [algorithm_config] and [n_params] are gone. *)
Theorem generate_pybnf_config_dict_entries (g : GeneralConfig) (func data : cval) :
  alg_shaped (algorithm_config g) ->
  exists cfg, generate_pybnf_config_dict g func data = Ok cfg
  /\ cdict_get cfg (KStr (lit "models")) = Some (CStr (lit "np"))
  /\ cdict_get cfg (KStr (lit "_optimization")) = Some (CList [CStr (lit "_data")])
  /\ cdict_get cfg (KStr (lit "_custom_func")) = Some func
  /\ cdict_get cfg (KStr (lit "_custom_data")) = Some data
  /\ cdict_get cfg (KStr (lit "objfunc")) = Some (CStr (objfunc g))
  /\ cdict_get cfg (KStr (lit "population_size")) = Some (CInt (population_size g))
  /\ cdict_get cfg (KStr (lit "max_iterations")) = Some (CInt (max_iterations g))
  /\ cdict_get cfg (KStr (lit "verbosity")) = Some (CInt (verbosity g))
  /\ cdict_get cfg (KStr (lit "param_config")) = None
  /\ cdict_get cfg (KStr (lit "algorithm_config")) = None
  /\ cdict_get cfg (KStr (lit "n_params")) = None.
Proof.
  intro Ha.
  destruct (generate_core g func data Ha) as (d3 & cfg & _ & Hg & Hget).
  destruct (pre_alg_str g func data) as (H1 & H2 & H3 & H4 & _ & _ & H7 & H8 & H9 & H10 & _).
  exists cfg. split; [exact Hg |].
  assert (K : forall s, In s config_keys ->
                ~ In s [lit "param_config"; lit "algorithm_config"; lit "n_params"] ->
                cdict_get cfg (KStr s) = cdict_get (pre_alg_dict g func data) (KStr s))
    by (intros s Hs Hr; exact (generate_config_key g func data cfg s Ha Hg Hs Hr)).
  repeat split;
    try (rewrite K; [assumption | cbn; tauto |
                     cbn; intros Hin; repeat destruct Hin as [Hin | Hin]; discriminate || contradiction]);
    rewrite Hget; reflexivity.
Qed.

(** The tuple keys of the generated dictionary are exactly the free
    parameters: the [i]-th parameter [p] appears as
    [(var_type, "v{i:010d}__FREE") -> (lower_bound, upper_bound, True)],
    and there is no other tuple key. *)
Theorem generate_pybnf_config_dict_params (g : GeneralConfig) (func data : cval) (cfg : cdict) :
  alg_shaped (algorithm_config g) ->
  generate_pybnf_config_dict g func data = Ok cfg ->
  forall x y v, cdict_get cfg (KTup x y) = Some v <->
    exists i p, nth_error (param_config g) i = Some p /\ x = var_type p
                /\ y = param_name i /\ v = param_value p.
Proof.
  intros Ha Hg x y v.
  destruct (generate_d3 g func data cfg Ha Hg) as (d3 & Hget & Hframe & _).
  rewrite Hget. cbn [ckey_eqb orb]. rewrite Hframe by discriminate.
  rewrite shaped_update_get, shaped_get_tup by exact Ha.
  apply pre_alg_tup.
Qed.

(** Every field of the algorithm configuration reaches the generated
    dictionary with its value, except the ones its class adjusts. *)
Theorem generate_pybnf_config_dict_alg_fields (g : GeneralConfig) (func data : cval) (cfg : cdict) :
  alg_shaped (algorithm_config g) ->
  generate_pybnf_config_dict g func data = Ok cfg ->
  forall s v, cdict_get (alg_fields (algorithm_config g)) (KStr s) = Some v ->
    ~ In s (alg_adjusted (alg_cls (algorithm_config g))) ->
    cdict_get cfg (KStr s) = Some v.
Proof.
  intros Ha Hg s v Hv Hadj.
  destruct (generate_d3 g func data cfg Ha Hg) as (d3 & Hget & Hframe & _).
  assert (Hn : In s (alg_field_names (alg_cls (algorithm_config g)))).
  { apply cdict_get_in, (in_map fst) in Hv. rewrite Ha in Hv.
    apply in_map_iff in Hv as (t & Ht & Hin). inversion Ht. subst. exact Hin. }
  pose proof (alg_field_names_config_keys _ s Hn) as Hc.
  rewrite Hget, removed_false.
  - rewrite Hframe.
    + rewrite shaped_update_get, Hv by exact Ha. reflexivity.
    + intros s' Hs' Heq. inversion Heq; subst s'. contradiction.
  - intro Hr. apply Hc. cbn in Hr |- *. tauto.
Qed.

(** Scatter search: a missing [init_size] ([None]) becomes ten times the
    number of parameters, a missing [reserve_size] becomes
    [max_iterations]; given values are kept. *)
Theorem generate_pybnf_config_dict_scatter_search (g : GeneralConfig) (func data : cval)
    (cfg : cdict) (iv rv : cval) :
  alg_shaped (algorithm_config g) ->
  alg_cls (algorithm_config g) = ScatterSearch ->
  generate_pybnf_config_dict g func data = Ok cfg ->
  cdict_get (alg_fields (algorithm_config g)) (KStr (lit "init_size")) = Some iv ->
  cdict_get (alg_fields (algorithm_config g)) (KStr (lit "reserve_size")) = Some rv ->
  cdict_get cfg (KStr (lit "init_size"))
    = Some (match iv with CNone => CInt (10 * Z.of_nat (length (param_config g))) | _ => iv end)
  /\ cdict_get cfg (KStr (lit "reserve_size"))
    = Some (match rv with CNone => CInt (max_iterations g) | _ => rv end).
Proof.
  intros Ha Hc Hg Hiv Hrv.
  destruct (generate_d3 g func data cfg Ha Hg) as (d3 & Hget & _ & Hcls).
  cbv zeta in Hcls. rewrite Hc in Hcls.
  destruct (Hcls iv rv Hiv Hrv) as [Hi Hr].
  rewrite !Hget. cbn [ckey_eqb]. exact (conj Hi Hr).
Qed.

(** Particle swarm: [particle_weight_final] is set to [particle_weight]. *)
Theorem generate_pybnf_config_dict_particle_swarm (g : GeneralConfig) (func data : cval)
    (cfg : cdict) (w : cval) :
  alg_shaped (algorithm_config g) ->
  alg_cls (algorithm_config g) = ParticleSwarm ->
  generate_pybnf_config_dict g func data = Ok cfg ->
  cdict_get (alg_fields (algorithm_config g)) (KStr (lit "particle_weight")) = Some w ->
  cdict_get cfg (KStr (lit "particle_weight_final")) = Some w.
Proof.
  intros Ha Hc Hg Hw.
  destruct (generate_d3 g func data cfg Ha Hg) as (d3 & Hget & _ & Hcls).
  cbv zeta in Hcls. rewrite Hc in Hcls.
  rewrite Hget. cbn [ckey_eqb]. exact (Hcls w Hw).
Qed.

(** Parallel tempering: without [beta_range] the dictionary keeps [beta]
    and has no [beta_range]; with a [beta_range] it keeps that and has no
    [beta]. *)
Theorem generate_pybnf_config_dict_parallel_tempering (g : GeneralConfig) (func data : cval)
    (cfg : cdict) (br : cval) :
  alg_shaped (algorithm_config g) ->
  alg_cls (algorithm_config g) = ParallelTempering ->
  generate_pybnf_config_dict g func data = Ok cfg ->
  cdict_get (alg_fields (algorithm_config g)) (KStr (lit "beta_range")) = Some br ->
  (br = CNone -> cdict_get cfg (KStr (lit "beta_range")) = None
                 /\ cdict_get cfg (KStr (lit "beta"))
                    = cdict_get (alg_fields (algorithm_config g)) (KStr (lit "beta")))
  /\ (br <> CNone -> cdict_get cfg (KStr (lit "beta")) = None
                     /\ cdict_get cfg (KStr (lit "beta_range")) = Some br).
Proof.
  intros Ha Hc Hg Hbr.
  destruct (generate_d3 g func data cfg Ha Hg) as (d3 & Hget & _ & Hcls).
  cbv zeta in Hcls. rewrite Hc in Hcls. specialize (Hcls br Hbr).
  assert (Hdu : forall s, In s (alg_field_names ParallelTempering) ->
                  cdict_get (cdict_update (pre_alg_dict g func data) (alg_fields (algorithm_config g))) (KStr s)
                  = cdict_get (alg_fields (algorithm_config g)) (KStr s)).
  { intros s Hs. rewrite shaped_update_get by exact Ha.
    rewrite <- Hc in Hs. destruct (shaped_get_some _ Ha s Hs) as [v Hv]. rewrite Hv. reflexivity. }
  rewrite !Hget. cbn [ckey_eqb]. split.
  - intros ->. destruct Hcls as [H1 H2]. split; [exact H1 |].
    rewrite H2. apply Hdu. cbn; tauto.
  - intro Hn. destruct br; try (exfalso; apply Hn; reflexivity);
      destruct Hcls as [H1 H2]; (split; [exact H1 | rewrite H2, Hdu by (cbn; tauto); exact Hbr]).
Qed.

(** ** Instances of the properties above *)

Lemma from_data_and_result_eq_from_x_and_y_witness :
  length [[1; 2]; [3; 4]]%Z = length [[5]; [6]]%Z
  /\ from_data_and_result Z_of_nat' (Mat 2 [[1; 2]; [3; 4]]%Z) (Mat 1 [[5]; [6]]%Z)
     = from_x_and_y Z_of_nat' (Mat 2 [[1; 2]; [3; 4]]%Z) (Mat 1 [[5]; [6]]%Z).
Proof.
  split; [reflexivity |].
  apply (from_data_and_result_eq_from_x_and_y Z_of_nat' 2 1 _ _). reflexivity.
Defined.

Lemma execute_np_model_table_witness :
  get_data_arr table_example = Ok (Mat 2 [[1; 2]; [3; 4]]%Z)
  /\ NpModel_init (CFunc 0) table_example 2 CNone = Ok np_model_example
  /\ (fun _ : cval => Ok tt : result unit) CNone = Ok tt
  /\ row_sums_call (CFunc 0) (Mat 2 [[1; 2]; [3; 4]]%Z) tt = Ok (Mat 1 [[3]; [7]]%Z)
  /\ length [[3]; [7]]%Z = length [[1; 2]; [3; 4]]%Z
  /\ (np_data np_model_example = Mat 2 [[1; 2]; [3; 4]]%Z
      /\ exists out, execute unit (fun _ => Ok tt) row_sums_call np_model_example
                     = Ok [(lit "_data", out)]
         /\ from_x_and_y Z_of_nat' (Mat 2 [[1; 2]; [3; 4]]%Z) (Mat 1 [[3]; [7]]%Z) = Ok out).
Proof.
  split; [vm_compute; reflexivity |].
  split; [vm_compute; reflexivity |].
  split; [reflexivity |].
  split; [vm_compute; reflexivity |].
  split; [reflexivity |].
  apply (execute_np_model_table unit (fun _ => Ok tt) row_sums_call (CFunc 0) table_example 2 1
           [[1; 2]; [3; 4]]%Z [[3]; [7]]%Z 2 CNone np_model_example tt);
    [vm_compute; reflexivity | vm_compute; reflexivity | reflexivity
    | vm_compute; reflexivity | reflexivity].
Defined.

Lemma execute_low_dim_result_witness :
  np_data np_model_example = Mat 2 [[1; 2]; [3; 4]]%Z
  /\ (fun _ : cval => Ok tt : result unit) (np_pset np_model_example) = Ok tt
  /\ row_sums_vec_call (np_fun np_model_example) (np_data np_model_example) tt = Ok (Vec [3; 7]%Z)
  /\ ((length [[1; 2]; [3; 4]]%Z <> 1 ->
       exists msg, execute unit (fun _ => Ok tt) row_sums_vec_call np_model_example
                   = Raise (ValueError msg))
      /\ (forall row s, [[1; 2]; [3; 4]]%Z = [row] -> get_suffixes np_model_example = [s] ->
            exists out, execute unit (fun _ => Ok tt) row_sums_vec_call np_model_example = Ok [(s, out)]
            /\ from_x_and_y Z_of_nat' (Mat 2 [row]) (Mat (length [3; 7]%Z) [[3; 7]%Z]) = Ok out)).
Proof.
  split; [reflexivity |]. split; [reflexivity |]. split; [vm_compute; reflexivity |].
  apply (execute_low_dim_result unit (fun _ => Ok tt) row_sums_vec_call np_model_example tt 2
           [[1; 2]; [3; 4]]%Z (Vec [3; 7]%Z) [3; 7]%Z);
    [reflexivity | reflexivity | vm_compute; reflexivity | left; reflexivity].
Defined.

Lemma load_np_configuration_witness :
  cdict_get np_config_example (KStr (lit "models")) = Some (CStr (lit "np"))
  /\ cdict_get np_config_example (KStr (lit "_custom_func")) = Some (CFunc 0)
  /\ cdict_get np_config_example (KStr (lit "_custom_data")) = Some (CData table_example)
  /\ get_data_arr table_example = Ok (Mat 2 [[1; 2]; [3; 4]]%Z)
  /\ (fun _ : cdict => Ok 2 : result nat) np_config_example = Ok 2
  /\ (let e := NpExpData unit (CData table_example) [(lit "_optimization", [lit "_data"])] in
      load_exp_data unit (fun _ => Raise (RuntimeError (lit "pybnf"))) np_config_example = Ok (e, [])
      /\ exists m, load_models unit unit (fun _ => Raise (RuntimeError (lit "pybnf")))
                     (fun _ => Ok 2) np_config_example e
                   = Ok (NpModels unit [(lit "_optimization", m)])
         /\ np_fun m = CFunc 0 /\ np_data m = Mat 2 [[1; 2]; [3; 4]]%Z /\ np_pset m = CNone
         /\ np_param_names m = map param_name (seq 0 2)
         /\ get_suffixes m = [lit "_data"]).
Proof.
  split; [reflexivity |]. split; [reflexivity |]. split; [reflexivity |].
  split; [vm_compute; reflexivity |]. split; [reflexivity |].
  apply (load_np_configuration unit unit (fun _ => Raise (RuntimeError (lit "pybnf")))
           (fun _ => Raise (RuntimeError (lit "pybnf"))) (fun _ => Ok 2)
           np_config_example (CFunc 0) table_example (Mat 2 [[1; 2]; [3; 4]]%Z) 2);
    [reflexivity | reflexivity | reflexivity | vm_compute; reflexivity | reflexivity].
Defined.

Lemma load_models_np_errors_witness :
  cdict_get np_config_example (KStr (lit "models")) = Some (CStr (lit "np"))
  /\ (cdict_get np_config_example (KStr (lit "_custom_func")) = None ->
      load_models unit unit (fun _ => Raise (RuntimeError (lit "pybnf"))) (fun _ => Ok 2)
        np_config_example (NpExpData unit CNone [])
      = Raise (KeyError (lit "_custom_func")))
  /\ (forall f d n, cdict_get np_config_example (KStr (lit "_custom_func")) = Some f ->
        exp_data_np unit (NpExpData unit CNone []) = Ok d ->
        (fun _ : cdict => Ok 2 : result nat) np_config_example = Ok n ->
        (forall cd, d <> CData cd) ->
        load_models unit unit (fun _ => Raise (RuntimeError (lit "pybnf"))) (fun _ => Ok 2)
          np_config_example (NpExpData unit CNone [])
        = Raise (AttributeError (lit "get_data_arr"))).
Proof.
  split; [reflexivity |].
  apply (load_models_np_errors unit unit (fun _ => Raise (RuntimeError (lit "pybnf")))
           (fun _ => Ok 2) np_config_example (NpExpData unit CNone [])).
  reflexivity.
Defined.

Lemma generate_pybnf_config_dict_entries_witness :
  alg_shaped (algorithm_config (general_example ss_alg_example))
  /\ exists cfg, generate_pybnf_config_dict (general_example ss_alg_example) (CFunc 0)
                   (CData table_example) = Ok cfg
     /\ cdict_get cfg (KStr (lit "models")) = Some (CStr (lit "np"))
     /\ cdict_get cfg (KStr (lit "_optimization")) = Some (CList [CStr (lit "_data")])
     /\ cdict_get cfg (KStr (lit "_custom_func")) = Some (CFunc 0)
     /\ cdict_get cfg (KStr (lit "_custom_data")) = Some (CData table_example)
     /\ cdict_get cfg (KStr (lit "objfunc")) = Some (CStr (lit "sos"))
     /\ cdict_get cfg (KStr (lit "population_size")) = Some (CInt 20)
     /\ cdict_get cfg (KStr (lit "max_iterations")) = Some (CInt 50)
     /\ cdict_get cfg (KStr (lit "verbosity")) = Some (CInt 1)
     /\ cdict_get cfg (KStr (lit "param_config")) = None
     /\ cdict_get cfg (KStr (lit "algorithm_config")) = None
     /\ cdict_get cfg (KStr (lit "n_params")) = None.
Proof.
  split; [reflexivity |].
  apply (generate_pybnf_config_dict_entries (general_example ss_alg_example) (CFunc 0)
           (CData table_example)).
  reflexivity.
Defined.

Lemma generate_pybnf_config_dict_params_witness :
  alg_shaped (algorithm_config (general_example ss_alg_example))
  /\ generate_pybnf_config_dict (general_example ss_alg_example) (CFunc 0) (CData table_example)
     = Ok (generated_example ss_alg_example)
  /\ forall x y v, cdict_get (generated_example ss_alg_example) (KTup x y) = Some v <->
       exists i p, nth_error params_example i = Some p /\ x = var_type p
                   /\ y = param_name i /\ v = param_value p.
Proof.
  split; [reflexivity |]. split; [vm_compute; reflexivity |].
  apply (generate_pybnf_config_dict_params (general_example ss_alg_example) (CFunc 0)
           (CData table_example) (generated_example ss_alg_example));
    [reflexivity | vm_compute; reflexivity].
Defined.

Lemma generate_pybnf_config_dict_alg_fields_witness :
  alg_shaped (algorithm_config (general_example pso_alg_example))
  /\ generate_pybnf_config_dict (general_example pso_alg_example) (CFunc 0) (CData table_example)
     = Ok (generated_example pso_alg_example)
  /\ cdict_get (alg_fields pso_alg_example) (KStr (lit "cognitive")) = Some (CFloat (3 # 2))
  /\ ~ In (lit "cognitive") (alg_adjusted ParticleSwarm)
  /\ cdict_get (generated_example pso_alg_example) (KStr (lit "cognitive")) = Some (CFloat (3 # 2)).
Proof.
  split; [reflexivity |]. split; [vm_compute; reflexivity |]. split; [reflexivity |].
  assert (Hn : ~ In (lit "cognitive") (alg_adjusted ParticleSwarm))
    by (cbn; intros [H | []]; discriminate).
  split; [exact Hn |].
  apply (generate_pybnf_config_dict_alg_fields (general_example pso_alg_example) (CFunc 0)
           (CData table_example) (generated_example pso_alg_example));
    [reflexivity | vm_compute; reflexivity | reflexivity | exact Hn].
Defined.

Lemma generate_pybnf_config_dict_scatter_search_witness :
  alg_shaped (algorithm_config (general_example ss_alg_example))
  /\ alg_cls (algorithm_config (general_example ss_alg_example)) = ScatterSearch
  /\ generate_pybnf_config_dict (general_example ss_alg_example) (CFunc 0) (CData table_example)
     = Ok (generated_example ss_alg_example)
  /\ cdict_get (alg_fields ss_alg_example) (KStr (lit "init_size")) = Some CNone
  /\ cdict_get (alg_fields ss_alg_example) (KStr (lit "reserve_size")) = Some CNone
  /\ cdict_get (generated_example ss_alg_example) (KStr (lit "init_size")) = Some (CInt 20)
  /\ cdict_get (generated_example ss_alg_example) (KStr (lit "reserve_size")) = Some (CInt 50).
Proof.
  split; [reflexivity |]. split; [reflexivity |]. split; [vm_compute; reflexivity |].
  split; [reflexivity |]. split; [reflexivity |].
  apply (generate_pybnf_config_dict_scatter_search (general_example ss_alg_example) (CFunc 0)
           (CData table_example) (generated_example ss_alg_example) CNone CNone);
    [reflexivity | reflexivity | vm_compute; reflexivity | reflexivity | reflexivity].
Defined.

Lemma generate_pybnf_config_dict_particle_swarm_witness :
  alg_shaped (algorithm_config (general_example pso_alg_example))
  /\ alg_cls (algorithm_config (general_example pso_alg_example)) = ParticleSwarm
  /\ generate_pybnf_config_dict (general_example pso_alg_example) (CFunc 0) (CData table_example)
     = Ok (generated_example pso_alg_example)
  /\ cdict_get (alg_fields pso_alg_example) (KStr (lit "particle_weight")) = Some (CFloat (7 # 10))
  /\ cdict_get (generated_example pso_alg_example) (KStr (lit "particle_weight_final"))
     = Some (CFloat (7 # 10)).
Proof.
  split; [reflexivity |]. split; [reflexivity |]. split; [vm_compute; reflexivity |].
  split; [reflexivity |].
  apply (generate_pybnf_config_dict_particle_swarm (general_example pso_alg_example) (CFunc 0)
           (CData table_example) (generated_example pso_alg_example) (CFloat (7 # 10)));
    [reflexivity | reflexivity | vm_compute; reflexivity | reflexivity].
Defined.

Lemma generate_pybnf_config_dict_parallel_tempering_witness :
  alg_shaped (algorithm_config (general_example pt_alg_example))
  /\ alg_cls (algorithm_config (general_example pt_alg_example)) = ParallelTempering
  /\ generate_pybnf_config_dict (general_example pt_alg_example) (CFunc 0) (CData table_example)
     = Ok (generated_example pt_alg_example)
  /\ cdict_get (alg_fields pt_alg_example) (KStr (lit "beta_range"))
     = Some (CTuple [CFloat (1 # 10); CFloat 1])
  /\ (CTuple [CFloat (1 # 10); CFloat 1] <> CNone ->
      cdict_get (generated_example pt_alg_example) (KStr (lit "beta")) = None
      /\ cdict_get (generated_example pt_alg_example) (KStr (lit "beta_range"))
         = Some (CTuple [CFloat (1 # 10); CFloat 1])).
Proof.
  split; [reflexivity |]. split; [reflexivity |]. split; [vm_compute; reflexivity |].
  split; [reflexivity |].
  apply (generate_pybnf_config_dict_parallel_tempering (general_example pt_alg_example) (CFunc 0)
           (CData table_example) (generated_example pt_alg_example)
           (CTuple [CFloat (1 # 10); CFloat 1]));
    [reflexivity | reflexivity | vm_compute; reflexivity | reflexivity].
Defined.
